(** * Switchtec diagnostic command layer (lib/diag.c)

    A shallow embedding of the diagnostic functions of the Switchtec
    management library: the request/response sequencing over the MRPC
    command channel, the decoding of the eye-capture and LTSSM log
    responses, and the generation dispatch of the equalization dumps.

    Conventions.
    - C integers are [Z]; a store into a narrower unsigned field, or a read
      of one, is written out with [u8]/[u16].
    - [switchtec_cmd] is the only way the code talks to the device.  A
      device answers a request as a function of everything that happened on
      the handle before, so a run is determined by the device and the
      history, and every run leaves a trace of the requests it issued and
      of its sleeps.  A sleep may change [errno], as [usleep] does when it
      is interrupted.  Messages printed to [stderr] are not part of a run.
    - Output parameters ([*lane_id], [pixels[]], [*log_count], [log_data[]],
      [*res]) are passed in with their initial contents and returned with
      their final contents.  A caller's array is a list; the code never
      checks an index against it, and the statements about its contents
      assume the caller's array is as long as the count passed with it.
    - Constants, tables and field layouts that the sources take from
      headers outside lib/diag.c are parameters ([Section] variables) or
      symbolic constructors.
    - [double] values are IEEE 754 binary64 numbers ([spec_float] with
      precision 53 and maximal exponent 1024).

    The first part covers the loopback set-up, the eye fetch, the LTSSM
    log and the equalization dumps.  The second part covers the other
    diagnostic commands of lib/diag.c, which issue requests of their own,
    and two register-map lookups of lib/platform/windows.c. *)

From Stdlib Require Import ZArith Lia Bool.
From Stdlib Require Import Floats.SpecFloat.
From stdpp Require Import base numbers list option.
From Equations Require Import Equations.
From Stdlib Require String.
Import Stdlib.Strings.String.StringSyntax.

Open Scope Z_scope.
Delimit Scope string_scope with string.

(** ** Machine integers *)

Definition u8 (x : Z) : Z := x mod 256.
Definition u16 (x : Z) : Z := x mod 65536.

(** [!!x] *)
Definition c_truth (x : Z) : Z := if x =? 0 then 0 else 1.

(** [ffs(3)]: one plus the index of the least significant set bit, 0 for 0.
    The lowest set bit of a negative [int] is that of its absolute value. *)
Fixpoint ctz (p : positive) : Z :=
  match p with
  | xO q => 1 + ctz q
  | _ => 0
  end.

Definition ffs (x : Z) : Z :=
  match x with
  | Z0 => 0
  | Zpos p => 1 + ctz p
  | Zneg p => 1 + ctz p
  end.

(** ** errno values (Linux numbering) *)

Definition EINTR : Z := 4.
Definition ENOMEM : Z := 12.
Definition EBUSY : Z := 16.
Definition EINVAL : Z := 22.
Definition EPROTO : Z := 71.

(** ** IEEE 754 binary64 *)

Definition double : Type := spec_float.
Definition double_of_Z (m : Z) : double := binary_normalize 53 1024 m 0 false.
Definition double_div (x y : double) : double := SFdiv 53 1024 x y.
Definition double_nan : double := S754_nan.

Definition is_nan (x : double) : bool :=
  match x with
  | S754_nan => true
  | _ => false
  end.

(** ** Wire structures *)

Inductive switchtec_gen : Type :=
| SWITCHTEC_GEN3
| SWITCHTEC_GEN4
| SWITCHTEC_GEN5
| SWITCHTEC_GEN_UNKNOWN.

Inductive loopback_type : Type :=
| DIAG_LOOPBACK_RX_TO_TX
| DIAG_LOOPBACK_TX_TO_RX.

(** [enum switchtec_diag_end] and [enum switchtec_diag_link]; a C enum
    parameter can carry a value outside the enumeration, which the code
    tests for. *)
Inductive switchtec_diag_end : Type :=
| SWITCHTEC_DIAG_LOCAL
| SWITCHTEC_DIAG_FAR_END
| SWITCHTEC_DIAG_END_INVALID.

Inductive switchtec_diag_link : Type :=
| SWITCHTEC_DIAG_LINK_CURRENT
| SWITCHTEC_DIAG_LINK_PREVIOUS
| SWITCHTEC_DIAG_LINK_INVALID.

(** The data mode byte of an eye response: the two enumerators the code
    switches on, or any other byte. *)
Inductive eye_data_mode : Type :=
| SWITCHTEC_DIAG_EYE_RAW
| SWITCHTEC_DIAG_EYE_RATIO
| EYE_DATA_MODE_OTHER (v : Z).

Record eye_raw : Type := {
  error_cnt_lo : Z;
  error_cnt_hi : Z;
  sample_cnt_lo : Z;
  sample_cnt_hi : Z
}.

(** [struct switchtec_diag_port_eye_fetch].  The [raw] and [ratio] arrays
    are read by index; their bounds are declared in a header outside these
    sources. *)
Record switchtec_diag_port_eye_fetch : Type := {
  status : Z;
  data_mode : eye_data_mode;
  lane_mask : nat -> Z;
  data_count_lo : Z;
  data_count_hi : Z;
  raw : nat -> eye_raw;
  ratio : nat -> Z
}.

(** One record of the Gen4 LTSSM dump: two 32-bit words. *)
Record ltssm_gen4_rec : Type := { dw0 : Z; dw1 : Z }.

(** One record of the Gen5 LTSSM dump ([struct log_buffer]): four 32-bit
    words, the first and third carved into bit-fields. *)
Record log_buffer : Type := {
  lb_dword0 : Z;
  time_stamp : Z;
  lb_dword2 : Z;
  cond : Z
}.

(** [struct switchtec_port_eq_coeff] and its device-side twins. *)
Record eq_cursor : Type := { pre : Z; post : Z }.

Record switchtec_port_eq_coeff : Type := {
  lane_cnt : Z;
  cursors : nat -> eq_cursor
}.

Record eq_table_step : Type := {
  pre_cursor : Z;
  post_cursor : Z;
  fom : Z;
  pre_cursor_up : Z;
  post_cursor_up : Z;
  error_status : Z;
  active_status : Z;
  speed : Z
}.

Record switchtec_port_eq_table : Type := {
  tbl_lane_id : Z;
  step_cnt : Z;
  steps : nat -> eq_table_step
}.

Record switchtec_port_eq_tx_fslf : Type := { fs : Z; lf : Z }.

(** ** The command channel *)

(** The requests issued by the functions below: the MRPC command together
    with the fields of the input structure the code fills in. *)
Inductive request : Type :=
(* MRPC_INT_LOOPBACK, MRPC_LOOPBACK_SET_INT_LOOPBACK *)
| LoopbackSetInt (port_id : Z) (type : loopback_type) (enable : Z)
(* MRPC_INT_LOOPBACK, MRPC_LOOPBACK_SET_LTSSM_LOOPBACK *)
| LoopbackSetLtssm (port_id : Z) (enable : Z) (speed : Z)
(* MRPC_EYE_OBSERVE, MRPC_EYE_OBSERVE_FETCH *)
| EyeObserveFetch
(* MRPC_DIAG_PORT_LTSSM_LOG: freeze/unfreeze, status, dump *)
| LtssmFreeze (sub_cmd : Z) (port : Z) (freeze : Z)
| LtssmStatusGen4 (sub_cmd : Z) (port : Z)
| LtssmDumpGen4 (sub_cmd : Z) (port : Z) (log_index : Z) (no_of_logs : Z)
| LtssmStatusGen5 (sub_cmd : Z) (port : Z)
| LtssmDumpGen5 (sub_cmd : Z) (port : Z) (log_index : Z) (no_of_logs : Z)
(* MRPC_PORT_EQ_STATUS / MRPC_EXT_RCVR_OBJ_DUMP, Gen4 *)
| Gen4EqCoeff (e : switchtec_diag_end) (l : switchtec_diag_link) (port_id : Z)
| Gen4EqTable (l : switchtec_diag_link) (port_id : Z)
| Gen4EqFslf (e : switchtec_diag_end) (l : switchtec_diag_link)
    (port_id : Z) (lane_id : Z)
(* MRPC_PORT_EQ_STATUS, Gen5 *)
| Gen5EqCoeff (e : switchtec_diag_end) (prev : bool) (port_id : Z)
| Gen5EqTable (prev : bool) (port_id : Z)
| Gen5EqFslf (e : switchtec_diag_end) (prev : bool)
    (port_id : Z) (lane_id : Z).

(** What the response buffer of each request is read as. *)
Definition reply (r : request) : Type :=
  match r with
  | LoopbackSetInt _ _ _ | LoopbackSetLtssm _ _ _ | LtssmFreeze _ _ _ => unit
  | EyeObserveFetch => switchtec_diag_port_eye_fetch
  | LtssmStatusGen4 _ _ => Z
  | LtssmDumpGen4 _ _ _ _ => nat -> ltssm_gen4_rec
  | LtssmStatusGen5 _ _ => Z
  | LtssmDumpGen5 _ _ _ _ => nat -> log_buffer
  | Gen4EqCoeff _ _ _ | Gen5EqCoeff _ _ _ => switchtec_port_eq_coeff
  | Gen4EqTable _ _ | Gen5EqTable _ _ => switchtec_port_eq_table
  | Gen4EqFslf _ _ _ _ | Gen5EqFslf _ _ _ _ => switchtec_port_eq_tx_fslf
  end.

Inductive event : Type :=
| EvCmd (r : request)
| EvSleep (usec : Z).

(** The state a call runs in: what happened on the handle so far, and
    [errno]. *)
Record world : Type := {
  w_trace : list event;
  w_errno : Z
}.

(** A device handle and what surrounds it: its generation, how it answers a
    request after a given history (the return value of [switchtec_cmd] and
    the response buffer), whether an allocation succeeds, and the [errno] a
    sleep leaves, given the one it found ([usleep] sets it when it is
    interrupted). *)
Record switchtec_dev : Type := {
  dev_gen : switchtec_gen;
  dev_exec : list event -> forall r : request, Z * reply r;
  dev_alloc : list event -> bool;
  dev_usleep : list event -> Z -> Z
}.

Definition switchtec_is_gen4 (dev : switchtec_dev) : bool :=
  match dev_gen dev with
  | SWITCHTEC_GEN4 => true
  | _ => false
  end.

Definition switchtec_is_gen5 (dev : switchtec_dev) : bool :=
  match dev_gen dev with
  | SWITCHTEC_GEN5 => true
  | _ => false
  end.

(** *** A small state monad over [world] *)

Definition M (A : Type) : Type := world -> A * world.

Definition ret {A} (a : A) : M A := fun w => (a, w).

Definition bind {A B} (m : M A) (k : A -> M B) : M B :=
  fun w => let (a, w') := m w in k a w'.

Declare Scope diag_scope.
Delimit Scope diag_scope with diag.
Notation "'let*' p ':=' m 'in' k" := (bind m (fun p => k))
  (at level 10, p pattern, m at level 100, k at level 200,
   format "'[v' 'let*'  p  ':='  m  'in' '/' k ']'") : diag_scope.
Open Scope diag_scope.

Definition set_errno (e : Z) : M unit :=
  fun w => (tt, {| w_trace := w_trace w; w_errno := e |}).

Definition switchtec_cmd (dev : switchtec_dev) (r : request) : M (Z * reply r) :=
  fun w => (dev_exec dev (w_trace w) r,
            {| w_trace := w_trace w ++ [EvCmd r]; w_errno := w_errno w |}).

Definition usleep (dev : switchtec_dev) (usec : Z) : M unit :=
  fun w => (tt, {| w_trace := w_trace w ++ [EvSleep usec];
                   w_errno := dev_usleep dev (w_trace w) (w_errno w) |}).

Definition malloc (dev : switchtec_dev) : M bool :=
  fun w => (dev_alloc dev (w_trace w), w).

(** ** Loopback *)

Section Loopback.

(** [enum switchtec_diag_loopback_enable]: the flag values are declared
    in a header outside these sources. *)
Variables SWITCHTEC_DIAG_LOOPBACK_RX_TO_TX
          SWITCHTEC_DIAG_LOOPBACK_TX_TO_RX
          SWITCHTEC_DIAG_LOOPBACK_LTSSM : Z.

Definition switchtec_diag_loopback_set (dev : switchtec_dev)
    (port_id enable ltssm_speed : Z) : M Z :=
  let ltssm_in :=
    LoopbackSetLtssm port_id
      (c_truth (Z.land enable SWITCHTEC_DIAG_LOOPBACK_LTSSM)) ltssm_speed in
  let* (r, _) := switchtec_cmd dev
      (LoopbackSetInt port_id DIAG_LOOPBACK_RX_TO_TX
         (c_truth (Z.land enable SWITCHTEC_DIAG_LOOPBACK_RX_TO_TX))) in
  if negb (r =? 0) then ret r else
  let* (r, _) := switchtec_cmd dev
      (LoopbackSetInt port_id DIAG_LOOPBACK_TX_TO_RX
         (c_truth (Z.land enable SWITCHTEC_DIAG_LOOPBACK_TX_TO_RX))) in
  if negb (r =? 0) then ret r else
  let* (r, _) := switchtec_cmd dev ltssm_in in
  if negb (r =? 0) then ret r else
  ret 0.

End Loopback.

(** ** LTSSM log *)

(** [struct switchtec_diag_ltssm_log] *)
Record switchtec_diag_ltssm_log : Type := {
  timestamp : Z;
  timestamp_high : Z;
  link_rate : spec_float;
  link_state : Z
}.

(** [memcpy] of the first [n] records of a response into a local array at
    offset [base]. *)
Definition copy_out {A} (base n : nat) (src : nat -> A) (arr : nat -> A)
    : nat -> A :=
  fun i => if decide (base <= i < base + n)%nat then src (i - base)%nat
           else arr i.

(** [for (i = 0; i < n; i++) dst[base + i] = f i] *)
Definition store_range {A} (base : Z) (n : Z) (f : nat -> A) (dst : list A)
    : list A :=
  foldl (fun d i => <[Z.to_nat (base + Z.of_nat i) := f i]> d) dst
        (seq 0 (Z.to_nat n)).

Definition MAX_LOG_READ : Z := 63.

(** The bit-fields of the first and third words of a Gen5 record, allocated
    from the least significant bit in declaration order:
    [rx_10s:3], [minor:4], [major:6], [link_rate:3], [rlov:1]; [ts_high:5]. *)
Definition lb_minor (b : log_buffer) : Z := Z.land (Z.shiftr (lb_dword0 b) 3) 15.
Definition lb_major (b : log_buffer) : Z := Z.land (Z.shiftr (lb_dword0 b) 7) 63.
Definition lb_link_rate (b : log_buffer) : Z :=
  Z.land (Z.shiftr (lb_dword0 b) 13) 7.
Definition lb_ts_high (b : log_buffer) : Z := Z.land (lb_dword2 b) 31.

(** The state fields of a Gen4 record, as the decode loop extracts them. *)
Definition gen4_rate (r : ltssm_gen4_rec) : Z := Z.land (Z.shiftr (dw0 r) 13) 3.
Definition gen4_major (r : ltssm_gen4_rec) : Z := Z.land (Z.shiftr (dw0 r) 7) 15.
Definition gen4_minor (r : ltssm_gen4_rec) : Z := Z.land (Z.shiftr (dw0 r) 3) 15.

Section Ltssm.

(** [switchtec_gen_transfers[]], the table of transfer rates, is defined
    outside these sources. *)
Variable switchtec_gen_transfers : Z -> spec_float.

Definition ltssm_gen4_entry (r : ltssm_gen4_rec) : switchtec_diag_ltssm_log :=
  let rate := gen4_rate r in
  let major := gen4_major r in
  let minor := gen4_minor r in
  {| timestamp := Z.land (dw1 r) 0x3ffffff;
     timestamp_high := 0;
     link_rate := switchtec_gen_transfers (rate + 1);
     link_state := Z.lor major (Z.shiftl minor 8) |}.

Definition ltssm_gen5_entry (b : log_buffer) : switchtec_diag_ltssm_log :=
  let link_state := Z.lor (lb_major b) (Z.shiftl (lb_minor b) 8) in
  let link_rate := switchtec_gen_transfers (lb_link_rate b + 1) in
  {| timestamp := time_stamp b;
     timestamp_high := lb_ts_high b;
     link_rate := link_rate;
     link_state := link_state |}.

(** The contents of the local [log_dump_out[256]] before the first
    response is copied into it. *)
Definition log_dump_out_init : nat -> ltssm_gen4_rec :=
  fun _ => {| dw0 := 0; dw1 := 0 |}.

(** The result is the return value, the final [*log_count] and the final
    [log_data]. *)
Definition switchtec_diag_ltssm_log_gen4 (dev : switchtec_dev)
    (port log_count : Z) (log_data : list switchtec_diag_ltssm_log)
    : M (Z * Z * list switchtec_diag_ltssm_log) :=
  (* freeze logs *)
  let* (r, _) := switchtec_cmd dev (LtssmFreeze 14 (u8 port) 1) in
  if negb (r =? 0) then ret (r, log_count, log_data) else
  (* get number of entries *)
  let* (r, log_num) := switchtec_cmd dev (LtssmStatusGen4 13 (u8 port)) in
  if negb (r =? 0) then ret (r, log_count, log_data) else
  let log_num := u8 log_num in
  let log_count := if log_num <? log_count then log_num else log_count in
  (* get log data *)
  let no_of_logs := u8 log_count in
  let* (r, log_dump_out) :=
    if no_of_logs <=? 126 then
      let* (r, out) :=
        switchtec_cmd dev (LtssmDumpGen4 15 (u8 port) 0 no_of_logs) in
      ret (r, copy_out 0 (Z.to_nat no_of_logs) out log_dump_out_init)
    else
      let* (r, out1) := switchtec_cmd dev (LtssmDumpGen4 15 (u8 port) 0 126) in
      let buf := copy_out 0 126 out1 log_dump_out_init in
      if negb (r =? 0) then ret (r, buf) else
      let no_of_logs := u8 (log_count - 126) in
      let* (r, out2) :=
        switchtec_cmd dev (LtssmDumpGen4 15 (u8 port) 126 no_of_logs) in
      ret (r, copy_out 126 (Z.to_nat no_of_logs) out2 buf) in
  if negb (r =? 0) then ret (r, log_count, log_data) else
  let log_data :=
    store_range 0 log_count (fun i => ltssm_gen4_entry (log_dump_out i))
      log_data in
  (* unfreeze logs *)
  let* (r, _) := switchtec_cmd dev (LtssmFreeze 14 (u8 port) 0) in
  ret (r, log_count, log_data).

(** The [while (avail_log > 0)] loop of the Gen5 retrieval.  Every
    iteration asks for at least one record, so [avail_log] decreases. *)
Equations? gen5_dump_loop (dev : switchtec_dev) (port cur_idx avail_log : Z)
    (log_data : list switchtec_diag_ltssm_log) (w : world)
    : list switchtec_diag_ltssm_log * world
    by wf (Z.to_nat avail_log) lt :=
  gen5_dump_loop dev port cur_idx avail_log log_data w
    with Z_lt_dec 0 avail_log => {
    | right _ := (log_data, w)
    | left Hpos :=
        let no_of_logs :=
          u16 (if avail_log >? MAX_LOG_READ then MAX_LOG_READ
               else avail_log) in
        let '((r, buf), w1) :=
          switchtec_cmd dev
            (LtssmDumpGen5 21 (u8 port) (u16 cur_idx) no_of_logs) w in
        if negb (r =? 0) then (log_data, w1) else
        let log_data1 :=
          store_range cur_idx no_of_logs
            (fun i => ltssm_gen5_entry (buf i)) log_data in
        if avail_log >? no_of_logs then
          gen5_dump_loop dev port (cur_idx + no_of_logs)
            (avail_log - no_of_logs) log_data1 w1
        else (log_data1, w1) }.
Proof.
  assert (1 <= no_of_logs); [|lia].
  subst no_of_logs. unfold u16, MAX_LOG_READ.
  destruct (Z.gtb_spec avail_log 63); rewrite Z.mod_small; lia.
Qed.

Definition switchtec_diag_ltssm_log_gen5 (dev : switchtec_dev)
    (port log_count : Z) (log_data : list switchtec_diag_ltssm_log)
    : M (Z * Z * list switchtec_diag_ltssm_log) :=
  (* freeze logs *)
  let* (r, _) := switchtec_cmd dev (LtssmFreeze 14 (u8 port) 1) in
  if negb (r =? 0) then ret (r, log_count, log_data) else
  (* get number of entries *)
  let* (r, trig_cnt) := switchtec_cmd dev (LtssmStatusGen5 20 (u8 port)) in
  if negb (r =? 0) then ret (r, log_count, log_data) else
  let trig_cnt := u16 trig_cnt in
  let log_count := if trig_cnt <? log_count then trig_cnt else log_count in
  let* log_data := gen5_dump_loop dev port 0 log_count log_data in
  (* unfreeze logs *)
  let* (r, _) := switchtec_cmd dev (LtssmFreeze 14 (u8 port) 0) in
  ret (r, log_count, log_data).

(** [switchtec_diag_ltssm_log]: the generation dispatch. *)
Definition switchtec_diag_ltssm_log_dispatch (dev : switchtec_dev)
    (port log_count : Z) (log_data : list switchtec_diag_ltssm_log)
    : M (Z * Z * list switchtec_diag_ltssm_log) :=
  if switchtec_is_gen5 dev then
    switchtec_diag_ltssm_log_gen5 dev port log_count log_data
  else if switchtec_is_gen4 dev then
    switchtec_diag_ltssm_log_gen4 dev port log_count log_data
  else ret (- EINVAL, log_count, log_data).

End Ltssm.

(** ** Eye capture *)

Definition switchtec_diag_eye_status (status : Z) : M Z :=
  if status =? 0 then ret 0
  else if status =? 2 then let* _ := set_errno EINVAL in ret (-1)
  else if status =? 3 then let* _ := set_errno EBUSY in ret (-1)
  else let* _ := set_errno EPROTO in ret (-1).

(** Wire words are given by their little-endian value. *)
Definition le32toh (x : Z) : Z := x.
Definition le64toh (x : Z) : Z := x.

Definition hi_lo_to_uint64 (lo hi : Z) : Z :=
  let r := le32toh hi in
  let r := Z.shiftl r 32 mod 2 ^ 64 in
  Z.lor r (le32toh lo).

Definition eye_raw_pixel (r : eye_raw) : double :=
  let errors := hi_lo_to_uint64 (error_cnt_lo r) (error_cnt_hi r) in
  let samples := hi_lo_to_uint64 (sample_cnt_lo r) (sample_cnt_hi r) in
  if negb (samples =? 0)
  then double_div (double_of_Z errors) (double_of_Z samples)
  else double_nan.

Definition eye_ratio_pixel (w : Z) : double :=
  double_div (double_of_Z (le32toh w)) (double_of_Z 65536).

(** One value of [switchtec_gen5_diag_eye_read]:
    [le64toh(out.ber_data[i]) / 281474976710656.] *)
Definition gen5_eye_ber (w : Z) : double :=
  double_div (double_of_Z (le64toh w)) (double_of_Z 281474976710656).

(** The body of the pixel loop: the [switch] on the data mode has no
    default case. *)
Definition eye_store_pixel (out : switchtec_diag_port_eye_fetch) (i : nat)
    (pixels : list double) : list double :=
  match data_mode out with
  | SWITCHTEC_DIAG_EYE_RAW => <[i := eye_raw_pixel (raw out i)]> pixels
  | SWITCHTEC_DIAG_EYE_RATIO => <[i := eye_ratio_pixel (ratio out i)]> pixels
  | EYE_DATA_MODE_OTHER _ => pixels
  end.

(** [for (i = 0; i < data_count && i < pixel_cnt; i++)]: [idxs] runs over
    the [i < pixel_cnt]. *)
Fixpoint eye_pixel_loop (out : switchtec_diag_port_eye_fetch)
    (data_count : Z) (idxs : list nat) (pixels : list double) : list double :=
  match idxs with
  | [] => pixels
  | i :: rest =>
      if Z.of_nat i <? data_count
      then eye_pixel_loop out data_count rest (eye_store_pixel out i pixels)
      else pixels
  end.

(** The scan of the four mask words: [lane_id] is set to [ffs] of each word
    in turn, and the scan stops at the first word for which it is nonzero. *)
Fixpoint eye_lane_scan (mask : nat -> Z) (idxs : list nat) (lane_id : Z) : Z :=
  match idxs with
  | [] => lane_id
  | i :: rest =>
      let lane_id := ffs (mask i) in
      if negb (lane_id =? 0) then lane_id
      else eye_lane_scan mask rest lane_id
  end.

Definition eye_data_count (out : switchtec_diag_port_eye_fetch) : Z :=
  Z.lor (data_count_lo out) (Z.shiftl (data_count_hi out) 8).

(** What follows the status check of a fetch. *)
Definition eye_fetch_finish (out : switchtec_diag_port_eye_fetch)
    (pixels : list double) (pixel_cnt : nat) (lane_id : Z)
    : Z * list double * Z :=
  let lane_id := eye_lane_scan (lane_mask out) (seq 0 4) lane_id in
  let data_count := eye_data_count out in
  let pixels := eye_pixel_loop out data_count (seq 0 pixel_cnt) pixels in
  (data_count, pixels, lane_id).

(** The [retry:] loop has no bound in the code; [fuel] bounds the number of
    requests, and [None] is a run that is still retrying when it is spent.
    The result is the return value, [pixels] and [*lane_id]. *)
Fixpoint switchtec_diag_eye_fetch (fuel : nat) (dev : switchtec_dev)
    (pixels : list double) (pixel_cnt : nat) (lane_id : Z)
    : M (option (Z * list double * Z)) :=
  match fuel with
  | O => ret None
  | S fuel' =>
      let* (r, out) := switchtec_cmd dev EyeObserveFetch in
      if negb (r =? 0) then ret (Some (r, pixels, lane_id)) else
      if status out =? 1 then
        let* _ := usleep dev 5000 in
        switchtec_diag_eye_fetch fuel' dev pixels pixel_cnt lane_id
      else
        let* r := switchtec_diag_eye_status (status out) in
        if negb (r =? 0) then ret (Some (r, pixels, lane_id)) else
        ret (Some (eye_fetch_finish out pixels pixel_cnt lane_id))
  end.

(** ** Port equalization *)

(** [res] is [None] for a null pointer. *)
Definition switchtec_gen5_diag_port_eq_tx_coeff (dev : switchtec_dev)
    (port_id : Z) (e : switchtec_diag_end) (l : switchtec_diag_link)
    (res : option switchtec_port_eq_coeff)
    : M (Z * option switchtec_port_eq_coeff) :=
  match res with
  | None => let* _ := set_errno (- EINVAL) in ret (-1, res)
  | Some res0 =>
      let* _ := match e with
                | SWITCHTEC_DIAG_END_INVALID => set_errno (- EINVAL)
                | _ => ret tt
                end in
      let* ok := malloc dev in
      if negb ok then let* _ := set_errno (- ENOMEM) in ret (-1, res) else
      let prev := match l with
                  | SWITCHTEC_DIAG_LINK_PREVIOUS => true
                  | _ => false
                  end in
      match e with
      | SWITCHTEC_DIAG_END_INVALID =>
          let* _ := set_errno (- EINVAL) in ret (0, res)
      | _ =>
          let* (r, out) := switchtec_cmd dev (Gen5EqCoeff e prev port_id) in
          if negb (r =? 0) then ret (r, res) else
          let cnt := lane_cnt out + 1 in
          ret (r, Some {| lane_cnt := cnt;
                          cursors := copy_out 0 (Z.to_nat cnt) (cursors out)
                                       (cursors res0) |})
      end
  end.

Definition switchtec_gen4_diag_port_eq_tx_coeff (dev : switchtec_dev)
    (port_id : Z) (e : switchtec_diag_end) (l : switchtec_diag_link)
    (res : option switchtec_port_eq_coeff)
    : M (Z * option switchtec_port_eq_coeff) :=
  match res, e, l with
  | None, _, _ => let* _ := set_errno (- EINVAL) in ret (-1, res)
  | _, SWITCHTEC_DIAG_END_INVALID, _ =>
      let* _ := set_errno (- EINVAL) in ret (-1, res)
  | _, _, SWITCHTEC_DIAG_LINK_INVALID =>
      let* _ := set_errno (- EINVAL) in ret (-1, res)
  | Some res0, _, _ =>
      let* (r, out) := switchtec_cmd dev (Gen4EqCoeff e l port_id) in
      if negb (r =? 0) then ret (-1, res) else
      let cnt := lane_cnt out + 1 in
      ret (0, Some {| lane_cnt := cnt;
                      cursors := copy_out 0 (Z.to_nat cnt) (cursors out)
                                   (cursors res0) |})
  end.

Definition switchtec_diag_port_eq_tx_coeff (dev : switchtec_dev)
    (port_id : Z) (e : switchtec_diag_end) (l : switchtec_diag_link)
    (res : option switchtec_port_eq_coeff)
    : M (Z * option switchtec_port_eq_coeff) :=
  if switchtec_is_gen5 dev then
    switchtec_gen5_diag_port_eq_tx_coeff dev port_id e l res
  else if switchtec_is_gen4 dev then
    switchtec_gen4_diag_port_eq_tx_coeff dev port_id e l res
  else ret (-1, res).

Definition gen5_table_step (s : eq_table_step) : eq_table_step :=
  {| pre_cursor := pre_cursor s;
     post_cursor := post_cursor s;
     fom := 0;
     pre_cursor_up := 0;
     post_cursor_up := 0;
     error_status := error_status s;
     active_status := active_status s;
     speed := speed s |}.

Definition switchtec_gen5_diag_port_eq_tx_table (dev : switchtec_dev)
    (port_id : Z) (l : switchtec_diag_link)
    (res : option switchtec_port_eq_table)
    : M (Z * option switchtec_port_eq_table) :=
  match res with
  | None => let* _ := set_errno (- EINVAL) in ret (-1, res)
  | Some res0 =>
      let prev := match l with
                  | SWITCHTEC_DIAG_LINK_PREVIOUS => true
                  | _ => false
                  end in
      let* (r, out) := switchtec_cmd dev (Gen5EqTable prev port_id) in
      if negb (r =? 0) then ret (-1, res) else
      ret (0, Some {| tbl_lane_id := tbl_lane_id out;
                      step_cnt := step_cnt out;
                      steps := copy_out 0 (Z.to_nat (step_cnt out))
                                 (fun i => gen5_table_step (steps out i))
                                 (steps res0) |})
  end.

Definition switchtec_gen4_diag_port_eq_tx_table (dev : switchtec_dev)
    (port_id : Z) (l : switchtec_diag_link)
    (res : option switchtec_port_eq_table)
    : M (Z * option switchtec_port_eq_table) :=
  match res, l with
  | None, _ => let* _ := set_errno (- EINVAL) in ret (-1, res)
  | _, SWITCHTEC_DIAG_LINK_INVALID =>
      let* _ := set_errno (- EINVAL) in ret (-1, res)
  | Some res0, _ =>
      let* (r, out) := switchtec_cmd dev (Gen4EqTable l port_id) in
      if negb (r =? 0) then ret (-1, res) else
      ret (0, Some {| tbl_lane_id := tbl_lane_id out;
                      step_cnt := step_cnt out;
                      steps := copy_out 0 (Z.to_nat (step_cnt out)) (steps out)
                                 (steps res0) |})
  end.

Definition switchtec_diag_port_eq_tx_table (dev : switchtec_dev)
    (port_id : Z) (l : switchtec_diag_link)
    (res : option switchtec_port_eq_table)
    : M (Z * option switchtec_port_eq_table) :=
  if switchtec_is_gen5 dev then
    switchtec_gen5_diag_port_eq_tx_table dev port_id l res
  else if switchtec_is_gen4 dev then
    switchtec_gen4_diag_port_eq_tx_table dev port_id l res
  else ret (-1, res).

Definition switchtec_gen5_diag_port_eq_tx_fslf (dev : switchtec_dev)
    (port_id lane_id : Z) (e : switchtec_diag_end) (l : switchtec_diag_link)
    (res : option switchtec_port_eq_tx_fslf)
    : M (Z * option switchtec_port_eq_tx_fslf) :=
  match res, e with
  | None, _ => let* _ := set_errno (- EINVAL) in ret (-1, res)
  | _, SWITCHTEC_DIAG_END_INVALID =>
      let* _ := set_errno (- EINVAL) in ret (-1, res)
  | Some _, _ =>
      let prev := match l with
                  | SWITCHTEC_DIAG_LINK_CURRENT => false
                  | _ => true
                  end in
      let* (r, out) := switchtec_cmd dev (Gen5EqFslf e prev port_id lane_id) in
      if negb (r =? 0) then ret (-1, res) else
      ret (0, Some {| fs := fs out; lf := lf out |})
  end.

Definition switchtec_gen4_diag_port_eq_tx_fslf (dev : switchtec_dev)
    (port_id lane_id : Z) (e : switchtec_diag_end) (l : switchtec_diag_link)
    (res : option switchtec_port_eq_tx_fslf)
    : M (Z * option switchtec_port_eq_tx_fslf) :=
  match res, e, l with
  | None, _, _ => let* _ := set_errno (- EINVAL) in ret (-1, res)
  | _, SWITCHTEC_DIAG_END_INVALID, _ =>
      let* _ := set_errno (- EINVAL) in ret (-1, res)
  | _, _, SWITCHTEC_DIAG_LINK_INVALID =>
      let* _ := set_errno (- EINVAL) in ret (-1, res)
  | Some _, _, _ =>
      let* (r, out) := switchtec_cmd dev (Gen4EqFslf e l port_id lane_id) in
      if negb (r =? 0) then ret (-1, res) else
      ret (0, Some {| fs := fs out; lf := lf out |})
  end.

Definition switchtec_diag_port_eq_tx_fslf (dev : switchtec_dev)
    (port_id lane_id : Z) (e : switchtec_diag_end) (l : switchtec_diag_link)
    (res : option switchtec_port_eq_tx_fslf)
    : M (Z * option switchtec_port_eq_tx_fslf) :=
  if switchtec_is_gen5 dev then
    switchtec_gen5_diag_port_eq_tx_fslf dev port_id lane_id e l res
  else if switchtec_is_gen4 dev then
    switchtec_gen4_diag_port_eq_tx_fslf dev port_id lane_id e l res
  else ret (-1, res).

(** ** Reading a run *)

(** The status a device returns for request [r] after history [h]. *)
Definition cmd_status (dev : switchtec_dev) (h : list event) (r : request) : Z :=
  fst (dev_exec dev h r).

(** Issue the requests of a list in order, stopping after the first one that
    fails: the requests issued and the status of the last one (0 if none). *)
Fixpoint issue_until_failure (dev : switchtec_dev) (h : list event)
    (reqs : list request) : list request * Z :=
  match reqs with
  | [] => ([], 0)
  | r :: rest =>
      let s := cmd_status dev h r in
      if s =? 0 then
        let (l, s') := issue_until_failure dev (h ++ [EvCmd r]) rest in
        (r :: l, s')
      else ([r], s)
  end.

(** Every request of the list succeeds when issued in order after [h]. *)
Fixpoint all_succeed (dev : switchtec_dev) (h : list event)
    (reqs : list request) : Prop :=
  match reqs with
  | [] => True
  | r :: rest => cmd_status dev h r = 0 /\ all_succeed dev (h ++ [EvCmd r]) rest
  end.

Definition is_unfreeze (e : event) : bool :=
  match e with
  | EvCmd (LtssmFreeze _ _ f) => f =? 0
  | _ => false
  end.

Definition is_dump (e : event) : bool :=
  match e with
  | EvCmd (LtssmDumpGen4 _ _ _ _) | EvCmd (LtssmDumpGen5 _ _ _ _) => true
  | _ => false
  end.

(** The clamped entry count of a retrieval. *)
Definition clamp_count (reported log_count : Z) : Z :=
  if reported <? log_count then reported else log_count.

(** The dump requests a Gen4 retrieval has to issue for a clamped count. *)
Definition gen4_dump_requests (port n : Z) : list request :=
  if u8 n <=? 126 then [LtssmDumpGen4 15 (u8 port) 0 (u8 n)]
  else [LtssmDumpGen4 15 (u8 port) 0 126;
        LtssmDumpGen4 15 (u8 port) 126 (u8 (n - 126))].

(** The chunks of a Gen5 dump of [avail] records starting at [cur]: chunk
    [k] starts at [cur + 63 k] and asks for what remains, at most 63. *)
Definition gen5_chunk (cur avail : Z) (k : nat) : Z * Z :=
  (cur + MAX_LOG_READ * Z.of_nat k,
   Z.min (avail - MAX_LOG_READ * Z.of_nat k) MAX_LOG_READ).

Definition gen5_chunks (cur avail : Z) : list (Z * Z) :=
  map (gen5_chunk cur avail)
      (seq 0 (Z.to_nat ((avail + MAX_LOG_READ - 1) / MAX_LOG_READ))).

Definition gen5_dump_request (port : Z) (c : Z * Z) : request :=
  LtssmDumpGen5 21 (u8 port) (fst c) (snd c).

Definition gen5_dump_requests (port n : Z) : list request :=
  map (gen5_dump_request port) (gen5_chunks 0 n).

(** Replaying a list of Gen5 chunks against the device: each chunk is
    requested and, if the request succeeds, its records are decoded into
    [log_data] at the chunk's index; the first failure ends the replay. *)
Fixpoint gen5_replay (transfers : Z -> spec_float) (dev : switchtec_dev)
    (port : Z) (h : list event) (chunks : list (Z * Z))
    (log_data : list switchtec_diag_ltssm_log)
    : list switchtec_diag_ltssm_log * list event :=
  match chunks with
  | [] => (log_data, h)
  | c :: rest =>
      let '(s, buf) := dev_exec dev h (LtssmDumpGen5 21 (u8 port) (fst c) (snd c)) in
      let h' := h ++ [EvCmd (LtssmDumpGen5 21 (u8 port) (fst c) (snd c))] in
      if s =? 0 then
        gen5_replay transfers dev port h' rest
          (store_range (fst c) (snd c)
             (fun i => ltssm_gen5_entry transfers (buf i)) log_data)
      else (log_data, h')
  end.

(** ** Sample devices *)

Definition eye_raw_zero : eye_raw :=
  {| error_cnt_lo := 0; error_cnt_hi := 0;
     sample_cnt_lo := 0; sample_cnt_hi := 0 |}.

Definition eye_fetch_zero : switchtec_diag_port_eye_fetch :=
  {| status := 0; data_mode := SWITCHTEC_DIAG_EYE_RAW;
     lane_mask := fun _ => 0; data_count_lo := 0; data_count_hi := 0;
     raw := fun _ => eye_raw_zero; ratio := fun _ => 0 |}.

Definition eq_coeff_zero : switchtec_port_eq_coeff :=
  {| lane_cnt := 0; cursors := fun _ => {| pre := 0; post := 0 |} |}.

Definition eq_table_zero : switchtec_port_eq_table :=
  {| tbl_lane_id := 0; step_cnt := 0;
     steps := fun _ => {| pre_cursor := 0; post_cursor := 0; fom := 0;
                          pre_cursor_up := 0; post_cursor_up := 0;
                          error_status := 0; active_status := 0;
                          speed := 0 |} |}.

Definition default_reply (r : request) : reply r :=
  match r with
  | LoopbackSetInt _ _ _ => tt
  | LoopbackSetLtssm _ _ _ => tt
  | EyeObserveFetch => eye_fetch_zero
  | LtssmFreeze _ _ _ => tt
  | LtssmStatusGen4 _ _ => 0
  | LtssmDumpGen4 _ _ i _ => fun j => {| dw0 := 8 * (i + Z.of_nat j); dw1 := 0 |}
  | LtssmStatusGen5 _ _ => 0
  | LtssmDumpGen5 _ _ i _ =>
      fun j => {| lb_dword0 := 8 * (i + Z.of_nat j); time_stamp := 0;
                  lb_dword2 := 0; cond := 0 |}
  | Gen4EqCoeff _ _ _ => eq_coeff_zero
  | Gen4EqTable _ _ => eq_table_zero
  | Gen4EqFslf _ _ _ _ => {| fs := 0; lf := 0 |}
  | Gen5EqCoeff _ _ _ => eq_coeff_zero
  | Gen5EqTable _ _ => eq_table_zero
  | Gen5EqFslf _ _ _ _ => {| fs := 0; lf := 0 |}
  end.

(** A device that reports [count] log entries and rejects, with status 5,
    the requests selected by [fails]. *)
Definition sample_reply (count : Z) (r : request) : reply r :=
  match r with
  | LtssmStatusGen4 _ _ => count
  | LtssmStatusGen5 _ _ => count
  | r' => default_reply r'
  end.

Definition sample_dev (gen : switchtec_gen) (count : Z)
    (fails : request -> bool) : switchtec_dev :=
  {| dev_gen := gen;
     dev_exec := fun _ r => (if fails r then 5 else 0, sample_reply count r);
     dev_alloc := fun _ => true;
     dev_usleep := fun _ e => e |}.

Definition never (r : request) : bool := false.

Definition second_loopback (r : request) : bool :=
  match r with
  | LoopbackSetInt _ DIAG_LOOPBACK_TX_TO_RX _ => true
  | _ => false
  end.

Definition dump_at (index : Z) (r : request) : bool :=
  match r with
  | LtssmDumpGen4 _ _ i _ | LtssmDumpGen5 _ _ i _ => i =? index
  | _ => false
  end.

(** A ratio-mode eye response with [count] pixels for lane mask word 0 =
    [mask0]; pixel [i] carries the wire value [i * 16384]. *)
Definition eye_ratio_reply (st : Z) (mask0 : Z) (count : Z)
    : switchtec_diag_port_eye_fetch :=
  {| status := st; data_mode := SWITCHTEC_DIAG_EYE_RATIO;
     lane_mask := fun i => match i with O => mask0 | _ => 0 end;
     data_count_lo := count mod 256; data_count_hi := count / 256;
     raw := fun _ => eye_raw_zero;
     ratio := fun i => Z.of_nat i * 16384 |}.

Definition is_fetch (e : event) : bool :=
  match e with
  | EvCmd EyeObserveFetch => true
  | _ => false
  end.

(** A device that answers the first [busy] fetch requests of a history with
    the busy status 1 and the following ones with [done]; its sleeps are
    not interrupted. *)
Definition eye_dev (busy : nat) (done : switchtec_diag_port_eye_fetch)
    : switchtec_dev :=
  {| dev_gen := SWITCHTEC_GEN4;
     dev_exec := fun h r =>
       match r with
       | EyeObserveFetch =>
           if (length (List.filter is_fetch h) <? busy)%nat
           then (0, eye_ratio_reply 1 0 0)
           else (0, done)
       | r' => (0, default_reply r')
       end;
     dev_alloc := fun _ => true;
     dev_usleep := fun _ e => e |}.

Definition world0 : world := {| w_trace := []; w_errno := 0 |}.

(** A table of transfer rates in the shape of the library's:
    0, 2.5, 5, 8, 16, 32. *)
Definition sample_transfers (i : Z) : spec_float :=
  nth (Z.to_nat i)
      [double_of_Z 0; double_div (double_of_Z 5) (double_of_Z 2);
       double_of_Z 5; double_of_Z 8; double_of_Z 16; double_of_Z 32]
      (double_of_Z 0).

Definition blank_entry : switchtec_diag_ltssm_log :=
  {| timestamp := 0; timestamp_high := 0;
     link_rate := S754_zero false; link_state := 0 |}.

(** A caller's array of [n] entries. *)
Definition blank_log (n : nat) : list switchtec_diag_ltssm_log :=
  replicate n blank_entry.

(** The response buffer of chunk [k] of a Gen5 dump of [n] records, when
    the chunks before it succeeded after history [h]. *)
Definition gen5_chunk_buffer (dev : switchtec_dev) (port : Z) (h : list event)
    (cur n : Z) (k : nat) : nat -> log_buffer :=
  (dev_exec dev
     (h ++ map EvCmd (take k (map (gen5_dump_request port) (gen5_chunks cur n))))
     (LtssmDumpGen5 21 (u8 port) (fst (gen5_chunk cur n k))
        (snd (gen5_chunk cur n k)))).2.

(** The value the pixel loop stores at index [i] in the two modes it
    handles. *)
Definition eye_pixel (out : switchtec_diag_port_eye_fetch) (i : nat) : double :=
  match data_mode out with
  | SWITCHTEC_DIAG_EYE_RATIO => eye_ratio_pixel (ratio out i)
  | _ => eye_raw_pixel (raw out i)
  end.

(** [eye_answers dev w k out w']: from [w], the device answers [k] fetch
    requests with the busy status 1, each followed by the 5 ms sleep, and
    the next one with [out], whose status is not 1; [w'] is the state
    after that request, with the [errno] the sleeps left. *)
Inductive eye_answers (dev : switchtec_dev)
    : world -> nat -> switchtec_diag_port_eye_fetch -> world -> Prop :=
| eye_answers_done w out :
    dev_exec dev (w_trace w) EyeObserveFetch = (0, out) ->
    status out <> 1 ->
    eye_answers dev w 0 out
      {| w_trace := w_trace w ++ [EvCmd EyeObserveFetch];
         w_errno := w_errno w |}
| eye_answers_busy w busy k out w' :
    dev_exec dev (w_trace w) EyeObserveFetch = (0, busy) ->
    status busy = 1 ->
    eye_answers dev
      {| w_trace := w_trace w ++ [EvCmd EyeObserveFetch; EvSleep 5000];
         w_errno := dev_usleep dev (w_trace w ++ [EvCmd EyeObserveFetch])
                      (w_errno w) |} k out w' ->
    eye_answers dev w (S k) out w'.

(** [double_scale x k] is [x] with its exponent lowered by [k]: the value
    of [x] divided by [2 ^ k], without any rounding. *)
Definition double_scale (x : double) (k : Z) : double :=
  match x with
  | S754_finite s m e => S754_finite s m (e - k)
  | _ => x
  end.

(** [double_is_int x n]: the double [x] is the integer [n], exactly. *)
Definition double_is_int (x : double) (n : Z) : Prop :=
  match x with
  | S754_zero _ => n = 0
  | S754_finite false m e => e <= 0 /\ Zpos m = n * 2 ^ (- e)
  | _ => False
  end.

(** ** More devices and readings *)

(** A device that rejects the status query of the LTSSM log. *)
Definition status_query (r : request) : bool :=
  match r with
  | LtssmStatusGen4 _ _ | LtssmStatusGen5 _ _ => true
  | _ => false
  end.

(** A device that rejects the freeze and unfreeze requests. *)
Definition freeze_request (r : request) : bool :=
  match r with
  | LtssmFreeze _ _ _ => true
  | _ => false
  end.

(** Record [j] of a Gen4 dump of [n] records, requested after history [h]:
    the first 126 come with the first response, the others with the
    second. *)
Definition gen4_dump_record (dev : switchtec_dev) (port : Z) (h : list event)
    (n : Z) (j : nat) : ltssm_gen4_rec :=
  let first := LtssmDumpGen4 15 (u8 port) 0 (Z.min n 126) in
  if (j <? 126)%nat then (dev_exec dev h first).2 j
  else (dev_exec dev (h ++ [EvCmd first])
          (LtssmDumpGen4 15 (u8 port) 126 (n - 126))).2 (j - 126)%nat.

(** [busy_fetches k]: [k] fetch requests, each followed by the 5 ms sleep. *)
Fixpoint busy_fetches (k : nat) : list event :=
  match k with
  | O => []
  | S k' => EvCmd EyeObserveFetch :: EvSleep 5000 :: busy_fetches k'
  end.

(** [eye_busy dev h k]: after history [h] the device accepts [k] fetch
    requests in a row and answers each with the busy status 1. *)
Fixpoint eye_busy (dev : switchtec_dev) (h : list event) (k : nat) : Prop :=
  match k with
  | O => True
  | S k' =>
      (dev_exec dev h EyeObserveFetch).1 = 0 /\
      status (dev_exec dev h EyeObserveFetch).2 = 1 /\
      eye_busy dev (h ++ [EvCmd EyeObserveFetch; EvSleep 5000]) k'
  end.

(** The [errno] a response status other than 0 is reported with. *)
Definition eye_status_errno (status : Z) : Z :=
  if status =? 2 then EINVAL else if status =? 3 then EBUSY else EPROTO.

(** A device that answers the first [busy] fetch requests of a history with
    the busy status 1 and the following ones with status [r] and response
    [done]; each of its sleeps is interrupted and leaves [errno = EINTR]. *)
Definition eye_intr_dev (busy : nat) (r : Z)
    (done : switchtec_diag_port_eye_fetch) : switchtec_dev :=
  {| dev_gen := SWITCHTEC_GEN4;
     dev_exec := fun h q =>
       match q with
       | EyeObserveFetch =>
           if (length (List.filter is_fetch h) <? busy)%nat
           then (0, eye_ratio_reply 1 0 0)
           else (r, done)
       | q' => (0, default_reply q')
       end;
     dev_alloc := fun _ => true;
     dev_usleep := fun _ _ => EINTR |}.

(** The [errno] that [k] busy answers after history [h] leave, each
    followed by the 5 ms sleep, starting from [errno = e]. *)
Fixpoint busy_errno (dev : switchtec_dev) (h : list event) (k : nat) (e : Z)
    : Z :=
  match k with
  | O => e
  | S k' =>
      busy_errno dev (h ++ [EvCmd EyeObserveFetch; EvSleep 5000]) k'
        (dev_usleep dev (h ++ [EvCmd EyeObserveFetch]) e)
  end.


(** The outcome of a call that is refused for its arguments: -1 with
    [errno] set to [-EINVAL] (the negative number, as the code assigns it)
    and nothing issued. *)
Definition refused {A} (w : world) (res : A) : Z * A * world :=
  ((-1, res), {| w_trace := w_trace w; w_errno := - EINVAL |}).


(** * The other diagnostic commands

    The functions of this part issue requests of their own.  They run over
    a channel built like the one above. *)

(** [struct range] *)
Record range : Type := { range_start : Z; range_end : Z; range_step : Z }.

(** The input structures of [MRPC_EYE_OBSERVE] whose response is read as a
    [struct switchtec_diag_port_eye_cmd], of which only [status] is used:
    set data mode, start and cancel. *)
Inductive eye_observe_in : Type :=
| EyeSetDataMode (mode : eye_data_mode)
| EyeStart (lane_mask0 lane_mask1 lane_mask2 lane_mask3 : Z)
    (x_start y_start x_end y_end x_step y_step step_interval : Z)
| EyeCancel.

(** One lane of the response to [MRPC_CROSS_HAIR_GET]
    ([struct switchtec_diag_cross_hair_get]): the members the code reads. *)
Record cross_hair_get_out : Type := {
  chg_lane_id : Z;
  chg_state : Z;
  chg_prev_state : Z;
  chg_x_pos : Z;
  chg_y_pos : Z;
  chg_eye_left_lim : Z;
  chg_eye_right_lim : Z;
  chg_eye_bot_left_lim : Z;
  chg_eye_bot_right_lim : Z;
  chg_eye_top_left_lim : Z;
  chg_eye_top_right_lim : Z
}.

(** [struct switchtec_diag_cross_hair]: the members the code assigns. *)
Record switchtec_diag_cross_hair : Type := {
  ch_state : Z;
  ch_lane_id : Z;
  ch_prev_state : Z;
  ch_x_pos : Z;
  ch_y_pos : Z;
  ch_eye_left_lim : Z;
  ch_eye_right_lim : Z;
  ch_eye_bot_left_lim : Z;
  ch_eye_bot_right_lim : Z;
  ch_eye_top_left_lim : Z;
  ch_eye_top_right_lim : Z
}.

(** [struct switchtec_gen5_diag_eye_read_out] *)
Record gen5_eye_read_out : Type := {
  num_phases : Z;
  ber_data : nat -> Z
}.

(** [struct switchtec_diag_loopback_ltssm_out] *)
Record loopback_ltssm_out : Type := { lt_enabled : Z; lt_speed : Z }.

(** [struct switchtec_rcvr_obj] and its device-side twin. *)
Record switchtec_rcvr_obj : Type := {
  ro_port_id : Z;
  ro_lane_id : Z;
  ctle : Z;
  target_amplitude : Z;
  speculative_dfe : Z;
  dynamic_dfe : nat -> Z
}.

(** [struct switchtec_rcvr_ext] and its device-side twin. *)
Record switchtec_rcvr_ext : Type := {
  ctle2_rx_mode : Z;
  dtclk_9 : Z;
  dtclk_8_6 : Z;
  dtclk_5 : Z
}.

(** [struct switchtec_mrpc]; a null string pointer is [None]. *)
Record switchtec_mrpc : Type := {
  tag : option String.string;
  desc : option String.string;
  reserved : bool
}.

Inductive diag_request : Type :=
(* MRPC_CROSS_HAIR, MRPC_CROSS_HAIR_GET *)
| CrossHairGet (lane_id : Z) (num_lanes : Z)
(* MRPC_EYE_OBSERVE: set data mode, start, cancel *)
| EyeObserve (i : eye_observe_in)
(* MRPC_GEN5_EYE_CAPTURE, MRPC_EYE_CAP_READ_GEN5 *)
| Gen5EyeRead (lane_id : Z) (bin : Z)
(* MRPC_INT_LOOPBACK, MRPC_LOOPBACK_GET_INT_LOOPBACK *)
| LoopbackGetInt (port_id : Z) (type : loopback_type)
(* MRPC_INT_LOOPBACK, MRPC_LOOPBACK_GET_LTSSM_LOOPBACK *)
| LoopbackGetLtssm (port_id : Z)
(* MRPC_RCVR_OBJ_DUMP *)
| RcvrObjDump (port_id : Z) (lane_id : Z)
(* MRPC_EXT_RCVR_OBJ_DUMP, MRPC_EXT_RCVR_OBJ_DUMP_PREV *)
| ExtRcvrObjDumpPrev (port_id : Z) (lane_id : Z)
(* MRPC_EXT_RCVR_OBJ_DUMP, MRPC_EXT_RCVR_OBJ_DUMP_RCVR_EXT[_PREV] *)
| ExtRcvrExt (prev : bool) (port_id : Z) (lane_id : Z)
(* MRPC_MRPC_PERM_TABLE_GET *)
| PermTableGet.

Definition diag_reply (r : diag_request) : Type :=
  match r with
  | CrossHairGet _ _ => nat -> cross_hair_get_out
  | EyeObserve _ => Z
  | Gen5EyeRead _ _ => gen5_eye_read_out
  | LoopbackGetInt _ _ => Z
  | LoopbackGetLtssm _ => loopback_ltssm_out
  | RcvrObjDump _ _ | ExtRcvrObjDumpPrev _ _ => switchtec_rcvr_obj
  | ExtRcvrExt _ _ _ => switchtec_rcvr_ext
  | PermTableGet => nat -> Z
  end.

Inductive diag_event : Type :=
| DCmd (r : diag_request)
| DSleep (usec : Z).

Record diag_world : Type := {
  dw_trace : list diag_event;
  dw_errno : Z
}.

(** A handle for these commands: how the device answers a request after a
    given history, and the [errno] a sleep leaves, given the one it found. *)
Record diag_dev : Type := {
  dd_exec : list diag_event -> forall r : diag_request, Z * diag_reply r;
  dd_usleep : list diag_event -> Z -> Z
}.

Definition DM (A : Type) : Type := diag_world -> A * diag_world.

Definition dret {A} (a : A) : DM A := fun w => (a, w).

Definition dbind {A B} (m : DM A) (k : A -> DM B) : DM B :=
  fun w => let (a, w') := m w in k a w'.

Notation "'let+' p ':=' m 'in' k" := (dbind m (fun p => k))
  (at level 10, p pattern, m at level 100, k at level 200,
   format "'[v' 'let+'  p  ':='  m  'in' '/' k ']'") : diag_scope.

(** [switchtec_cmd] on this channel. *)
Definition diag_cmd (dev : diag_dev) (r : diag_request)
    : DM (Z * diag_reply r) :=
  fun w => (dd_exec dev (dw_trace w) r,
            {| dw_trace := dw_trace w ++ [DCmd r]; dw_errno := dw_errno w |}).

Definition diag_usleep (dev : diag_dev) (usec : Z) : DM unit :=
  fun w => (tt, {| dw_trace := dw_trace w ++ [DSleep usec];
                   dw_errno := dd_usleep dev (dw_trace w) (dw_errno w) |}).

Definition get_errno : DM Z := fun w => (dw_errno w, w).

Definition put_errno (e : Z) : DM unit :=
  fun w => (tt, {| dw_trace := dw_trace w; dw_errno := e |}).

(** A computation of the first channel that issues no request, run here:
    it sees and leaves [errno]. *)
Definition errno_only {A} (m : M A) : DM A :=
  fun w => let (a, w') := m {| w_trace := []; w_errno := dw_errno w |} in
           (a, {| dw_trace := dw_trace w; dw_errno := w_errno w' |}).

(** ** Cross hair *)

Section CrossHair.

(** [enum switchtec_diag_cross_hair_state]: the values are declared in a
    header outside these sources. *)
Variables SWITCHTEC_DIAG_CROSS_HAIR_WAITING
          SWITCHTEC_DIAG_CROSS_HAIR_DONE
          SWITCHTEC_DIAG_CROSS_HAIR_ERROR : Z.

(** The body of the loop: [res[i]] is cleared, then filled from [out[i]]
    according to the state. *)
Definition cross_hair_entry (o : cross_hair_get_out) : switchtec_diag_cross_hair :=
  let z := {| ch_state := chg_state o; ch_lane_id := chg_lane_id o;
              ch_prev_state := 0; ch_x_pos := 0; ch_y_pos := 0;
              ch_eye_left_lim := 0; ch_eye_right_lim := 0;
              ch_eye_bot_left_lim := 0; ch_eye_bot_right_lim := 0;
              ch_eye_top_left_lim := 0; ch_eye_top_right_lim := 0 |} in
  if chg_state o <=? SWITCHTEC_DIAG_CROSS_HAIR_WAITING then z
  else if chg_state o <? SWITCHTEC_DIAG_CROSS_HAIR_DONE then
    {| ch_state := chg_state o; ch_lane_id := chg_lane_id o;
       ch_prev_state := 0;
       ch_x_pos := chg_x_pos o; ch_y_pos := chg_y_pos o;
       ch_eye_left_lim := 0; ch_eye_right_lim := 0;
       ch_eye_bot_left_lim := 0; ch_eye_bot_right_lim := 0;
       ch_eye_top_left_lim := 0; ch_eye_top_right_lim := 0 |}
  else if chg_state o =? SWITCHTEC_DIAG_CROSS_HAIR_DONE then
    {| ch_state := chg_state o; ch_lane_id := chg_lane_id o;
       ch_prev_state := 0; ch_x_pos := 0; ch_y_pos := 0;
       ch_eye_left_lim := chg_eye_left_lim o;
       ch_eye_right_lim := chg_eye_right_lim o;
       ch_eye_bot_left_lim := chg_eye_bot_left_lim o;
       ch_eye_bot_right_lim := chg_eye_bot_right_lim o;
       ch_eye_top_left_lim := chg_eye_top_left_lim o;
       ch_eye_top_right_lim := chg_eye_top_right_lim o |}
  else if chg_state o =? SWITCHTEC_DIAG_CROSS_HAIR_ERROR then
    {| ch_state := chg_state o; ch_lane_id := chg_lane_id o;
       ch_prev_state := chg_prev_state o;
       ch_x_pos := chg_x_pos o; ch_y_pos := chg_y_pos o;
       ch_eye_left_lim := 0; ch_eye_right_lim := 0;
       ch_eye_bot_left_lim := 0; ch_eye_bot_right_lim := 0;
       ch_eye_top_left_lim := 0; ch_eye_top_right_lim := 0 |}
  else z.

(** The result is the return value and the final [res]. *)
Definition switchtec_diag_cross_hair_get (dev : diag_dev)
    (start_lane_id num_lanes : Z) (res : list switchtec_diag_cross_hair)
    : DM (Z * list switchtec_diag_cross_hair) :=
  let+ (r, out) := diag_cmd dev (CrossHairGet start_lane_id num_lanes) in
  if negb (r =? 0) then dret (r, res) else
  dret (0, store_range 0 num_lanes (fun i => cross_hair_entry (out i)) res).

End CrossHair.

(** ** Eye capture: mode, start, cancel, Gen5 read *)

Definition switchtec_diag_eye_cmd (dev : diag_dev) (i : eye_observe_in) : DM Z :=
  let+ (r, out_status) := diag_cmd dev (EyeObserve i) in
  if negb (r =? 0) then dret r else
  errno_only (switchtec_diag_eye_status out_status).

Definition switchtec_diag_eye_set_mode (dev : diag_dev) (mode : eye_data_mode)
    : DM Z :=
  switchtec_diag_eye_cmd dev (EyeSetDataMode mode).

Definition switchtec_diag_eye_start (dev : diag_dev) (lane_mask : nat -> Z)
    (x_range y_range : range) (step_interval : Z) : DM Z :=
  let+ r := switchtec_diag_eye_cmd dev
      (EyeStart (lane_mask 0%nat) (lane_mask 1%nat) (lane_mask 2%nat)
         (lane_mask 3%nat)
         (range_start x_range) (range_start y_range)
         (range_end x_range) (range_end y_range)
         (range_step x_range) (range_step y_range) step_interval) in
  (* Add delay so hardware has enough time to start *)
  let+ err := get_errno in
  let+ _ := diag_usleep dev 200000 in
  let+ _ := put_errno err in
  dret r.

Definition switchtec_diag_eye_cancel (dev : diag_dev) : DM Z :=
  let+ r := switchtec_diag_eye_cmd dev EyeCancel in
  (* Add delay so hardware can stop completely *)
  let+ err := get_errno in
  let+ _ := diag_usleep dev 200000 in
  let+ _ := put_errno err in
  dret r.

(** The result is the return value, [*num_phases] and [ber_data]. *)
Definition switchtec_gen5_diag_eye_read (dev : diag_dev) (lane_id bin : Z)
    (num_phases0 : Z) (ber : list double) : DM (Z * Z * list double) :=
  let+ (r, out) := diag_cmd dev (Gen5EyeRead lane_id bin) in
  if negb (r =? 0) then dret (r, num_phases0, ber) else
  dret (r, num_phases out,
        store_range 0 (num_phases out)
          (fun i => gen5_eye_ber (ber_data out i)) ber).

(** ** Loopback state *)

Section LoopbackGet.

Variables SWITCHTEC_DIAG_LOOPBACK_RX_TO_TX
          SWITCHTEC_DIAG_LOOPBACK_TX_TO_RX
          SWITCHTEC_DIAG_LOOPBACK_LTSSM : Z.

(** [enabled] and [ltssm_speed] are [None] for a null pointer.  The result
    is the return value and what the two pointers refer to afterwards. *)
Definition switchtec_diag_loopback_get (dev : diag_dev) (port_id : Z)
    (enabled ltssm_speed : option Z) : DM (Z * option Z * option Z) :=
  let en := 0 in
  let+ (r, int_out) :=
    diag_cmd dev (LoopbackGetInt port_id DIAG_LOOPBACK_RX_TO_TX) in
  if negb (r =? 0) then dret (r, enabled, ltssm_speed) else
  let en := if negb (int_out =? 0)
            then Z.lor en SWITCHTEC_DIAG_LOOPBACK_RX_TO_TX else en in
  let+ (r, int_out) :=
    diag_cmd dev (LoopbackGetInt port_id DIAG_LOOPBACK_TX_TO_RX) in
  if negb (r =? 0) then dret (r, enabled, ltssm_speed) else
  let en := if negb (int_out =? 0)
            then Z.lor en SWITCHTEC_DIAG_LOOPBACK_TX_TO_RX else en in
  let+ (r, lt_out) := diag_cmd dev (LoopbackGetLtssm port_id) in
  if negb (r =? 0) then dret (r, enabled, ltssm_speed) else
  let en := if negb (lt_enabled lt_out =? 0)
            then Z.lor en SWITCHTEC_DIAG_LOOPBACK_LTSSM else en in
  let enabled := match enabled with
                 | Some _ => Some en
                 | None => None
                 end in
  let ltssm_speed := match ltssm_speed with
                     | Some _ => Some (lt_speed lt_out)
                     | None => None
                     end in
  dret (0, enabled, ltssm_speed).

End LoopbackGet.

(** ** Receiver objects *)

Section Rcvr.

(** [ARRAY_SIZE(res->dynamic_dfe)], declared in a header outside these
    sources. *)
Variable DYNAMIC_DFE_LEN : nat.

Definition rcvr_obj_store (out res0 : switchtec_rcvr_obj) : switchtec_rcvr_obj :=
  {| ro_port_id := ro_port_id out;
     ro_lane_id := ro_lane_id out;
     ctle := ctle out;
     target_amplitude := target_amplitude out;
     speculative_dfe := speculative_dfe out;
     dynamic_dfe := copy_out 0 DYNAMIC_DFE_LEN (dynamic_dfe out)
                      (dynamic_dfe res0) |}.

(** [res] is [None] for a null pointer. *)
Definition switchtec_diag_rcvr_obj (dev : diag_dev) (port_id lane_id : Z)
    (link : switchtec_diag_link) (res : option switchtec_rcvr_obj)
    : DM (Z * option switchtec_rcvr_obj) :=
  match res, link with
  | None, _ => let+ _ := put_errno (- EINVAL) in dret (-1, res)
  | Some res0, SWITCHTEC_DIAG_LINK_CURRENT =>
      let+ (r, out) := diag_cmd dev (RcvrObjDump port_id lane_id) in
      if negb (r =? 0) then dret (-1, res) else
      dret (0, Some (rcvr_obj_store out res0))
  | Some res0, SWITCHTEC_DIAG_LINK_PREVIOUS =>
      let+ (r, out) := diag_cmd dev (ExtRcvrObjDumpPrev port_id lane_id) in
      if negb (r =? 0) then dret (-1, res) else
      dret (0, Some (rcvr_obj_store out res0))
  | Some _, SWITCHTEC_DIAG_LINK_INVALID =>
      let+ _ := put_errno (- EINVAL) in dret (-1, res)
  end.

End Rcvr.

Definition switchtec_diag_rcvr_ext (dev : diag_dev) (port_id lane_id : Z)
    (link : switchtec_diag_link) (res : option switchtec_rcvr_ext)
    : DM (Z * option switchtec_rcvr_ext) :=
  match res, link with
  | None, _ => let+ _ := put_errno (- EINVAL) in dret (-1, res)
  | Some _, SWITCHTEC_DIAG_LINK_INVALID =>
      let+ _ := put_errno (- EINVAL) in dret (-1, res)
  | Some _, _ =>
      let prev := match link with
                  | SWITCHTEC_DIAG_LINK_PREVIOUS => true
                  | _ => false
                  end in
      let+ (r, out) := diag_cmd dev (ExtRcvrExt prev port_id lane_id) in
      if negb (r =? 0) then dret (-1, res) else
      dret (0, Some {| ctle2_rx_mode := ctle2_rx_mode out;
                       dtclk_9 := dtclk_9 out;
                       dtclk_8_6 := dtclk_8_6 out;
                       dtclk_5 := dtclk_5 out |})
  end.

(** ** MRPC permission table *)

Section PermTable.

(** [MRPC_MAX_ID] and [switchtec_mrpc_table[]] are defined outside these
    sources. *)
Variable MRPC_MAX_ID : Z.
Variable switchtec_mrpc_table : nat -> switchtec_mrpc.

(** [perms[i >> 5] & (1 << (i & 0x1f))] *)
Definition perm_bit (perms : nat -> Z) (i : nat) : bool :=
  negb (Z.land (perms (Z.to_nat (Z.shiftr (Z.of_nat i) 5)))
              (Z.shiftl 1 (Z.land (Z.of_nat i) 31)) =? 0).

(** The body of the loop, on [table[i]]. *)
Definition perm_entry (perms : nat -> Z) (i : nat) (old : switchtec_mrpc)
    : switchtec_mrpc :=
  if perm_bit perms i then
    match tag (switchtec_mrpc_table i) with
    | Some _ => switchtec_mrpc_table i
    | None => {| tag := Some "UNKNOWN"%string;
                 desc := Some "Unknown MRPC Command"%string;
                 reserved := true |}
    end
  else {| tag := None; desc := None; reserved := reserved old |}.

Definition switchtec_diag_perm_table (dev : diag_dev)
    (table : list switchtec_mrpc) : DM (Z * list switchtec_mrpc) :=
  let+ (r, perms) := diag_cmd dev PermTableGet in
  if negb (r =? 0) then dret (-1, table) else
  dret (0, foldl (fun t i => alter (perm_entry perms i) i t) table
             (seq 0 (Z.to_nat MRPC_MAX_ID))).

End PermTable.

(** ** Sample devices for these commands *)

Definition rcvr_obj_zero : switchtec_rcvr_obj :=
  {| ro_port_id := 0; ro_lane_id := 0; ctle := 0; target_amplitude := 0;
     speculative_dfe := 0; dynamic_dfe := fun _ => 0 |}.

(** Lane [i] of a cross hair response reports state [i] at position
    [(i, -i)]; phase [i] of an eye read carries [i * 2^44]; the loopback
    state is [lb]; the permission bitmap is [perms]. *)
Definition diag_sample_reply (lb : Z * Z * Z * Z) (perms : nat -> Z)
    (r : diag_request) : diag_reply r :=
  match r with
  | CrossHairGet l _ =>
      fun i => {| chg_lane_id := l + Z.of_nat i; chg_state := Z.of_nat i;
                  chg_prev_state := 1;
                  chg_x_pos := Z.of_nat i; chg_y_pos := - Z.of_nat i;
                  chg_eye_left_lim := 10; chg_eye_right_lim := 11;
                  chg_eye_bot_left_lim := 12; chg_eye_bot_right_lim := 13;
                  chg_eye_top_left_lim := 14; chg_eye_top_right_lim := 15 |}
  | EyeObserve _ => 0
  | Gen5EyeRead _ _ =>
      {| num_phases := 3; ber_data := fun i => Z.of_nat i * 2 ^ 44 |}
  | LoopbackGetInt _ DIAG_LOOPBACK_RX_TO_TX => lb.1.1.1
  | LoopbackGetInt _ DIAG_LOOPBACK_TX_TO_RX => lb.1.1.2
  | LoopbackGetLtssm _ => {| lt_enabled := lb.1.2; lt_speed := lb.2 |}
  | RcvrObjDump _ _ => rcvr_obj_zero
  | ExtRcvrObjDumpPrev _ _ => rcvr_obj_zero
  | ExtRcvrExt _ _ _ =>
      {| ctle2_rx_mode := 0; dtclk_9 := 0; dtclk_8_6 := 0; dtclk_5 := 0 |}
  | PermTableGet => perms
  end.

(** A device that answers with [diag_sample_reply], rejects with status 5
    the requests selected by [fails], and whose sleeps leave [errno] 4. *)
Definition diag_sample_dev (lb : Z * Z * Z * Z) (perms : nat -> Z)
    (fails : diag_request -> bool) : diag_dev :=
  {| dd_exec := fun _ r => (if fails r then 5 else 0,
                            diag_sample_reply lb perms r);
     dd_usleep := fun _ _ => 4 |}.

Definition diag_never (r : diag_request) : bool := false.

(** The receiver dump of the previous link. *)
Definition rcvr_prev_dump (r : diag_request) : bool :=
  match r with
  | ExtRcvrObjDumpPrev _ _ => true
  | _ => false
  end.

Definition second_loopback_get (r : diag_request) : bool :=
  match r with
  | LoopbackGetInt _ DIAG_LOOPBACK_TX_TO_RX => true
  | _ => false
  end.

(** [loopback_reports dev h port_id sent]: after history [h] the device
    answers the three state queries for [port_id] with what the three
    requests [sent], those of a loopback-set, asked for. *)
Definition loopback_reports (dev : diag_dev) (h : list diag_event)
    (port_id : Z) (sent : list event) : Prop :=
  match sent with
  | [EvCmd (LoopbackSetInt _ DIAG_LOOPBACK_RX_TO_TX e1);
     EvCmd (LoopbackSetInt _ DIAG_LOOPBACK_TX_TO_RX e2);
     EvCmd (LoopbackSetLtssm _ e3 sp)] =>
      let g1 := LoopbackGetInt port_id DIAG_LOOPBACK_RX_TO_TX in
      let g2 := LoopbackGetInt port_id DIAG_LOOPBACK_TX_TO_RX in
      dd_exec dev h g1 = (0, e1) /\
      dd_exec dev (h ++ [DCmd g1]) g2 = (0, e2) /\
      dd_exec dev (h ++ [DCmd g1; DCmd g2]) (LoopbackGetLtssm port_id)
      = (0, {| lt_enabled := e3; lt_speed := sp |})
  | _ => False
  end.

Definition diag_world0 : diag_world := {| dw_trace := []; dw_errno := 0 |}.

(** * The register map (platform/windows.c) *)

(** [struct part_cfg_regs]: the registers [switchtec_pff_to_port] reads. *)
Record part_cfg_regs : Type := {
  usp_pff_inst_id : Z;
  vep_pff_inst_id : Z;
  dsp_pff_inst_id : nat -> Z
}.

(** What the function reads of the handle: [dev->partition_count] and the
    mapped [dev->gas_map->part_cfg[]], each register a 32-bit value. *)
Record gas_dev : Type := {
  partition_count : Z;
  part_cfg : nat -> part_cfg_regs
}.

Section PffToPort.

(** [SWITCHTEC_PFF_PORT_VEP] and [ARRAY_SIZE(pcfg->dsp_pff_inst_id)] are
    declared in headers outside these sources. *)
Variable SWITCHTEC_PFF_PORT_VEP : Z.
Variable DSP_PFF_INST_LEN : nat.

(** [reg == pff]: the [int] is compared as a 32-bit unsigned value. *)
Definition pff_eq (reg pff : Z) : bool := reg =? pff mod 2 ^ 32.

(** The scan of the downstream ports of one partition. *)
Fixpoint dsp_scan (pcfg : part_cfg_regs) (pff : Z) (idxs : list nat)
    (port : Z) : Z :=
  match idxs with
  | [] => port
  | i :: rest =>
      if negb (pff_eq (dsp_pff_inst_id pcfg i) pff)
      then dsp_scan pcfg pff rest port
      else Z.of_nat i + 1
  end.

(** The loop over the partitions; the result is the return value,
    [*partition] and [*port]. *)
Fixpoint pff_part_loop (dev : gas_dev) (pff : Z) (parts : list nat)
    (partition port : Z) : M (Z * Z * Z) :=
  match parts with
  | [] => let* _ := set_errno EINVAL in ret (- EINVAL, partition, port)
  | part :: rest =>
      let pcfg := part_cfg dev part in
      let partition := Z.of_nat part in
      if pff_eq (usp_pff_inst_id pcfg) pff then ret (0, partition, 0)
      else if pff_eq (vep_pff_inst_id pcfg) pff
      then ret (0, partition, SWITCHTEC_PFF_PORT_VEP)
      else
        let port := dsp_scan pcfg pff (seq 0 DSP_PFF_INST_LEN) port in
        if negb (port =? -1) then ret (0, partition, port)
        else pff_part_loop dev pff rest partition port
  end.

Definition switchtec_pff_to_port (dev : gas_dev) (pff : Z) (partition : Z)
    : M (Z * Z * Z) :=
  pff_part_loop dev pff (seq 0 (Z.to_nat (partition_count dev))) partition (-1).

(** No register of the partition holds [pff]. *)
Definition pff_unmapped (pcfg : part_cfg_regs) (pff : Z) : Prop :=
  pff_eq (usp_pff_inst_id pcfg) pff = false /\
  pff_eq (vep_pff_inst_id pcfg) pff = false /\
  forall i : nat, (i < DSP_PFF_INST_LEN)%nat ->
    pff_eq (dsp_pff_inst_id pcfg i) pff = false.

(** [port] names the first register of the partition that holds [pff]:
    the upstream port, then the virtual endpoint, then the downstream
    ports in order. *)
Definition pff_port (pcfg : part_cfg_regs) (pff : Z) (port : Z) : Prop :=
  if pff_eq (usp_pff_inst_id pcfg) pff then port = 0
  else if pff_eq (vep_pff_inst_id pcfg) pff then port = SWITCHTEC_PFF_PORT_VEP
  else exists i : nat,
      (i < DSP_PFF_INST_LEN)%nat /\ port = Z.of_nat i + 1 /\
      pff_eq (dsp_pff_inst_id pcfg i) pff = true /\
      forall j : nat, (j < i)%nat -> pff_eq (dsp_pff_inst_id pcfg j) pff = false.

End PffToPort.

(** A register map with two partitions: upstream ports 10 and 20, virtual
    endpoints 11 and 21, downstream ports 12, 13, ... and 22, 23, ... *)
Definition sample_gas : gas_dev :=
  {| partition_count := 2;
     part_cfg := fun p =>
       {| usp_pff_inst_id := 10 * (Z.of_nat p + 1);
          vep_pff_inst_id := 10 * (Z.of_nat p + 1) + 1;
          dsp_pff_inst_id := fun i => 10 * (Z.of_nat p + 1) + 2 + Z.of_nat i |} |}.

(** * Flash partitions (platform/windows.c) *)

(** [struct partition_info], [struct flash_info_regs] and
    [struct sys_info_regs]: the registers [switchtec_flash_part] reads,
    each with the value a [gas_read32] or [gas_read16] gives. *)
Record partition_info : Type := { pi_address : Z; pi_length : Z }.

Record flash_info_regs : Type := {
  active_img_address : Z;
  active_cfg_address : Z;
  img0 : partition_info;
  img1 : partition_info;
  cfg0 : partition_info;
  cfg1 : partition_info;
  nvlog : partition_info
}.

Record sys_info_regs : Type := { img_running : Z; cfg_running : Z }.

Record flash_dev : Type := {
  flash_info : flash_info_regs;
  sys_info : sys_info_regs
}.

(** [enum switchtec_fw_image_type]: the enumerators the function switches
    on, or any other value. *)
Inductive switchtec_fw_image_type : Type :=
| SWITCHTEC_FW_TYPE_IMG0
| SWITCHTEC_FW_TYPE_IMG1
| SWITCHTEC_FW_TYPE_DAT0
| SWITCHTEC_FW_TYPE_DAT1
| SWITCHTEC_FW_TYPE_NVLOG
| SWITCHTEC_FW_TYPE_OTHER (v : Z).

(** [struct switchtec_fw_image_info]: the members the function assigns
    after clearing the structure. *)
Record switchtec_fw_image_info : Type := {
  image_addr : Z;
  image_len : Z;
  active : Z
}.

Definition set_fw_info_part (info : switchtec_fw_image_info)
    (pi : partition_info) : switchtec_fw_image_info :=
  {| image_addr := pi_address pi;
     image_len := pi_length pi;
     active := active info |}.

Section FlashPart.

(** The running codes and the flags of [active] are declared in headers
    outside these sources. *)
Variables SWITCHTEC_IMG0_RUNNING SWITCHTEC_IMG1_RUNNING
          SWITCHTEC_CFG0_RUNNING SWITCHTEC_CFG1_RUNNING
          SWITCHTEC_FW_PART_RUNNING SWITCHTEC_FW_PART_ACTIVE : Z.

(** [if (reg == code) info->active |= SWITCHTEC_FW_PART_RUNNING;] *)
Definition flash_running (reg code : Z) (info : switchtec_fw_image_info)
    : switchtec_fw_image_info :=
  if reg =? code
  then {| image_addr := image_addr info; image_len := image_len info;
          active := Z.lor (active info) SWITCHTEC_FW_PART_RUNNING |}
  else info.

(** What follows the [switch]. *)
Definition flash_active (active_addr : Z) (info : switchtec_fw_image_info)
    : Z * switchtec_fw_image_info :=
  (0, if image_addr info =? active_addr
      then {| image_addr := image_addr info; image_len := image_len info;
              active := Z.lor (active info) SWITCHTEC_FW_PART_ACTIVE |}
      else info).

(** The result is the return value and [*info], which the function clears
    before anything else. *)
Definition switchtec_flash_part (dev : flash_dev)
    (part : switchtec_fw_image_type) : Z * switchtec_fw_image_info :=
  let fi := flash_info dev in
  let si := sys_info dev in
  let active_addr := 2 ^ 32 - 1 in
  let info := {| image_addr := 0; image_len := 0; active := 0 |} in
  match part with
  | SWITCHTEC_FW_TYPE_IMG0 =>
      flash_active (active_img_address fi)
        (flash_running (img_running si) SWITCHTEC_IMG0_RUNNING
           (set_fw_info_part info (img0 fi)))
  | SWITCHTEC_FW_TYPE_IMG1 =>
      flash_active (active_img_address fi)
        (flash_running (img_running si) SWITCHTEC_IMG1_RUNNING
           (set_fw_info_part info (img1 fi)))
  | SWITCHTEC_FW_TYPE_DAT0 =>
      flash_active (active_cfg_address fi)
        (flash_running (cfg_running si) SWITCHTEC_CFG0_RUNNING
           (set_fw_info_part info (cfg0 fi)))
  | SWITCHTEC_FW_TYPE_DAT1 =>
      flash_active (active_cfg_address fi)
        (flash_running (cfg_running si) SWITCHTEC_CFG1_RUNNING
           (set_fw_info_part info (cfg0 fi)))
  | SWITCHTEC_FW_TYPE_NVLOG =>
      flash_active active_addr (set_fw_info_part info (nvlog fi))
  | SWITCHTEC_FW_TYPE_OTHER _ => (- EINVAL, info)
  end.

End FlashPart.

(** The active address the function compares a partition with. *)
Definition flash_active_address (dev : flash_dev)
    (part : switchtec_fw_image_type) : Z :=
  match part with
  | SWITCHTEC_FW_TYPE_IMG0 | SWITCHTEC_FW_TYPE_IMG1 =>
      active_img_address (flash_info dev)
  | SWITCHTEC_FW_TYPE_DAT0 | SWITCHTEC_FW_TYPE_DAT1 =>
      active_cfg_address (flash_info dev)
  | _ => 2 ^ 32 - 1
  end.

(** The same device with other contents in the [cfg1] registers. *)
Definition with_cfg1 (dev : flash_dev) (c : partition_info) : flash_dev :=
  {| flash_info :=
       {| active_img_address := active_img_address (flash_info dev);
          active_cfg_address := active_cfg_address (flash_info dev);
          img0 := img0 (flash_info dev);
          img1 := img1 (flash_info dev);
          cfg0 := cfg0 (flash_info dev);
          cfg1 := c;
          nvlog := nvlog (flash_info dev) |};
     sys_info := sys_info dev |}.

Definition sample_flash : flash_dev :=
  {| flash_info :=
       {| active_img_address := 4096;
          active_cfg_address := 65536;
          img0 := {| pi_address := 4096; pi_length := 100 |};
          img1 := {| pi_address := 8192; pi_length := 100 |};
          cfg0 := {| pi_address := 65536; pi_length := 10 |};
          cfg1 := {| pi_address := 69632; pi_length := 20 |};
          nvlog := {| pi_address := 2 ^ 32 - 1; pi_length := 30 |} |};
     sys_info := {| img_running := 3; cfg_running := 5 |} |}.

(** * Properties *)

(** ** Machine integers *)

Lemma c_truth_bool x : c_truth x = 0 \/ c_truth x = 1.
Proof. unfold c_truth. destruct (x =? 0); auto. Qed.

Lemma c_truth_set x : c_truth x = 1 <-> x <> 0.
Proof.
  unfold c_truth. destruct (Z.eqb_spec x 0); split; intros; lia || congruence.
Qed.

Lemma u8_range x : 0 <= u8 x < 256.
Proof. unfold u8. apply Z.mod_pos_bound. lia. Qed.

Lemma u8_small x : 0 <= x < 256 -> u8 x = x.
Proof. unfold u8. intros. apply Z.mod_small. lia. Qed.

Lemma u16_range x : 0 <= u16 x < 65536.
Proof. unfold u16. apply Z.mod_pos_bound. lia. Qed.

Lemma u16_small x : 0 <= x < 65536 -> u16 x = x.
Proof. unfold u16. intros. apply Z.mod_small. lia. Qed.

(** An unsigned field of [k] bits below a field shifted by [k]: the bitwise
    or is a sum. *)
Lemma lor_shiftl_add (lo hi k : Z) :
  0 <= k -> 0 <= lo < 2 ^ k ->
  Z.lor (Z.shiftl hi k) lo = lo + 2 ^ k * hi.
Proof.
  intros Hk Hlo.
  assert (Hland : Z.land (Z.shiftl hi k) lo = 0).
  { apply Z.bits_inj'. intros i Hi. rewrite Z.land_spec, Z.bits_0.
    destruct (Z.lt_ge_cases i k).
    - rewrite Z.shiftl_spec_low by lia. reflexivity.
    - rewrite <- (Z.mod_small lo (2 ^ k)) by lia.
      rewrite Z.mod_pow2_bits_high by lia. apply andb_false_r. }
  rewrite <- Z.lxor_lor, <- Z.add_nocarry_lxor, Z.shiftl_mul_pow2 by lia.
  lia.
Qed.

(** ** Running the monad *)

Lemma bind_ret {A B} (a : A) (k : A -> M B) w : bind (ret a) k w = k a w.
Proof. reflexivity. Qed.

Lemma bind_assoc {A B C} (m : M A) (k1 : A -> M B) (k2 : B -> M C) w :
  bind (bind m k1) k2 w = bind m (fun a => bind (k1 a) k2) w.
Proof. unfold bind. destruct (m w). reflexivity. Qed.

Lemma bind_switchtec_cmd {B} dev r (k : Z * reply r -> M B) w :
  bind (switchtec_cmd dev r) k w
  = k (dev_exec dev (w_trace w) r)
      {| w_trace := w_trace w ++ [EvCmd r]; w_errno := w_errno w |}.
Proof. reflexivity. Qed.

(** One step of a run: reassociate, then run the request or the [ret] at the
    head. *)
Ltac mstep :=
  rewrite ?bind_assoc;
  first [ rewrite bind_switchtec_cmd | rewrite bind_ret ];
  cbn [w_trace w_errno].

(** ** Loopback *)

Section LoopbackFacts.

Variables RX_TO_TX TX_TO_RX LTSSM : Z.

(** C4. A loopback-set issues the RX->TX, TX->RX and LTSSM sub-requests in
    that order, each with the truth value of its flag in [enable], that is
    1 when [enable] has a bit of the flag and 0 otherwise; it stops at the
    first sub-request the device rejects, returns that status, and issues
    nothing else (no later sub-request and no request undoing an earlier
    one). *)
Theorem loopback_set_sequence dev port_id enable ltssm_speed w :
  let on (flag : Z) := if Z.land enable flag =? 0 then 0 else 1 in
  let r1 := LoopbackSetInt port_id DIAG_LOOPBACK_RX_TO_TX (on RX_TO_TX) in
  let r2 := LoopbackSetInt port_id DIAG_LOOPBACK_TX_TO_RX (on TX_TO_RX) in
  let r3 := LoopbackSetLtssm port_id (on LTSSM) ltssm_speed in
  let t := w_trace w in
  let s1 := cmd_status dev t r1 in
  let s2 := cmd_status dev (t ++ [EvCmd r1]) r2 in
  let s3 := cmd_status dev (t ++ [EvCmd r1; EvCmd r2]) r3 in
  let res := switchtec_diag_loopback_set RX_TO_TX TX_TO_RX LTSSM
               dev port_id enable ltssm_speed w in
  w_errno (snd res) = w_errno w /\
  (if s1 =? 0 then
     if s2 =? 0 then
       fst res = s3 /\ w_trace (snd res) = t ++ [EvCmd r1; EvCmd r2; EvCmd r3]
     else fst res = s2 /\ w_trace (snd res) = t ++ [EvCmd r1; EvCmd r2]
   else fst res = s1 /\ w_trace (snd res) = t ++ [EvCmd r1]).
Proof.
  intros on r1 r2 r3 t s1 s2 s3 res.
  subst res s1 s2 s3. unfold switchtec_diag_loopback_set, cmd_status.
  change (c_truth (Z.land enable RX_TO_TX)) with (on RX_TO_TX).
  change (c_truth (Z.land enable TX_TO_RX)) with (on TX_TO_RX).
  change (c_truth (Z.land enable LTSSM)) with (on LTSSM).
  fold r1 r2 r3. rewrite bind_switchtec_cmd. fold t.
  destruct (dev_exec dev t r1) as [a1 []]. cbn [fst snd].
  destruct (Z.eqb_spec a1 0) as [->|N1]; cbn [negb]; [|done].
  rewrite bind_switchtec_cmd. cbn [w_trace w_errno].
  destruct (dev_exec dev (t ++ [EvCmd r1]) r2) as [a2 []]. cbn [fst snd].
  rewrite <- !app_assoc. cbn [app].
  destruct (Z.eqb_spec a2 0) as [->|N2]; cbn [negb]; [|done].
  rewrite bind_switchtec_cmd. cbn [w_trace w_errno].
  destruct (dev_exec dev (t ++ [EvCmd r1; EvCmd r2]) r3) as [a3 []].
  cbn [fst snd]. rewrite <- !app_assoc. cbn [app].
  destruct (Z.eqb_spec a3 0) as [->|N3]; cbn [negb]; done.
Qed.

End LoopbackFacts.

(** The scenario of the specification, with flags 1, 2 and 4: TX->RX and
    LTSSM requested ([enable = 6]), the second sub-request rejected.  The
    field sent is 0 or 1, not the bit of the flag. *)
Example loopback_second_fails :
  switchtec_diag_loopback_set 1 2 4 (sample_dev SWITCHTEC_GEN4 0 second_loopback)
    7 6 3 world0
  = (5, {| w_trace := [EvCmd (LoopbackSetInt 7 DIAG_LOOPBACK_RX_TO_TX 0);
                       EvCmd (LoopbackSetInt 7 DIAG_LOOPBACK_TX_TO_RX 1)];
           w_errno := 0 |}).
Proof. reflexivity. Qed.

Example loopback_all_succeed :
  switchtec_diag_loopback_set 1 2 4 (sample_dev SWITCHTEC_GEN4 0 never)
    7 6 3 world0
  = (0, {| w_trace := [EvCmd (LoopbackSetInt 7 DIAG_LOOPBACK_RX_TO_TX 0);
                       EvCmd (LoopbackSetInt 7 DIAG_LOOPBACK_TX_TO_RX 1);
                       EvCmd (LoopbackSetLtssm 7 1 3)];
           w_errno := 0 |}).
Proof. reflexivity. Qed.

(** ** Arrays *)

Section StoreRange.

Context {A : Type}.
Implicit Types (f : nat -> A) (dst : list A).

Lemma store_range_length base n f dst :
  length (store_range base n f dst) = length dst.
Proof.
  unfold store_range. generalize (Z.to_nat n) as k.
  induction k as [|k IH]; [reflexivity|].
  rewrite seq_S, foldl_app. cbn. rewrite length_insert. exact IH.
Qed.

(** An index outside the stored range keeps its contents. *)
Lemma store_range_outside base n f dst (j : nat) :
  0 <= base ->
  (j < Z.to_nat base \/ Z.to_nat base + Z.to_nat n <= j)%nat ->
  store_range base n f dst !! j = dst !! j.
Proof.
  intros Hb. unfold store_range. generalize (Z.to_nat n) as k.
  induction k as [|k IH]; intros Hj; [reflexivity|].
  rewrite seq_S, foldl_app. cbn.
  rewrite list_lookup_insert_ne by lia. apply IH. lia.
Qed.

(** An index inside the stored range, and inside the array, holds the
    stored value. *)
Lemma store_range_inside base n f dst (j : nat) :
  0 <= base ->
  (Z.to_nat base <= j < Z.to_nat base + Z.to_nat n)%nat ->
  (j < length dst)%nat ->
  store_range base n f dst !! j = Some (f (j - Z.to_nat base)%nat).
Proof.
  intros Hb. unfold store_range.
  assert (Hlen : forall k, length (foldl (fun d i =>
            <[Z.to_nat (base + Z.of_nat i) := f i]> d) dst (seq 0 k))
            = length dst).
  { induction k as [|k IH]; [reflexivity|].
    rewrite seq_S, foldl_app. cbn. rewrite length_insert. exact IH. }
  generalize (Z.to_nat n) as k.
  induction k as [|k IH]; intros Hj Hl; [lia|].
  rewrite seq_S, foldl_app. cbn.
  destruct (decide (j = Z.to_nat base + k)%nat) as [->|Hne].
  - replace (Z.to_nat (base + Z.of_nat k)) with (Z.to_nat base + k)%nat by lia.
    rewrite list_lookup_insert_eq by (rewrite Hlen; lia).
    f_equal. f_equal. lia.
  - rewrite list_lookup_insert_ne by lia. apply IH; lia.
Qed.

End StoreRange.

(** ** Issuing a list of requests *)

Lemma issue_all_succeed dev h reqs :
  all_succeed dev h reqs -> issue_until_failure dev h reqs = (reqs, 0).
Proof.
  revert h. induction reqs as [|r rest IH]; intros h H; [reflexivity|].
  destruct H as [H1 H2]. cbn. rewrite H1. cbn. rewrite (IH _ H2). reflexivity.
Qed.

Lemma issue_prefix dev h reqs :
  (issue_until_failure dev h reqs).1 `prefix_of` reqs.
Proof.
  revert h. induction reqs as [|r rest IH]; intros h; [reflexivity|].
  cbn. destruct (cmd_status dev h r =? 0).
  - specialize (IH (h ++ [EvCmd r])).
    destruct (issue_until_failure dev (h ++ [EvCmd r]) rest) as [l s]. cbn in *.
    by apply prefix_cons.
  - cbn. apply prefix_cons, prefix_nil.
Qed.

(** ** LTSSM log, Gen4 *)

Section LtssmFacts.

Variable transfers : Z -> spec_float.

(** A Gen4 retrieval whose freeze and status requests succeed: the dump
    requests planned for the clamped count are issued in order until one
    fails; after a failure the function returns that status at once, and
    only after a complete dump does it write the entries and send the
    unfreeze request, whose status it returns. *)
Lemma ltssm_log_gen4_run dev port log_count log_data w :
  let t := w_trace w in
  let freeze := LtssmFreeze 14 (u8 port) 1 in
  let status := LtssmStatusGen4 13 (u8 port) in
  let unfreeze := LtssmFreeze 14 (u8 port) 0 in
  let h := t ++ [EvCmd freeze; EvCmd status] in
  let n := clamp_count
             (u8 (dev_exec dev (t ++ [EvCmd freeze]) status).2) log_count in
  let issued := issue_until_failure dev h (gen4_dump_requests port n) in
  let res := switchtec_diag_ltssm_log_gen4 transfers dev port log_count
               log_data w in
  cmd_status dev t freeze = 0 ->
  cmd_status dev (t ++ [EvCmd freeze]) status = 0 ->
  res.1.1.2 = n /\
  w_errno res.2 = w_errno w /\
  if issued.2 =? 0 then
    w_trace res.2 = h ++ map EvCmd issued.1 ++ [EvCmd unfreeze] /\
    res.1.1.1 = cmd_status dev (h ++ map EvCmd issued.1) unfreeze /\
    issued.1 = gen4_dump_requests port n /\
    length res.1.2 = length log_data
  else
    w_trace res.2 = h ++ map EvCmd issued.1 /\
    res.1.1.1 = issued.2 /\
    res.1.2 = log_data.
Proof.
  intros t freeze status unfreeze h n issued res Hf Hs.
  subst res. unfold switchtec_diag_ltssm_log_gen4.
  fold freeze status unfreeze.
  rewrite bind_switchtec_cmd. fold t. unfold cmd_status in Hf, Hs.
  destruct (dev_exec dev t freeze) as [a1 []]. cbn [fst] in Hf. subst a1.
  cbn [Z.eqb negb w_trace w_errno].
  rewrite bind_switchtec_cmd. cbn [w_trace w_errno].
  subst n issued.
  destruct (dev_exec dev (t ++ [EvCmd freeze]) status) as [a2 log_num].
  cbn [fst snd] in *. subst a2. cbn [Z.eqb negb].
  fold (clamp_count (u8 log_num) log_count).
  set (n := clamp_count (u8 log_num) log_count).
  rewrite <- !app_assoc. cbn [app]. fold h.
  unfold gen4_dump_requests.
  destruct (u8 n <=? 126).
  - mstep. cbn [issue_until_failure]. unfold cmd_status.
    destruct (dev_exec dev h (LtssmDumpGen4 15 (u8 port) 0 (u8 n)))
      as [a3 out]. cbn [fst snd]. mstep.
    destruct (Z.eqb_spec a3 0) as [->|N3]; cbn [negb fst snd Z.eqb map app].
    + mstep. destruct (dev_exec dev _ unfreeze) as [a4 []]. cbn.
      rewrite <- !app_assoc, store_range_length. done.
    + cbn. destruct (Z.eqb_spec a3 0); [lia|]. done.
  - mstep. cbn [issue_until_failure]. unfold cmd_status.
    destruct (dev_exec dev h (LtssmDumpGen4 15 (u8 port) 0 126))
      as [a3 out]. cbn [fst snd].
    destruct (Z.eqb_spec a3 0) as [->|N3]; cbn [negb fst snd Z.eqb map app].
    + mstep.
      destruct (dev_exec dev (h ++ [EvCmd (LtssmDumpGen4 15 (u8 port) 0 126)])
                  (LtssmDumpGen4 15 (u8 port) 126 (u8 (n - 126))))
        as [a4 out2]. cbn [fst snd]. mstep.
      destruct (Z.eqb_spec a4 0) as [->|N4]; cbn [negb fst snd Z.eqb map app].
      * mstep. rewrite <- !app_assoc. cbn [app].
        destruct (dev_exec dev _ unfreeze) as [a5 []]. cbn.
        rewrite store_range_length. done.
      * cbn. destruct (Z.eqb_spec a4 0); [lia|].
        rewrite <- !app_assoc. done.
    + mstep. cbn. destruct (Z.eqb_spec a3 0); [lia|]. done.
Qed.

End LtssmFacts.

(** ** LTSSM log, Gen5 *)

Lemma gen5_chunks_nil cur avail : avail <= 0 -> gen5_chunks cur avail = [].
Proof.
  intros H. unfold gen5_chunks, MAX_LOG_READ.
  replace (Z.to_nat ((avail + 63 - 1) / 63)) with 0%nat; [reflexivity|].
  assert ((avail + 63 - 1) / 63 <= 0); [|lia].
  apply Z.lt_succ_r. apply Z.div_lt_upper_bound; lia.
Qed.

Lemma gen5_chunks_cons cur avail :
  0 < avail ->
  gen5_chunks cur avail
  = (cur, Z.min avail 63) :: gen5_chunks (cur + 63) (avail - 63).
Proof.
  intros H. unfold gen5_chunks, MAX_LOG_READ.
  replace (avail + 63 - 1) with ((avail - 63 + 63 - 1) + 1 * 63) by lia.
  rewrite Z.div_add by lia.
  assert (0 <= (avail - 63 + 63 - 1) / 63) by (apply Z.div_pos; lia).
  rewrite Z2Nat.inj_add by lia. rewrite Nat.add_comm.
  change (Z.to_nat 1) with 1%nat. cbn [Nat.add seq map].
  f_equal.
  - unfold gen5_chunk, MAX_LOG_READ. f_equal; lia.
  - rewrite <- seq_shift, map_map. apply map_ext. intros k.
    unfold gen5_chunk, MAX_LOG_READ. f_equal; lia.
Qed.

Section Ltssm5Facts.

Variable transfers : Z -> spec_float.

(** The dump loop replays the chunks of [avail_log] records from
    [cur_idx]. *)
Lemma gen5_dump_loop_replay dev port cur avail log_data w :
  0 <= cur -> cur + avail < 65536 ->
  gen5_dump_loop transfers dev port cur avail log_data w
  = let (ld, h) := gen5_replay transfers dev port (w_trace w)
                     (gen5_chunks cur avail) log_data in
    (ld, {| w_trace := h; w_errno := w_errno w |}).
Proof.
  remember (Z.to_nat avail) as m eqn:Hm.
  revert cur avail log_data w Hm.
  induction (lt_wf m) as [m _ IH]. intros cur avail log_data w Hm Hc Hr.
  simp gen5_dump_loop. destruct (Z_lt_dec 0 avail) as [Hpos|Hneg]; cbn.
  2:{ rewrite gen5_chunks_nil by lia. cbn. by destruct w. }
  rewrite gen5_chunks_cons by lia. cbn [gen5_replay fst snd].
  assert (En : u16 (if avail >? MAX_LOG_READ then MAX_LOG_READ else avail)
               = Z.min avail 63).
  { unfold MAX_LOG_READ. destruct (Z.gtb_spec avail 63);
      rewrite u16_small; lia. }
  rewrite En, (u16_small cur) by lia.
  destruct (dev_exec dev (w_trace w)
              (LtssmDumpGen5 21 (u8 port) cur (Z.min avail 63))) as [s buf].
  destruct (Z.eqb_spec s 0) as [->|Hs]; cbn [negb]; [|done].
  destruct (Z.gtb_spec avail (Z.min avail 63)) as [Hgt|Hle].
  - replace (Z.min avail 63) with 63 by lia.
    erewrite IH; [reflexivity| |reflexivity|lia|lia]. lia.
  - rewrite (gen5_chunks_nil (cur + 63)) by lia. reflexivity.
Qed.

(** *** Facts about a replay *)

Lemma gen5_replay_length dev port h cs ld :
  length (gen5_replay transfers dev port h cs ld).1 = length ld.
Proof.
  revert h ld. induction cs as [|c cs IH]; intros h ld; [reflexivity|].
  cbn [gen5_replay].
  destruct (dev_exec dev h _) as [s buf]. destruct (s =? 0); [|reflexivity].
  rewrite IH. apply store_range_length.
Qed.

(** The requests of a replay are those issued until the first failure. *)
Lemma gen5_replay_trace dev port h cs ld :
  (gen5_replay transfers dev port h cs ld).2
  = h ++ map EvCmd
           (issue_until_failure dev h (map (gen5_dump_request port) cs)).1.
Proof.
  revert h ld. induction cs as [|c cs IH]; intros h ld.
  - cbn. by rewrite app_nil_r.
  - cbn [gen5_replay map issue_until_failure]. unfold cmd_status.
    unfold gen5_dump_request at 1 3 4.
    destruct (dev_exec dev h _) as [s buf]. cbn [fst].
    destruct (s =? 0); [|reflexivity].
    rewrite IH. unfold gen5_dump_request at 2.
    destruct (issue_until_failure _ _ _) as [l s']. cbn.
    by rewrite <- app_assoc.
Qed.

(** An entry no chunk covers keeps its contents. *)
Lemma gen5_replay_frame dev port h cs ld (j : nat) :
  Forall (fun c => 0 <= fst c /\ (Z.of_nat j < fst c \/ fst c + snd c <= Z.of_nat j)) cs ->
  (gen5_replay transfers dev port h cs ld).1 !! j = ld !! j.
Proof.
  revert h ld. induction cs as [|c cs IH]; intros h ld Hc; [reflexivity|].
  inversion Hc as [|? ? [Hc0 Hc1] Hcs]; subst.
  cbn [gen5_replay].
  destruct (dev_exec dev h _) as [s buf]. destruct (s =? 0); [|reflexivity].
  rewrite IH by assumption. apply store_range_outside; lia.
Qed.

(** A replay whose first [length cs1] requests succeed. *)
Lemma gen5_replay_app dev port h cs1 cs2 ld :
  all_succeed dev h (map (gen5_dump_request port) cs1) ->
  gen5_replay transfers dev port h (cs1 ++ cs2) ld
  = gen5_replay transfers dev port
      (h ++ map EvCmd (map (gen5_dump_request port) cs1)) cs2
      (gen5_replay transfers dev port h cs1 ld).1.
Proof.
  revert h ld. induction cs1 as [|c cs1 IH]; intros h ld Hs.
  - cbn. by rewrite app_nil_r.
  - destruct Hs as [Hc Hs]. cbn [app gen5_replay map].
    unfold cmd_status, gen5_dump_request in Hc.
    destruct (dev_exec dev h _) as [s buf]. cbn [fst] in Hc. subst s.
    cbn [Z.eqb]. rewrite IH by exact Hs.
    by rewrite <- app_assoc.
Qed.

End Ltssm5Facts.

(** ** LTSSM log: the retrievals *)

Lemma clamp_count_le reported log_count :
  clamp_count reported log_count <= reported.
Proof. unfold clamp_count. destruct (Z.ltb_spec reported log_count); lia. Qed.

Lemma clamp_count_min reported log_count :
  clamp_count reported log_count = Z.min reported log_count.
Proof. unfold clamp_count. destruct (Z.ltb_spec reported log_count); lia. Qed.

Section LtssmRuns.

Variable transfers : Z -> spec_float.

(** A Gen5 retrieval whose freeze and status requests succeed replays the
    chunks of the clamped count and then, whatever the replay met, sends
    the unfreeze request and returns its status. *)
Lemma ltssm_log_gen5_run dev port log_count log_data w :
  let t := w_trace w in
  let freeze := LtssmFreeze 14 (u8 port) 1 in
  let status := LtssmStatusGen5 20 (u8 port) in
  let unfreeze := LtssmFreeze 14 (u8 port) 0 in
  let h := t ++ [EvCmd freeze; EvCmd status] in
  let n := clamp_count
             (u16 (dev_exec dev (t ++ [EvCmd freeze]) status).2) log_count in
  let rp := gen5_replay transfers dev port h (gen5_chunks 0 n) log_data in
  cmd_status dev t freeze = 0 ->
  cmd_status dev (t ++ [EvCmd freeze]) status = 0 ->
  switchtec_diag_ltssm_log_gen5 transfers dev port log_count log_data w
  = ((cmd_status dev rp.2 unfreeze, n, rp.1),
     {| w_trace := rp.2 ++ [EvCmd unfreeze]; w_errno := w_errno w |}).
Proof.
  intros t freeze status unfreeze h n rp Hf Hs.
  unfold switchtec_diag_ltssm_log_gen5. fold freeze status unfreeze.
  mstep. fold t. unfold cmd_status in Hf, Hs.
  destruct (dev_exec dev t freeze) as [a1 []]. cbn [fst] in Hf. subst a1.
  cbn [Z.eqb negb]. mstep. subst rp n.
  destruct (dev_exec dev (t ++ [EvCmd freeze]) status) as [a2 trig].
  cbn [fst snd] in *. subst a2. cbn [Z.eqb negb].
  fold (clamp_count (u16 trig) log_count).
  set (n := clamp_count (u16 trig) log_count).
  rewrite <- !app_assoc. cbn [app]. fold h.
  unfold bind at 1.
  rewrite gen5_dump_loop_replay; cbn [w_trace w_errno].
  2: lia.
  2:{ pose proof (clamp_count_le (u16 trig) log_count).
      pose proof (u16_range trig). lia. }
  destruct (gen5_replay transfers dev port h (gen5_chunks 0 n) log_data)
    as [ld h'].
  mstep. unfold cmd_status. cbn [fst snd].
  destruct (dev_exec dev h' unfreeze) as [a3 []]. reflexivity.
Qed.

(** C1, as the code has it. With freeze and status query successful:
    a Gen4 retrieval issues its dump requests until one fails, and then
    returns that status without any unfreeze request; only after a
    complete dump does it send the unfreeze request, whose status is the
    result. A Gen5 retrieval sends the unfreeze request after the dump
    requests whether or not one of them failed, and returns its status. *)
Theorem ltssm_unfreeze_pairing dev port log_count log_data w :
  let t := w_trace w in
  let freeze := LtssmFreeze 14 (u8 port) 1 in
  let unfreeze := LtssmFreeze 14 (u8 port) 0 in
  (let status := LtssmStatusGen4 13 (u8 port) in
   let h := t ++ [EvCmd freeze; EvCmd status] in
   let n := clamp_count
              (u8 (dev_exec dev (t ++ [EvCmd freeze]) status).2) log_count in
   let issued := issue_until_failure dev h (gen4_dump_requests port n) in
   let res := switchtec_diag_ltssm_log_gen4 transfers dev port log_count
                log_data w in
   cmd_status dev t freeze = 0 ->
   cmd_status dev (t ++ [EvCmd freeze]) status = 0 ->
   if issued.2 =? 0 then
     w_trace res.2 = h ++ map EvCmd issued.1 ++ [EvCmd unfreeze] /\
     res.1.1.1 = cmd_status dev (h ++ map EvCmd issued.1) unfreeze
   else
     w_trace res.2 = h ++ map EvCmd issued.1 /\
     res.1.1.1 = issued.2 /\
     List.filter is_unfreeze (drop (length t) (w_trace res.2)) = [])
  /\
  (let status := LtssmStatusGen5 20 (u8 port) in
   let h := t ++ [EvCmd freeze; EvCmd status] in
   let n := clamp_count
              (u16 (dev_exec dev (t ++ [EvCmd freeze]) status).2) log_count in
   let issued := issue_until_failure dev h (gen5_dump_requests port n) in
   let res := switchtec_diag_ltssm_log_gen5 transfers dev port log_count
                log_data w in
   cmd_status dev t freeze = 0 ->
   cmd_status dev (t ++ [EvCmd freeze]) status = 0 ->
   w_trace res.2 = h ++ map EvCmd issued.1 ++ [EvCmd unfreeze] /\
   res.1.1.1 = cmd_status dev (h ++ map EvCmd issued.1) unfreeze).
Proof.
  intros t freeze unfreeze. split.
  - intros status h n issued res Hf Hs.
    pose proof (ltssm_log_gen4_run transfers dev port log_count log_data w
                  Hf Hs) as (_ & _ & H).
    fold t freeze status unfreeze h n issued res in H.
    destruct (issued.2 =? 0).
    + destruct H as (H1 & H2 & _). done.
    + destruct H as (H1 & H2 & _). split; [done|]. split; [done|].
      rewrite H1. subst h. rewrite <- app_assoc, drop_app_length.
      cbn [app List.filter is_unfreeze Z.eqb].
      pose proof (issue_prefix dev (t ++ [EvCmd freeze; EvCmd status])
                    (gen4_dump_requests port n)) as [k Hk].
      fold issued in Hk.
      assert (Hd : Forall (fun r => is_unfreeze (EvCmd r) = false)
                     (gen4_dump_requests port n)).
      { unfold gen4_dump_requests. destruct (u8 n <=? 126);
          repeat constructor. }
      rewrite Hk in Hd. apply Forall_app in Hd as [Hd _].
      clear -Hd. induction Hd as [|r l Hr _ IH]; [reflexivity|].
      cbn [map List.filter]. rewrite Hr. exact IH.
  - intros status h n issued res Hf Hs. subst res.
    rewrite (ltssm_log_gen5_run dev port log_count log_data w Hf Hs).
    fold t freeze status unfreeze h n. cbn [fst snd w_trace].
    rewrite gen5_replay_trace. fold (gen5_dump_requests port n).
    fold issued. rewrite <- app_assoc. done.
Qed.

End LtssmRuns.

(** The pairing at two devices that reject the first dump request: the Gen4
    retrieval stops there, the Gen5 retrieval goes on to unfreeze. *)
Lemma ltssm_unfreeze_pairing_witness :
  let dev4 := sample_dev SWITCHTEC_GEN4 200 (dump_at 0) in
  let dev5 := sample_dev SWITCHTEC_GEN5 200 (dump_at 0) in
  let run4 := switchtec_diag_ltssm_log_gen4 sample_transfers dev4 3 130
                (blank_log 130) world0 in
  let run5 := switchtec_diag_ltssm_log_gen5 sample_transfers dev5 3 130
                (blank_log 130) world0 in
  (cmd_status dev4 [] (LtssmFreeze 14 3 1) = 0 /\
   cmd_status dev4 [EvCmd (LtssmFreeze 14 3 1)] (LtssmStatusGen4 13 3) = 0 /\
   w_trace run4.2 = [EvCmd (LtssmFreeze 14 3 1); EvCmd (LtssmStatusGen4 13 3);
                     EvCmd (LtssmDumpGen4 15 3 0 126)] /\
   run4.1.1.1 = 5) /\
  (cmd_status dev5 [] (LtssmFreeze 14 3 1) = 0 /\
   cmd_status dev5 [EvCmd (LtssmFreeze 14 3 1)] (LtssmStatusGen5 20 3) = 0 /\
   w_trace run5.2 = [EvCmd (LtssmFreeze 14 3 1); EvCmd (LtssmStatusGen5 20 3);
                     EvCmd (LtssmDumpGen5 21 3 0 63);
                     EvCmd (LtssmFreeze 14 3 0)] /\
   run5.1.1.1 = 0).
Proof.
  intros dev4 dev5 run4 run5.
  assert (F4 : cmd_status dev4 [] (LtssmFreeze 14 (u8 3) 1) = 0) by reflexivity.
  assert (S4 : cmd_status dev4 ([] ++ [EvCmd (LtssmFreeze 14 (u8 3) 1)])
                 (LtssmStatusGen4 13 (u8 3)) = 0) by reflexivity.
  assert (F5 : cmd_status dev5 [] (LtssmFreeze 14 (u8 3) 1) = 0) by reflexivity.
  assert (S5 : cmd_status dev5 ([] ++ [EvCmd (LtssmFreeze 14 (u8 3) 1)])
                 (LtssmStatusGen5 20 (u8 3)) = 0) by reflexivity.
  pose proof (ltssm_unfreeze_pairing sample_transfers dev4 3 130
                (blank_log 130) world0) as [H4 _].
  pose proof (ltssm_unfreeze_pairing sample_transfers dev5 3 130
                (blank_log 130) world0) as [_ H5].
  specialize (H4 F4 S4). specialize (H5 F5 S5).
  destruct H4 as (T4 & R4 & _). destruct H5 as (T5 & R5).
  split.
  - split; [exact F4|]. split; [exact S4|]. split; [exact T4|exact R4].
  - split; [exact F5|]. split; [exact S5|]. split; [exact T5|exact R5].
Defined.

(** C1 as stated fails on Gen5: the first dump request is rejected after a
    successful freeze, and the retrieval still sends the unfreeze request
    and reports its status, 0. *)
Lemma ltssm_gen5_unfreezes_after_failed_dump :
  let dev := sample_dev SWITCHTEC_GEN5 200 (dump_at 0) in
  let res := switchtec_diag_ltssm_log_gen5 sample_transfers dev 3 130
               (blank_log 130) world0 in
  cmd_status dev [] (LtssmFreeze 14 3 1) = 0 /\
  cmd_status dev [EvCmd (LtssmFreeze 14 3 1); EvCmd (LtssmStatusGen5 20 3)]
    (LtssmDumpGen5 21 3 0 63) = 5 /\
  w_trace res.2 = [EvCmd (LtssmFreeze 14 3 1); EvCmd (LtssmStatusGen5 20 3);
                   EvCmd (LtssmDumpGen5 21 3 0 63);
                   EvCmd (LtssmFreeze 14 3 0)] /\
  List.filter is_unfreeze (w_trace res.2) <> [] /\
  res.1.1.1 = 0.
Proof. vm_compute. repeat split; discriminate. Qed.

(** ** LTSSM log: link state *)

Lemma land_ones_low a k i :
  0 <= k -> k <= i -> Z.testbit (Z.land a (Z.ones k)) i = false.
Proof.
  intros Hk Hi. rewrite Z.land_spec, Z.ones_spec_high by lia.
  apply andb_false_r.
Qed.

(** A field of at most eight bits and a second field shifted above it: the
    two can be read back from the combined word. *)
Lemma lor_shiftl_8_split a b k :
  0 <= k <= 8 ->
  let lo := Z.land a (Z.ones k) in
  Z.land (Z.lor lo (Z.shiftl b 8)) 255 = lo /\
  Z.shiftr (Z.lor lo (Z.shiftl b 8)) 8 = b.
Proof.
  intros Hk lo. split; apply Z.bits_inj'; intros i Hi.
  - change 255 with (Z.ones 8).
    rewrite Z.land_spec, Z.lor_spec, Z.shiftl_spec by lia.
    destruct (Z.lt_ge_cases i 8).
    + rewrite Z.ones_spec_low, (Z.testbit_neg_r b) by lia.
      rewrite orb_false_r, andb_true_r. reflexivity.
    + rewrite Z.ones_spec_high, andb_false_r by lia.
      symmetry. apply land_ones_low; lia.
  - rewrite Z.shiftr_spec, Z.lor_spec, Z.shiftl_spec by lia.
    replace (i + 8 - 8) with i by lia.
    unfold lo. rewrite land_ones_low by lia. reflexivity.
Qed.

(** C3, as the code has it. In a decoded LTSSM log entry of either
    generation the link state is [major | minor << 8]: the major state is
    the low byte and the minor state sits above it. *)
Theorem ltssm_link_state_layout transfers (r : ltssm_gen4_rec) (b : log_buffer) :
  let s4 := link_state (ltssm_gen4_entry transfers r) in
  let s5 := link_state (ltssm_gen5_entry transfers b) in
  (s4 = Z.lor (gen4_major r) (Z.shiftl (gen4_minor r) 8) /\
   Z.land s4 255 = gen4_major r /\ Z.shiftr s4 8 = gen4_minor r) /\
  (s5 = Z.lor (lb_major b) (Z.shiftl (lb_minor b) 8) /\
   Z.land s5 255 = lb_major b /\ Z.shiftr s5 8 = lb_minor b).
Proof.
  cbn [ltssm_gen4_entry ltssm_gen5_entry link_state]. split.
  - split; [reflexivity|]. unfold gen4_major.
    exact (lor_shiftl_8_split (Z.shiftr (dw0 r) 7) (gen4_minor r) 4 ltac:(lia)).
  - split; [reflexivity|]. unfold lb_major.
    exact (lor_shiftl_8_split (Z.shiftr (lb_dword0 b) 7) (lb_minor b) 6
             ltac:(lia)).
Qed.

(** C3 as stated fails: with major state 1 and minor state 0 the link state
    is 1, not [1 << 8]; with major 0 and minor 1 it is 256, not 1. *)
Lemma ltssm_link_state_not_major_high :
  let r := {| dw0 := 128; dw1 := 0 |} in
  let b := {| lb_dword0 := 8; time_stamp := 0; lb_dword2 := 0; cond := 0 |} in
  (gen4_major r = 1 /\ gen4_minor r = 0 /\
   link_state (ltssm_gen4_entry sample_transfers r) = 1 /\
   link_state (ltssm_gen4_entry sample_transfers r)
   <> Z.lor (Z.shiftl (gen4_major r) 8) (gen4_minor r)) /\
  (lb_major b = 0 /\ lb_minor b = 1 /\
   link_state (ltssm_gen5_entry sample_transfers b) = 256 /\
   link_state (ltssm_gen5_entry sample_transfers b)
   <> Z.lor (Z.shiftl (lb_major b) 8) (lb_minor b)).
Proof. vm_compute. repeat split; discriminate. Qed.

(** ** LTSSM log: chunking *)

Lemma filter_dump_requests (reqs : list request) :
  Forall (fun r => is_dump (EvCmd r) = true) reqs ->
  List.filter is_dump (map EvCmd reqs) = map EvCmd reqs.
Proof.
  induction 1 as [|r l Hr _ IH]; [reflexivity|].
  cbn [map List.filter]. rewrite Hr, IH. reflexivity.
Qed.

Lemma issued_Forall (P : request -> Prop) dev h reqs :
  Forall P reqs -> Forall P (issue_until_failure dev h reqs).1.
Proof.
  intros H. destruct (issue_prefix dev h reqs) as [k Hk].
  rewrite Hk in H. by apply Forall_app in H as [H _].
Qed.

Section LtssmChunking.

Variable transfers : Z -> spec_float.

(** C5. A Gen4 retrieval that reaches the dump stage with a nonnegative
    requested count and clamped count [n] issues one dump request, for [n]
    entries at index 0, when [n <= 126]; otherwise it issues a request for
    126 entries at index 0 and, only when that one is accepted, a request
    for [n - 126] entries at index 126; a rejected first request is the
    only one.  No other dump request is issued. *)
Theorem ltssm_gen4_chunking dev port log_count log_data w :
  let t := w_trace w in
  let freeze := LtssmFreeze 14 (u8 port) 1 in
  let status := LtssmStatusGen4 13 (u8 port) in
  let h := t ++ [EvCmd freeze; EvCmd status] in
  let n := Z.min (u8 (dev_exec dev (t ++ [EvCmd freeze]) status).2)
             log_count in
  let res := switchtec_diag_ltssm_log_gen4 transfers dev port log_count
               log_data w in
  let dumps := List.filter is_dump (drop (length t) (w_trace res.2)) in
  cmd_status dev t freeze = 0 ->
  cmd_status dev (t ++ [EvCmd freeze]) status = 0 ->
  0 <= log_count ->
  res.1.1.2 = n /\
  if n <=? 126 then
    dumps = [EvCmd (LtssmDumpGen4 15 (u8 port) 0 n)]
  else if cmd_status dev h (LtssmDumpGen4 15 (u8 port) 0 126) =? 0 then
    dumps = [EvCmd (LtssmDumpGen4 15 (u8 port) 0 126);
             EvCmd (LtssmDumpGen4 15 (u8 port) 126 (n - 126))]
  else
    dumps = [EvCmd (LtssmDumpGen4 15 (u8 port) 0 126)].
Proof.
  intros t freeze status h n res dumps Hf Hs Hn.
  pose proof (ltssm_log_gen4_run transfers dev port log_count log_data w
                Hf Hs) as (Hc & _ & H).
  fold t freeze status h res in H, Hc.
  rewrite clamp_count_min in H, Hc. fold n in H, Hc.
  assert (Hr : 0 <= n < 256).
  { subst n.
    generalize (u8_range (dev_exec dev (t ++ [EvCmd freeze]) status).2).
    generalize (u8 (dev_exec dev (t ++ [EvCmd freeze]) status).2).
    intros v Hv. lia. }
  set (plan := gen4_dump_requests port n) in *.
  assert (Hd : Forall (fun r => is_dump (EvCmd r) = true)
                 (issue_until_failure dev h plan).1).
  { apply issued_Forall. unfold plan, gen4_dump_requests.
    destruct (u8 n <=? 126); repeat constructor. }
  assert (Hdumps : dumps = map EvCmd (issue_until_failure dev h plan).1).
  { subst dumps. destruct ((issue_until_failure dev h plan).2 =? 0).
    - destruct H as (-> & _). subst h.
      rewrite <- app_assoc, drop_app_length.
      cbn [app List.filter is_dump]. rewrite List.filter_app.
      rewrite filter_dump_requests by exact Hd. cbn. by rewrite app_nil_r.
    - destruct H as (-> & _). subst h.
      rewrite <- app_assoc, drop_app_length.
      cbn [app List.filter is_dump].
      by rewrite filter_dump_requests. }
  split; [exact Hc|]. rewrite Hdumps. subst plan. unfold gen4_dump_requests.
  rewrite (u8_small n) by exact Hr.
  destruct (Z.leb_spec n 126) as [|Hgt]; cbn [issue_until_failure].
  - by destruct (cmd_status dev h _ =? 0).
  - rewrite (u8_small (n - 126)) by lia.
    destruct (cmd_status dev h _ =? 0); [|reflexivity].
    by destruct (cmd_status dev _ _ =? 0).
Qed.

End LtssmChunking.

(** Requesting 200 entries of 255 issues requests for 126 and 74 entries,
    requesting 50 issues one request. *)
Lemma ltssm_gen4_chunking_witness :
  let dev := sample_dev SWITCHTEC_GEN4 255 never in
  let dumps (log_count : Z) :=
    List.filter is_dump
      (w_trace (switchtec_diag_ltssm_log_gen4 sample_transfers dev 3 log_count
                  (blank_log 256) world0).2) in
  cmd_status dev [] (LtssmFreeze 14 3 1) = 0 /\
  cmd_status dev [EvCmd (LtssmFreeze 14 3 1)] (LtssmStatusGen4 13 3) = 0 /\
  dumps 200 = [EvCmd (LtssmDumpGen4 15 3 0 126);
               EvCmd (LtssmDumpGen4 15 3 126 74)] /\
  dumps 50 = [EvCmd (LtssmDumpGen4 15 3 0 50)].
Proof.
  intros dev dumps.
  assert (F : cmd_status dev (w_trace world0) (LtssmFreeze 14 (u8 3) 1) = 0)
    by reflexivity.
  assert (S : cmd_status dev (w_trace world0 ++ [EvCmd (LtssmFreeze 14 (u8 3) 1)])
                (LtssmStatusGen4 13 (u8 3)) = 0) by reflexivity.
  split; [exact F|]. split; [exact S|]. split.
  - exact (proj2 (ltssm_gen4_chunking sample_transfers dev 3 200
                    (blank_log 256) world0 F S ltac:(lia))).
  - exact (proj2 (ltssm_gen4_chunking sample_transfers dev 3 50
                    (blank_log 256) world0 F S ltac:(lia))).
Defined.

(** Requesting 200 entries of 255 from a device that rejects the dump at
    index 0: freeze and status query succeed, the clamped count is 200,
    above 126, and one dump request is issued, not two. *)
Lemma ltssm_gen4_one_call_above_126 :
  let dev := sample_dev SWITCHTEC_GEN4 255 (dump_at 0) in
  let res := switchtec_diag_ltssm_log_gen4 sample_transfers dev 3 200
               (blank_log 256) world0 in
  cmd_status dev [] (LtssmFreeze 14 3 1) = 0 /\
  cmd_status dev [EvCmd (LtssmFreeze 14 3 1)] (LtssmStatusGen4 13 3) = 0 /\
  res.1.1.2 = 200 /\
  res.1.1.1 = 5 /\
  List.filter is_dump (w_trace res.2) = [EvCmd (LtssmDumpGen4 15 3 0 126)] /\
  List.filter is_dump (w_trace res.2)
  <> [EvCmd (LtssmDumpGen4 15 3 0 126); EvCmd (LtssmDumpGen4 15 3 126 74)].
Proof. vm_compute. repeat split; discriminate. Qed.

(** A negative requested count is stored into the 8-bit field of the
    request as it is: with [*log_count = -1] the field reads 255, above
    126, and two dump requests are issued, for 126 and for 129 entries. *)
Example ltssm_gen4_negative_count :
  let dev := sample_dev SWITCHTEC_GEN4 255 never in
  let res := switchtec_diag_ltssm_log_gen4 sample_transfers dev 3 (-1)
               (blank_log 256) world0 in
  res.1.1.2 = -1 /\
  List.filter is_dump (w_trace res.2)
  = [EvCmd (LtssmDumpGen4 15 3 0 126); EvCmd (LtssmDumpGen4 15 3 126 129)] /\
  res.1.2 = blank_log 256.
Proof. vm_compute. done. Qed.

(** ** LTSSM log: the Gen5 chunks *)

Lemma gen5_chunks_lookup cur avail (k : nat) c :
  gen5_chunks cur avail !! k = Some c ->
  c = gen5_chunk cur avail k /\ MAX_LOG_READ * Z.of_nat k < avail.
Proof.
  unfold gen5_chunks. rewrite list_lookup_fmap.
  destruct (seq 0 _ !! k) as [i|] eqn:E; [|discriminate].
  apply lookup_seq in E as [-> E]. cbn. intros [= <-]. split; [reflexivity|].
  unfold MAX_LOG_READ in *.
  assert (Z.of_nat k < (avail + 63 - 1) / 63) by lia.
  assert (63 * ((avail + 63 - 1) / 63) <= avail + 63 - 1)
    by (apply Z.mul_div_le; lia).
  lia.
Qed.

Lemma gen5_chunks_start cur avail :
  Forall (fun c => cur <= fst c) (gen5_chunks cur avail).
Proof.
  apply Forall_lookup. intros k c Hk.
  apply gen5_chunks_lookup in Hk as [-> _]. unfold gen5_chunk, MAX_LOG_READ.
  cbn. lia.
Qed.

(** The chunk sizes add up to the number of records. *)
Lemma gen5_chunks_total cur avail :
  0 <= avail -> foldr Z.add 0 (map snd (gen5_chunks cur avail)) = avail.
Proof.
  remember (Z.to_nat avail) as m eqn:Hm. revert cur avail Hm.
  induction (lt_wf m) as [m _ IH]. intros cur avail Hm Ha.
  destruct (Z.eq_dec avail 0) as [->|Hne].
  - reflexivity.
  - rewrite gen5_chunks_cons by lia. cbn [map foldr snd].
    destruct (Z.le_gt_cases avail 63).
    + rewrite (gen5_chunks_nil (cur + 63)) by lia. cbn. lia.
    + rewrite (IH (Z.to_nat (avail - 63))) by lia. lia.
Qed.

Lemma gen5_chunk_succ cur avail (k : nat) :
  gen5_chunk cur avail (S k) = gen5_chunk (cur + 63) (avail - 63) k.
Proof. unfold gen5_chunk, MAX_LOG_READ. f_equal; lia. Qed.

Lemma gen5_chunk_buffer_succ dev port h cur avail (k : nat) :
  0 < avail ->
  gen5_chunk_buffer dev port h cur avail (S k)
  = gen5_chunk_buffer dev port
      (h ++ [EvCmd (LtssmDumpGen5 21 (u8 port) cur (Z.min avail 63))])
      (cur + 63) (avail - 63) k.
Proof.
  intros Ha. unfold gen5_chunk_buffer.
  rewrite gen5_chunks_cons by exact Ha. cbn [map take].
  rewrite gen5_chunk_succ, <- app_assoc. reflexivity.
Qed.

Lemma gen5_chunk_buffer_0 dev port h cur avail :
  gen5_chunk_buffer dev port h cur avail 0
  = (dev_exec dev h (LtssmDumpGen5 21 (u8 port) cur (Z.min avail 63))).2.
Proof.
  unfold gen5_chunk_buffer, gen5_chunk, MAX_LOG_READ. cbn [take map fst snd].
  rewrite app_nil_r, Z.mul_0_r, Z.add_0_r, Z.sub_0_r. reflexivity.
Qed.

Section Ltssm5Data.

Variable transfers : Z -> spec_float.

(** After a replay in which every chunk succeeds, each record of the dump
    has been decoded into its entry of [log_data]. *)
Lemma gen5_replay_written dev port h cur avail ld (j : nat) :
  0 <= cur ->
  all_succeed dev h (map (gen5_dump_request port) (gen5_chunks cur avail)) ->
  cur <= Z.of_nat j < cur + avail ->
  (j < length ld)%nat ->
  (gen5_replay transfers dev port h (gen5_chunks cur avail) ld).1 !! j
  = Some (ltssm_gen5_entry transfers
            (gen5_chunk_buffer dev port h cur avail
               (Z.to_nat ((Z.of_nat j - cur) / 63))
               (Z.to_nat ((Z.of_nat j - cur) mod 63)))).
Proof.
  remember (Z.to_nat avail) as m eqn:Hm. revert cur avail h ld Hm.
  induction (lt_wf m) as [m _ IH]. intros cur avail h ld Hm Hc Hs Hj Hl.
  rewrite gen5_chunks_cons in Hs |- * by lia.
  destruct Hs as [Hs0 Hs]. cbn [gen5_replay fst snd].
  unfold cmd_status, gen5_dump_request in Hs0. cbn [fst snd] in Hs0.
  pose proof (gen5_chunk_buffer_0 dev port h cur avail) as Hb0.
  destruct (dev_exec dev h (LtssmDumpGen5 21 (u8 port) cur (Z.min avail 63)))
    as [s buf]. cbn [fst snd] in Hs0, Hb0. subst s. cbn [Z.eqb].
  destruct (Z.lt_ge_cases (Z.of_nat j) (cur + 63)) as [Hlo|Hhi].
  - rewrite gen5_replay_frame.
    2:{ pose proof (gen5_chunks_start (cur + 63) (avail - 63)) as Hst.
        rewrite Forall_forall in Hst |- *. intros c Hin.
        specialize (Hst c Hin). lia. }
    rewrite store_range_inside by lia.
    rewrite Z.div_small, Z.mod_small by lia.
    change (Z.to_nat 0) with 0%nat. rewrite Hb0.
    do 3 f_equal. lia.
  - unfold gen5_dump_request in Hs. cbn [fst snd] in Hs.
    rewrite (IH (Z.to_nat (avail - 63))) with (cur := cur + 63);
      [|lia|reflexivity|lia|exact Hs|lia|by rewrite store_range_length].
    replace (Z.of_nat j - cur) with ((Z.of_nat j - (cur + 63)) + 1 * 63) by lia.
    rewrite Z.div_add, Z_mod_plus_full by lia.
    rewrite Z2Nat.inj_add by (try apply Z.div_pos; lia).
    rewrite Nat.add_comm. change (Z.to_nat 1) with 1%nat. cbn [Nat.add].
    rewrite gen5_chunk_buffer_succ by lia. reflexivity.
Qed.

End Ltssm5Data.

Lemma gen5_dump_requests_lookup port n (k : nat) r :
  gen5_dump_requests port n !! k = Some r ->
  r = LtssmDumpGen5 21 (u8 port) (63 * Z.of_nat k)
        (Z.min (n - 63 * Z.of_nat k) 63) /\
  1 <= Z.min (n - 63 * Z.of_nat k) 63.
Proof.
  unfold gen5_dump_requests. rewrite list_lookup_fmap.
  destruct (gen5_chunks 0 n !! k) as [c|] eqn:E; [|discriminate].
  apply gen5_chunks_lookup in E as [-> E]. cbn. intros [= <-].
  unfold MAX_LOG_READ in *. split; [reflexivity|lia].
Qed.

Lemma gen5_dump_requests_dumps port n :
  Forall (fun r => is_dump (EvCmd r) = true) (gen5_dump_requests port n).
Proof.
  apply Forall_lookup. intros k r Hk.
  by apply gen5_dump_requests_lookup in Hk as [-> _].
Qed.

Section Ltssm5Claims.

Variable transfers : Z -> spec_float.

(** C6. A Gen5 retrieval that reaches the dump stage with clamped count
    [n] and whose dump requests all succeed: the dump requests issued are,
    in order, request [k] at index [63 k] for [min (n - 63 k) 63] entries
    (at least one), their sizes add up to [n], and the [n] records they
    return are decoded into the first [n] entries of [log_data]. *)
Theorem ltssm_gen5_chunking dev port log_count log_data w :
  let t := w_trace w in
  let freeze := LtssmFreeze 14 (u8 port) 1 in
  let status := LtssmStatusGen5 20 (u8 port) in
  let h := t ++ [EvCmd freeze; EvCmd status] in
  let n := Z.min (u16 (dev_exec dev (t ++ [EvCmd freeze]) status).2)
             log_count in
  let plan := gen5_dump_requests port n in
  let res := switchtec_diag_ltssm_log_gen5 transfers dev port log_count
               log_data w in
  let dumps := List.filter is_dump (drop (length t) (w_trace res.2)) in
  cmd_status dev t freeze = 0 ->
  cmd_status dev (t ++ [EvCmd freeze]) status = 0 ->
  0 <= log_count ->
  all_succeed dev h plan ->
  res.1.1.2 = n /\
  dumps = map EvCmd plan /\
  (forall (k : nat) r, plan !! k = Some r ->
     r = LtssmDumpGen5 21 (u8 port) (63 * Z.of_nat k)
           (Z.min (n - 63 * Z.of_nat k) 63) /\
     1 <= Z.min (n - 63 * Z.of_nat k) 63) /\
  foldr Z.add 0 (map snd (gen5_chunks 0 n)) = n /\
  length res.1.2 = length log_data /\
  (forall j : nat, Z.of_nat j < n -> (j < length log_data)%nat ->
     res.1.2 !! j
     = Some (ltssm_gen5_entry transfers
               (gen5_chunk_buffer dev port h 0 n (j / 63) (j mod 63)))).
Proof.
  intros t freeze status h n plan res dumps Hf Hs Hn Ha. subst res dumps.
  rewrite (ltssm_log_gen5_run transfers dev port log_count log_data w Hf Hs).
  fold t freeze status h. rewrite clamp_count_min. fold n.
  cbn [fst snd w_trace].
  assert (Hn0 : 0 <= n).
  { subst n.
    generalize (u16_range (dev_exec dev (t ++ [EvCmd freeze]) status).2).
    generalize (u16 (dev_exec dev (t ++ [EvCmd freeze]) status).2).
    intros v Hv. lia. }
  split; [reflexivity|]. split; [|split; [|split; [|split]]].
  - rewrite gen5_replay_trace. fold (gen5_dump_requests port n). fold plan.
    rewrite issue_all_succeed by exact Ha. cbn [fst]. subst h.
    rewrite <- !app_assoc, drop_app_length.
    cbn [app List.filter is_dump]. rewrite List.filter_app.
    rewrite filter_dump_requests by apply gen5_dump_requests_dumps.
    cbn. by rewrite app_nil_r.
  - intros k r. apply gen5_dump_requests_lookup.
  - apply gen5_chunks_total. exact Hn0.
  - apply gen5_replay_length.
  - intros j Hj Hl.
    rewrite gen5_replay_written by (try exact Ha; lia).
    rewrite Z.sub_0_r.
    change 63 with (Z.of_nat 63) at 1 2.
    rewrite <- Nat2Z.inj_div, <- Nat2Z.inj_mod, !Nat2Z.id. reflexivity.
Qed.

(** C10. A Gen5 retrieval in which the first [k] dump requests succeed and
    the next one fails still ends with the unfreeze request and returns
    the status of that request, so 0 when the unfreeze succeeds; the
    returned count is the full clamped count, and no entry of [log_data]
    from index [63 k] on has been written. *)
Theorem ltssm_gen5_dump_failure dev port log_count log_data w (k : nat) r :
  let t := w_trace w in
  let freeze := LtssmFreeze 14 (u8 port) 1 in
  let status := LtssmStatusGen5 20 (u8 port) in
  let unfreeze := LtssmFreeze 14 (u8 port) 0 in
  let h := t ++ [EvCmd freeze; EvCmd status] in
  let n := Z.min (u16 (dev_exec dev (t ++ [EvCmd freeze]) status).2)
             log_count in
  let plan := gen5_dump_requests port n in
  let res := switchtec_diag_ltssm_log_gen5 transfers dev port log_count
               log_data w in
  let h' := h ++ map EvCmd (take (S k) plan) in
  cmd_status dev t freeze = 0 ->
  cmd_status dev (t ++ [EvCmd freeze]) status = 0 ->
  plan !! k = Some r ->
  all_succeed dev h (take k plan) ->
  cmd_status dev (h ++ map EvCmd (take k plan)) r <> 0 ->
  w_trace res.2 = h' ++ [EvCmd unfreeze] /\
  res.1.1.1 = cmd_status dev h' unfreeze /\
  (cmd_status dev h' unfreeze = 0 -> res.1.1.1 = 0) /\
  res.1.1.2 = n /\
  (forall j : nat, (63 * k <= j)%nat -> res.1.2 !! j = log_data !! j).
Proof.
  intros t freeze status unfreeze h n plan res h' Hf Hs Hk Ha Hr.
  subst res.
  rewrite (ltssm_log_gen5_run transfers dev port log_count log_data w Hf Hs).
  fold t freeze status unfreeze h. rewrite clamp_count_min. fold n.
  cbn [fst snd w_trace].
  assert (Hsplit : gen5_chunks 0 n
                   = take k (gen5_chunks 0 n) ++ drop k (gen5_chunks 0 n))
    by (symmetry; apply take_drop).
  unfold plan, gen5_dump_requests in Hk, Ha, Hr.
  rewrite list_lookup_fmap in Hk.
  destruct (gen5_chunks 0 n !! k) as [c|] eqn:Hc; [|discriminate].
  injection Hk as <-.
  rewrite <- fmap_take in Ha, Hr.
  assert (Hdrop : drop k (gen5_chunks 0 n) = c :: drop (S k) (gen5_chunks 0 n))
    by (by apply drop_S).
  assert (Hrun : gen5_replay transfers dev port h (gen5_chunks 0 n) log_data
                 = ((gen5_replay transfers dev port h
                       (take k (gen5_chunks 0 n)) log_data).1, h')).
  { rewrite Hsplit at 1. rewrite gen5_replay_app by exact Ha.
    rewrite Hdrop. cbn [gen5_replay].
    unfold cmd_status, gen5_dump_request in Hr.
    destruct (dev_exec dev _
                (LtssmDumpGen5 21 (u8 port) (fst c) (snd c))) as [s buf].
    cbn [fst] in Hr. destruct (Z.eqb_spec s 0); [contradiction|].
    subst h' plan. unfold gen5_dump_requests.
    rewrite <- fmap_take, (take_S_r _ _ c) by exact Hc.
    rewrite !fmap_app, <- app_assoc. reflexivity. }
  rewrite Hrun. cbn [fst snd].
  split; [reflexivity|]. split; [reflexivity|]. split; [done|].
  split; [reflexivity|].
  intros j Hj. apply gen5_replay_frame.
  apply Forall_lookup. intros i c' Hi.
  rewrite lookup_take_Some in Hi. destruct Hi as [Hi Hik].
  apply gen5_chunks_lookup in Hi as [-> _].
  unfold gen5_chunk, MAX_LOG_READ. cbn [fst snd]. lia.
Qed.

End Ltssm5Claims.

(** Requesting 130 entries of 200: requests for 63, 63 and 4 entries. *)
Lemma ltssm_gen5_chunking_witness :
  let dev := sample_dev SWITCHTEC_GEN5 200 never in
  let res := switchtec_diag_ltssm_log_gen5 sample_transfers dev 3 130
               (blank_log 130) world0 in
  cmd_status dev [] (LtssmFreeze 14 3 1) = 0 /\
  cmd_status dev [EvCmd (LtssmFreeze 14 3 1)] (LtssmStatusGen5 20 3) = 0 /\
  all_succeed dev [EvCmd (LtssmFreeze 14 3 1); EvCmd (LtssmStatusGen5 20 3)]
    [LtssmDumpGen5 21 3 0 63; LtssmDumpGen5 21 3 63 63;
     LtssmDumpGen5 21 3 126 4] /\
  List.filter is_dump (w_trace res.2)
  = [EvCmd (LtssmDumpGen5 21 3 0 63); EvCmd (LtssmDumpGen5 21 3 63 63);
     EvCmd (LtssmDumpGen5 21 3 126 4)] /\
  63 + 63 + 4 = res.1.1.2.
Proof.
  intros dev res.
  assert (F : cmd_status dev (w_trace world0) (LtssmFreeze 14 (u8 3) 1) = 0)
    by reflexivity.
  assert (S : cmd_status dev (w_trace world0 ++ [EvCmd (LtssmFreeze 14 (u8 3) 1)])
                (LtssmStatusGen5 20 (u8 3)) = 0) by reflexivity.
  assert (A : all_succeed dev
                [EvCmd (LtssmFreeze 14 3 1); EvCmd (LtssmStatusGen5 20 3)]
                [LtssmDumpGen5 21 3 0 63; LtssmDumpGen5 21 3 63 63;
                 LtssmDumpGen5 21 3 126 4]) by (cbn; done).
  pose proof (ltssm_gen5_chunking sample_transfers dev 3 130 (blank_log 130)
                world0 F S ltac:(lia) A) as (C & D & _).
  split; [exact F|]. split; [exact S|]. split; [exact A|].
  split; [exact D|]. symmetry. exact C.
Defined.

(** The second of three dump requests is rejected: the retrieval unfreezes,
    reports success and the full count, and entry 63 is still blank. *)
Lemma ltssm_gen5_dump_failure_witness :
  let dev := sample_dev SWITCHTEC_GEN5 200 (dump_at 63) in
  let res := switchtec_diag_ltssm_log_gen5 sample_transfers dev 3 130
               (blank_log 130) world0 in
  let h := [EvCmd (LtssmFreeze 14 3 1); EvCmd (LtssmStatusGen5 20 3)] in
  (cmd_status dev [] (LtssmFreeze 14 3 1) = 0 /\
   cmd_status dev [EvCmd (LtssmFreeze 14 3 1)] (LtssmStatusGen5 20 3) = 0 /\
   gen5_dump_requests 3 130 !! 1%nat = Some (LtssmDumpGen5 21 3 63 63) /\
   all_succeed dev h [LtssmDumpGen5 21 3 0 63] /\
   cmd_status dev (h ++ [EvCmd (LtssmDumpGen5 21 3 0 63)])
     (LtssmDumpGen5 21 3 63 63) <> 0) /\
  w_trace res.2 = h ++ [EvCmd (LtssmDumpGen5 21 3 0 63);
                        EvCmd (LtssmDumpGen5 21 3 63 63);
                        EvCmd (LtssmFreeze 14 3 0)] /\
  res.1.1.1 = 0 /\
  res.1.1.2 = 130 /\
  res.1.2 !! 63%nat = Some blank_entry.
Proof.
  intros dev res h.
  assert (F : cmd_status dev (w_trace world0) (LtssmFreeze 14 (u8 3) 1) = 0)
    by reflexivity.
  assert (S : cmd_status dev (w_trace world0 ++ [EvCmd (LtssmFreeze 14 (u8 3) 1)])
                (LtssmStatusGen5 20 (u8 3)) = 0) by reflexivity.
  assert (K : gen5_dump_requests 3 130 !! 1%nat
              = Some (LtssmDumpGen5 21 3 63 63)) by reflexivity.
  assert (A : all_succeed dev h [LtssmDumpGen5 21 3 0 63]) by (cbn; done).
  assert (R : cmd_status dev (h ++ [EvCmd (LtssmDumpGen5 21 3 0 63)])
                (LtssmDumpGen5 21 3 63 63) <> 0) by (cbn; discriminate).
  pose proof (ltssm_gen5_dump_failure sample_transfers dev 3 130
                (blank_log 130) world0 1 (LtssmDumpGen5 21 3 63 63)
                F S K A R) as (T & E & _ & C & D).
  split; [done|]. split; [exact T|]. split; [exact E|]. split; [exact C|].
  transitivity (blank_log 130 !! 63%nat); [apply (D 63%nat); lia|reflexivity].
Defined.

(** ** Eye capture: the fetch *)

Lemma ffs_zero x : ffs x = 0 <-> x = 0.
Proof.
  assert (H : forall p, 0 <= ctz p) by (induction p; cbn [ctz]; lia).
  destruct x as [|p|p]; cbn [ffs]; split; try specialize (H p); intros;
    try lia; try discriminate.
Qed.

(** [ffs] counts bit positions from 1: bit [k] alone gives [k + 1]. *)
Lemma ffs_bit (k : nat) : ffs (2 ^ Z.of_nat k) = Z.of_nat k + 1.
Proof.
  induction k as [|k IH]; [reflexivity|].
  rewrite Nat2Z.inj_succ, Z.pow_succ_r by lia.
  destruct (2 ^ Z.of_nat k) as [|p|p] eqn:E;
    [cbn in IH; lia| |];
    change (2 * Z.pos p) with (Z.pos p~0) || change (2 * Z.neg p) with (Z.neg p~0);
    cbn [ffs ctz] in *; lia.
Qed.

(** The lane scan reports [ffs] of the first nonzero mask word, whatever
    its index, and 0 if all four words are zero. *)
Lemma eye_lane_scan_first mask (i : nat) lane_id :
  (i < 4)%nat ->
  (forall j : nat, (j < i)%nat -> mask j = 0) ->
  mask i <> 0 ->
  eye_lane_scan mask (seq 0 4) lane_id = ffs (mask i).
Proof.
  intros Hi Hz Hn.
  assert (Hf : (ffs (mask i) =? 0) = false)
    by (apply Z.eqb_neq; by rewrite ffs_zero).
  replace 4%nat with (i + S (3 - i))%nat by lia.
  rewrite seq_app. cbn [seq Nat.add]. generalize (seq (S i) (3 - i)) as rest.
  intros rest. revert lane_id.
  assert (Hb : Forall (fun j => mask j = 0) (seq 0 i)).
  { apply Forall_forall. intros j Hj. apply Hz.
    apply in_seq in Hj. lia. }
  induction Hb as [|j before Hj _ IH]; intros lane_id; cbn [app eye_lane_scan].
  - by rewrite Hf.
  - rewrite Hj. cbn [ffs Z.eqb negb]. apply IH.
Qed.

Lemma eye_lane_scan_none mask lane_id :
  (forall j : nat, (j < 4)%nat -> mask j = 0) ->
  eye_lane_scan mask (seq 0 4) lane_id = 0.
Proof.
  intros Hz. cbn [seq eye_lane_scan]. by rewrite !Hz by lia.
Qed.

Lemma eye_store_pixel_mode out i pixels :
  data_mode out = SWITCHTEC_DIAG_EYE_RAW \/
  data_mode out = SWITCHTEC_DIAG_EYE_RATIO ->
  eye_store_pixel out i pixels = <[i := eye_pixel out i]> pixels.
Proof. unfold eye_store_pixel, eye_pixel. by intros [-> | ->]. Qed.

(** The pixel loop overwrites the entries below [min data_count pixel_cnt]
    and nothing else. *)
Lemma eye_pixel_loop_writes out data_count (i0 len : nat) pixels :
  data_mode out = SWITCHTEC_DIAG_EYE_RAW \/
  data_mode out = SWITCHTEC_DIAG_EYE_RATIO ->
  (i0 + len <= length pixels)%nat ->
  let m := Nat.min len (Z.to_nat data_count - i0) in
  eye_pixel_loop out data_count (seq i0 len) pixels
  = take i0 pixels ++ map (eye_pixel out) (seq i0 m) ++ drop (i0 + m) pixels.
Proof.
  intros Hmode. revert i0 pixels.
  induction len as [|len IH]; intros i0 pixels Hl m.
  - subst m. cbn. by rewrite Nat.add_0_r, take_drop.
  - cbn [seq eye_pixel_loop].
    destruct (Z.ltb_spec (Z.of_nat i0) data_count) as [Hlt|Hge].
    + rewrite eye_store_pixel_mode by exact Hmode.
      rewrite IH by (rewrite length_insert; lia).
      replace m with (S (Nat.min len (Z.to_nat data_count - S i0))) by lia.
      cbn [seq map].
      rewrite drop_insert_lt by lia.
      erewrite take_S_r by (apply list_lookup_insert_eq; lia).
      rewrite take_insert_ge by lia.
      rewrite <- app_assoc. cbn [app]. do 3 f_equal. f_equal. lia.
    + replace m with 0%nat by lia. cbn. by rewrite Nat.add_0_r, take_drop.
Qed.

(** With any other data mode byte the loop stores nothing. *)
Lemma eye_pixel_loop_other_mode out data_count idxs pixels v :
  data_mode out = EYE_DATA_MODE_OTHER v ->
  eye_pixel_loop out data_count idxs pixels = pixels.
Proof.
  intros Hmode. revert pixels. induction idxs as [|i idxs IH]; intros pixels.
  - reflexivity.
  - cbn [eye_pixel_loop]. unfold eye_store_pixel. rewrite Hmode, IH.
    by destruct (_ <? _).
Qed.

(** A fetch retries through the busy answers and finishes on the first
    other one. *)
Lemma eye_fetch_retries dev w k out w' fuel pixels pixel_cnt lane_id :
  eye_answers dev w k out w' ->
  status out = 0 ->
  (k < fuel)%nat ->
  switchtec_diag_eye_fetch fuel dev pixels pixel_cnt lane_id w
  = (Some (eye_fetch_finish out pixels pixel_cnt lane_id), w').
Proof.
  intros Ha Hst. revert fuel.
  induction Ha as [w out' Hx Hs|w busy k out' w' Hx Hs Ha IH]; intros fuel Hk.
  - destruct fuel as [|fuel]; [lia|]. cbn [switchtec_diag_eye_fetch].
    mstep. rewrite Hx. cbn [Z.eqb negb].
    destruct (Z.eqb_spec (status out') 1); [contradiction|].
    rewrite Hst. reflexivity.
  - destruct fuel as [|fuel]; [lia|]. cbn [switchtec_diag_eye_fetch].
    mstep. rewrite Hx. cbn [Z.eqb negb]. rewrite Hs.
    change (1 =? 1) with true. cbn iota.
    unfold bind at 1, usleep. cbn [w_trace w_errno].
    rewrite <- app_assoc. cbn [app]. apply (IH Hst). lia.
Qed.

(** The count of a response is its two count bytes side by side. *)
Lemma eye_data_count_bytes out :
  0 <= data_count_lo out < 256 ->
  eye_data_count out = data_count_lo out + 256 * data_count_hi out.
Proof.
  intros Hlo. unfold eye_data_count.
  rewrite Z.lor_comm. apply (lor_shiftl_add _ _ 8); lia.
Qed.

(** The state a fetch ends in: the busy requests with their sleeps, the
    last request, and the [errno] the sleeps left. *)
Lemma eye_answers_world dev w k out w' :
  eye_answers dev w k out w' ->
  w' = {| w_trace := w_trace w ++ busy_fetches k ++ [EvCmd EyeObserveFetch];
          w_errno := busy_errno dev (w_trace w) k (w_errno w) |}.
Proof.
  induction 1 as [w out Hx Hs|w busy k out w' Hx Hs Ha IH]; [reflexivity|].
  rewrite IH. cbn [w_trace w_errno busy_fetches busy_errno].
  by rewrite <- !app_assoc.
Qed.

(** C2. A fetch that, after any number of busy answers, receives a
    response with status 0 returns the count the response reports, the
    two count bytes side by side, also when it exceeds [pixel_cnt].  In
    raw and in ratio mode it has overwritten exactly the first
    [min data_count pixel_cnt] entries of [pixels], with the raw or the
    ratio conversion of the response; with any other data mode byte it
    has written no entry.  It has slept after each busy answer, and
    [errno] is what these sleeps left. *)
Theorem eye_fetch_count dev w k out w' fuel pixels pixel_cnt lane_id :
  let data_count :=
    Z.lor (data_count_lo out) (Z.shiftl (data_count_hi out) 8) in
  let written := Nat.min (Z.to_nat data_count) pixel_cnt in
  let stored (f : nat -> double) :=
    map f (seq 0 written) ++ drop written pixels in
  eye_answers dev w k out w' ->
  status out = 0 ->
  (pixel_cnt <= length pixels)%nat ->
  (k < fuel)%nat ->
  exists pixels' lane_id',
    switchtec_diag_eye_fetch fuel dev pixels pixel_cnt lane_id w
    = (Some (data_count, pixels', lane_id'), w') /\
    w' = {| w_trace := w_trace w ++ busy_fetches k ++ [EvCmd EyeObserveFetch];
            w_errno := busy_errno dev (w_trace w) k (w_errno w) |} /\
    (0 <= data_count_lo out < 256 ->
     data_count = data_count_lo out + 256 * data_count_hi out) /\
    pixels' = match data_mode out with
              | SWITCHTEC_DIAG_EYE_RAW =>
                  stored (fun i => eye_raw_pixel (raw out i))
              | SWITCHTEC_DIAG_EYE_RATIO =>
                  stored (fun i => eye_ratio_pixel (ratio out i))
              | EYE_DATA_MODE_OTHER _ => pixels
              end /\
    length pixels' = length pixels.
Proof.
  intros data_count written stored Ha Hst Hcnt Hk.
  rewrite (eye_fetch_retries dev w k out w' fuel pixels pixel_cnt lane_id Ha
             Hst Hk).
  unfold eye_fetch_finish. change (eye_data_count out) with data_count.
  eexists _, _. split; [reflexivity|].
  split; [exact (eye_answers_world dev w k out w' Ha)|].
  split; [intros Hlo; subst data_count; rewrite Z.lor_comm;
          apply (lor_shiftl_add _ _ 8); lia|].
  assert (Hw : forall f,
            (forall i, eye_pixel out i = f i) ->
            data_mode out = SWITCHTEC_DIAG_EYE_RAW \/
            data_mode out = SWITCHTEC_DIAG_EYE_RATIO ->
            eye_pixel_loop out data_count (seq 0 pixel_cnt) pixels = stored f).
  { intros f Hf Hmode.
    pose proof (eye_pixel_loop_writes out data_count 0 pixel_cnt pixels Hmode
                  ltac:(lia)) as Hw.
    cbn zeta in Hw. rewrite Nat.sub_0_r, (Nat.min_comm pixel_cnt) in Hw.
    fold written in Hw. change (take 0 pixels) with (@nil double) in Hw.
    cbn [app Nat.add] in Hw. rewrite Hw. unfold stored. f_equal.
    apply map_ext. exact Hf. }
  assert (Hl : forall f, length (stored f) = length pixels).
  { intros f. unfold stored.
    rewrite length_app, length_map, length_seq, length_drop. lia. }
  destruct (data_mode out) as [| |v] eqn:Hmode.
  - rewrite (Hw (fun i => eye_raw_pixel (raw out i)))
      by (try (intros i; unfold eye_pixel; by rewrite Hmode); by left).
    by split.
  - rewrite (Hw (fun i => eye_ratio_pixel (ratio out i)))
      by (try (intros i; unfold eye_pixel; by rewrite Hmode); by right).
    by split.
  - by rewrite (eye_pixel_loop_other_mode out data_count _ pixels v Hmode).
Qed.

(** One busy answer and an interrupted sleep, then a ratio response
    reporting 10 pixels, fetched into a buffer of 9: the fetch returns 10,
    has written the 9 entries, and [errno] is [EINTR]. *)
Lemma eye_fetch_count_witness :
  let out := eye_ratio_reply 0 4 10 in
  let dev := eye_intr_dev 1 0 out in
  let pixels := replicate 9 double_nan in
  let w' := {| w_trace := [EvCmd EyeObserveFetch; EvSleep 5000;
                           EvCmd EyeObserveFetch];
               w_errno := EINTR |} in
  eye_answers dev world0 1 out w' /\
  status out = 0 /\
  exists lane_id',
    switchtec_diag_eye_fetch 2 dev pixels 9 (-1) world0
    = (Some (10, map (fun i => eye_ratio_pixel (ratio out i)) (seq 0 9),
             lane_id'), w').
Proof.
  intros out dev pixels w'.
  assert (A : eye_answers dev world0 1 out w').
  { eapply eye_answers_busy; [reflexivity|reflexivity|].
    apply (eye_answers_done dev
             {| w_trace := [EvCmd EyeObserveFetch; EvSleep 5000];
                w_errno := EINTR |} out); [reflexivity|discriminate]. }
  split; [exact A|]. split; [reflexivity|].
  destruct (eye_fetch_count dev world0 1 out w' 2 pixels 9 (-1) A
              eq_refl (le_n 9) (le_n 2))
    as (pixels' & lane_id' & Hrun & _ & _ & Hpix & _).
  exists lane_id'. rewrite Hrun, Hpix. reflexivity.
Defined.

(** A successful fetch whose response carries the data mode byte 7: it
    reports 10 pixels into a buffer of 10 entries, the fetch returns 10,
    and not one of the 10 entries has been written. *)
Lemma eye_fetch_other_mode_writes_nothing :
  let out := {| status := 0; data_mode := EYE_DATA_MODE_OTHER 7;
                lane_mask := fun _ => 1;
                data_count_lo := 10; data_count_hi := 0;
                raw := fun _ => eye_raw_zero;
                ratio := fun i => Z.of_nat i * 16384 |} in
  let pixels := replicate 10 (double_of_Z 7) in
  let res := switchtec_diag_eye_fetch 2 (eye_dev 1 out) pixels 10 (-1)
               world0 in
  status out = 0 /\
  res.1 = Some (10, pixels, 1) /\
  w_trace res.2 = [EvCmd EyeObserveFetch; EvSleep 5000; EvCmd EyeObserveFetch] /\
  forall i : nat, (i < 10)%nat ->
    pixels !! i = Some (double_of_Z 7) /\
    double_of_Z 7 <> eye_raw_pixel (raw out i) /\
    double_of_Z 7 <> eye_ratio_pixel (ratio out i).
Proof.
  cbn zeta. split; [reflexivity|]. split; [vm_compute; reflexivity|].
  split; [reflexivity|].
  intros i Hi. do 10 (destruct i as [|i]; [vm_compute; repeat split; discriminate|]).
  lia.
Qed.

(** The lane reported for a response whose mask has only bit [k] of word
    [i] set is [k + 1], for every word [i]. *)
Lemma eye_lane_id_of_bit out pixels pixel_cnt lane_id (i k : nat) :
  (i < 4)%nat ->
  (forall j : nat, (j < i)%nat -> lane_mask out j = 0) ->
  lane_mask out i = 2 ^ Z.of_nat k ->
  (eye_fetch_finish out pixels pixel_cnt lane_id).2 = Z.of_nat k + 1.
Proof.
  intros Hi Hz Hk. unfold eye_fetch_finish. cbn [snd].
  rewrite (eye_lane_scan_first _ i) by (try rewrite Hk; lia || assumption).
  rewrite Hk. apply ffs_bit.
Qed.

(** C9, the code at the input of the claim: a busy answer, then a
    successful ratio response with 10 pixels whose lane mask selects lane 2
    (bit 2 of word 0), fetched into a buffer of 10.  The fetch retries
    once and decodes the 10 ratio pixels, but the lane it reports is 3. *)
Theorem eye_fetch_lane_bit_2 :
  let out := eye_ratio_reply 0 (Z.shiftl 1 2) 10 in
  switchtec_diag_eye_fetch 2 (eye_dev 1 out) (replicate 10 double_nan) 10 (-1)
    world0
  = (Some (10,
           map (fun i => eye_ratio_pixel (Z.of_nat i * 16384)) (seq 0 10),
           3),
     {| w_trace := [EvCmd EyeObserveFetch; EvSleep 5000;
                    EvCmd EyeObserveFetch];
        w_errno := 0 |}).
Proof. vm_compute. reflexivity. Qed.

(** The same lane in the second mask word (lane 34) is reported as 3 too. *)
Example eye_fetch_lane_word_1 :
  let out := {| status := 0; data_mode := SWITCHTEC_DIAG_EYE_RATIO;
                lane_mask := fun i => if decide (i = 1%nat) then 4 else 0;
                data_count_lo := 0; data_count_hi := 0;
                raw := fun _ => eye_raw_zero; ratio := fun _ => 0 |} in
  (eye_fetch_finish out [] 0 (-1)).2 = 3.
Proof. reflexivity. Qed.

(** ** Port equalization *)

(** C8. On a handle that is neither Gen4 nor Gen5 the three equalization
    operations fail with -1 and leave the handle as it was: no request is
    issued and [errno] is not touched. *)
Theorem eq_unsupported_generation dev port_id lane_id e l rc rt rf w :
  switchtec_is_gen4 dev = false ->
  switchtec_is_gen5 dev = false ->
  switchtec_diag_port_eq_tx_coeff dev port_id e l rc w = ((-1, rc), w) /\
  switchtec_diag_port_eq_tx_table dev port_id l rt w = ((-1, rt), w) /\
  switchtec_diag_port_eq_tx_fslf dev port_id lane_id e l rf w = ((-1, rf), w).
Proof.
  intros H4 H5.
  unfold switchtec_diag_port_eq_tx_coeff, switchtec_diag_port_eq_tx_table,
    switchtec_diag_port_eq_tx_fslf.
  rewrite H4, H5. done.
Qed.

Lemma eq_unsupported_generation_witness :
  let dev := sample_dev SWITCHTEC_GEN3 0 never in
  switchtec_is_gen4 dev = false /\
  switchtec_is_gen5 dev = false /\
  switchtec_diag_port_eq_tx_coeff dev 1 SWITCHTEC_DIAG_LOCAL
    SWITCHTEC_DIAG_LINK_CURRENT (Some eq_coeff_zero) world0
  = ((-1, Some eq_coeff_zero), world0).
Proof.
  intros dev. split; [reflexivity|]. split; [reflexivity|].
  exact (proj1 (eq_unsupported_generation dev 1 0 SWITCHTEC_DIAG_LOCAL
                  SWITCHTEC_DIAG_LINK_CURRENT (Some eq_coeff_zero) None None
                  world0 eq_refl eq_refl)).
Defined.

(** On a Gen4 or Gen5 handle the same call does reach the device. *)
Example eq_tx_coeff_gen4 :
  (switchtec_diag_port_eq_tx_coeff (sample_dev SWITCHTEC_GEN4 0 never) 1
     SWITCHTEC_DIAG_LOCAL SWITCHTEC_DIAG_LINK_CURRENT (Some eq_coeff_zero)
     world0).2
  = {| w_trace := [EvCmd (Gen4EqCoeff SWITCHTEC_DIAG_LOCAL
                            SWITCHTEC_DIAG_LINK_CURRENT 1)];
       w_errno := 0 |}.
Proof. reflexivity. Qed.

Example eq_tx_fslf_gen5 :
  (switchtec_diag_port_eq_tx_fslf (sample_dev SWITCHTEC_GEN5 0 never) 1 2
     SWITCHTEC_DIAG_FAR_END SWITCHTEC_DIAG_LINK_PREVIOUS
     (Some {| fs := 0; lf := 0 |}) world0).2
  = {| w_trace := [EvCmd (Gen5EqFslf SWITCHTEC_DIAG_FAR_END true 1 2)];
       w_errno := 0 |}.
Proof. reflexivity. Qed.

(** ** Binary64 conversions and division *)

Lemma digits2_pos_log2 (p : positive) :
  Zpos (digits2_pos p) = Z.log2 (Zpos p) + 1.
Proof.
  induction p as [p IH|p IH|]; [| |reflexivity].
  - cbn [digits2_pos]. rewrite Pos2Z.inj_succ, IH.
    change (Zpos p~1) with (2 * Zpos p + 1).
    rewrite Z.log2_succ_double by lia. lia.
  - cbn [digits2_pos]. rewrite Pos2Z.inj_succ, IH.
    change (Zpos p~0) with (2 * Zpos p).
    rewrite Z.log2_double by lia. lia.
Qed.

(** A positive number lies between the powers of two its digit count
    names. *)
Lemma Zdigits2_bounds (m : Z) :
  0 < m -> 1 <= Zdigits2 m /\ 2 ^ (Zdigits2 m - 1) <= m < 2 ^ Zdigits2 m.
Proof.
  intros Hm. destruct m as [|p|p]; try lia. cbn [Zdigits2].
  rewrite digits2_pos_log2.
  pose proof (Z.log2_nonneg (Zpos p)).
  pose proof (Z.log2_spec (Zpos p) ltac:(lia)) as [H1 H2].
  replace (Z.log2 (Zpos p) + 1 - 1) with (Z.log2 (Zpos p)) by lia.
  replace (Z.log2 (Zpos p) + 1) with (Z.succ (Z.log2 (Zpos p))) by lia.
  lia.
Qed.

Lemma Zdigits2_le (m : Z) (b : Z) :
  0 < m -> 0 <= b -> m < 2 ^ b -> Zdigits2 m <= b.
Proof.
  intros Hm Hb Hlt. destruct (Zdigits2_bounds m Hm) as [H1 [H2 _]].
  destruct (Z.le_gt_cases (Zdigits2 m) b) as [|Hgt]; [assumption|].
  assert (2 ^ b <= 2 ^ (Zdigits2 m - 1)) by (apply Z.pow_le_mono_r; lia).
  lia.
Qed.

Lemma shr_1_m mrs : 0 <= shr_m mrs -> shr_m (shr_1 mrs) = shr_m mrs / 2.
Proof.
  rewrite <- Z.div2_div. destruct mrs as [m r s]. cbn [shr_m shr_1].
  intros Hm. destruct m as [|[p|p|]|p]; cbn [shr_m]; try lia; reflexivity.
Qed.

Lemma pow2_xO (p : positive) : 2 ^ Zpos p~0 = 2 ^ Zpos p * 2 ^ Zpos p.
Proof. rewrite <- Z.pow_add_r by lia. f_equal. lia. Qed.

Lemma pow2_xI (p : positive) : 2 ^ Zpos p~1 = 2 * (2 ^ Zpos p * 2 ^ Zpos p).
Proof.
  rewrite <- Z.pow_add_r, <- Z.pow_succ_r by lia. f_equal. lia.
Qed.

Lemma iter_shr_1_m (p : positive) mrs :
  0 <= shr_m mrs ->
  shr_m (SpecFloat.iter_pos shr_1 p mrs) = shr_m mrs / 2 ^ Zpos p.
Proof.
  revert mrs. induction p as [p IH|p IH|]; intros mrs Hm; cbn [SpecFloat.iter_pos].
  - assert (0 <= shr_m (shr_1 mrs))
      by (rewrite shr_1_m by lia; apply Z.div_pos; lia).
    assert (0 <= shr_m (SpecFloat.iter_pos shr_1 p (shr_1 mrs)))
      by (rewrite IH by lia; apply Z.div_pos; lia).
    rewrite !IH, shr_1_m by lia.
    rewrite !Z.div_div by lia. by rewrite pow2_xI.
  - assert (0 <= shr_m (SpecFloat.iter_pos shr_1 p mrs))
      by (rewrite IH by lia; apply Z.div_pos; lia).
    rewrite !IH by lia. rewrite Z.div_div by lia. by rewrite pow2_xO.
  - rewrite shr_1_m by lia. reflexivity.
Qed.

Lemma round_nearest_even_bounds m l :
  m <= round_nearest_even m l <= m + 1.
Proof.
  unfold round_nearest_even. destruct l as [|[]]; try lia.
  destruct (Z.even m); lia.
Qed.

Lemma iter_xO_shift (p d : positive) :
  Zpos (Pos.iter xO p d) = Zpos p * 2 ^ Zpos d.
Proof.
  induction d as [|d IH] using Pos.peano_ind.
  - cbn. lia.
  - rewrite Pos.iter_succ, Pos2Z.inj_xO, IH, Pos2Z.inj_succ, Z.pow_succ_r
      by lia. lia.
Qed.

Lemma Zdigits2_unique (m b : Z) :
  2 ^ (b - 1) <= m < 2 ^ b -> 1 <= b -> Zdigits2 m = b.
Proof.
  intros [Hlo Hhi] Hb.
  assert (0 < m).
  { assert (0 < 2 ^ (b - 1)) by (apply Z.pow_pos_nonneg; lia). lia. }
  destruct (Zdigits2_bounds m ltac:(lia)) as (Hd & Hl & Hh).
  destruct (Z.lt_trichotomy (Zdigits2 m) b) as [Hlt|[Heq|Hgt]]; [|exact Heq|].
  - assert (2 ^ Zdigits2 m <= 2 ^ (b - 1)) by (apply Z.pow_le_mono_r; lia).
    lia.
  - assert (2 ^ b <= 2 ^ (Zdigits2 m - 1)) by (apply Z.pow_le_mono_r; lia).
    lia.
Qed.

(** What rounding to 53 bits does to a positive mantissa: nothing when it
    has at most 53 digits, and otherwise it keeps the 53 leading ones. *)
Lemma shr_fexp_cases (m e : Z) l :
  1 <= m -> -1000 <= e ->
  let D := Zdigits2 m in
  (D <= 53 /\ shr_fexp 53 1024 m e l = (shr_record_of_loc m l, e)) \/
  (53 < D /\
   2 ^ 52 <= shr_m (shr_fexp 53 1024 m e l).1 < 2 ^ 53 /\
   (shr_fexp 53 1024 m e l).2 = e + (D - 53)).
Proof.
  intros Hm He D.
  destruct (Zdigits2_bounds m ltac:(lia)) as (Hd & Hlo & Hhi). fold D in Hd, Hlo, Hhi.
  unfold shr_fexp, fexp, emin. fold D.
  replace (Z.max (D + e - 53) (3 - 1024 - 53)) with (D + e - 53) by lia.
  replace (D + e - 53 - e) with (D - 53) by lia.
  assert (Hrec : shr_m (shr_record_of_loc m l) = m)
    by (by destruct l as [|[]]).
  unfold shr. destruct (D - 53) as [|p|p] eqn:Hn.
  - left. split; [lia|reflexivity].
  - right. split; [lia|]. cbn [fst snd].
    rewrite iter_shr_1_m, Hrec by lia. split; [|lia].
    assert (0 < 2 ^ Zpos p) by (apply Z.pow_pos_nonneg; lia).
    replace (D - 1) with (52 + Zpos p) in Hlo by lia.
    replace D with (53 + Zpos p) in Hhi by lia.
    rewrite Z.pow_add_r in Hlo, Hhi by lia.
    split.
    + apply Z.div_le_lower_bound; lia.
    + apply Z.div_lt_upper_bound; lia.
  - left. split; [lia|reflexivity].
Qed.

(** A mantissa of exactly 53 digits with nothing to round is kept as it
    is. *)
Lemma binary_round_aux_exact sx (mz : positive) (ez : Z) :
  Zpos (digits2_pos mz) = 53 -> -1000 <= ez <= 971 ->
  binary_round_aux 53 1024 sx (Zpos mz) ez loc_Exact = S754_finite sx mz ez.
Proof.
  intros Hd He. unfold binary_round_aux.
  destruct (shr_fexp_cases (Zpos mz) ez loc_Exact ltac:(lia) ltac:(lia))
    as [[_ ->]|[Hgt _]]; [|cbn [Zdigits2] in Hgt; lia].
  cbn [shr_record_of_loc shr_m loc_of_shr_record round_nearest_even].
  destruct (shr_fexp_cases (Zpos mz) ez loc_Exact ltac:(lia) ltac:(lia))
    as [[_ ->]|[Hgt _]]; [|cbn [Zdigits2] in Hgt; lia].
  cbn [shr_record_of_loc shr_m].
  destruct (Z.leb_spec ez (1024 - 53)); [reflexivity|lia].
Qed.

(** Rounding a mantissa of at least 53 digits leaves exactly 53. *)
Lemma binary_round_aux_normal sx (m e : Z) l :
  2 ^ 52 <= m < 2 ^ 64 -> -1000 <= e <= 500 ->
  exists mant e',
    binary_round_aux 53 1024 sx m e l = S754_finite sx mant e' /\
    Zpos (digits2_pos mant) = 53 /\ e <= e' <= e + 12.
Proof.
  intros Hm He. unfold binary_round_aux.
  assert (Hp52 : 2 ^ 52 = 4503599627370496) by reflexivity.
  assert (Hp53 : 2 ^ 53 = 9007199254740992) by reflexivity.
  assert (HD : 53 <= Zdigits2 m <= 64).
  { split; [|apply Zdigits2_le; lia].
    destruct (Zdigits2_bounds m ltac:(lia)) as (Hd & Hlo & Hhi).
    destruct (Z.le_gt_cases 53 (Zdigits2 m)); [assumption|].
    assert (2 ^ Zdigits2 m <= 2 ^ 52) by (apply Z.pow_le_mono_r; lia). lia. }
  assert (H1 : 2 ^ 52 <= shr_m (shr_fexp 53 1024 m e l).1 < 2 ^ 53 /\
               e <= (shr_fexp 53 1024 m e l).2 <= e + 11).
  { destruct (shr_fexp_cases m e l ltac:(lia) ltac:(lia))
      as [[Hle ->]|(Hgt & Hb & ->)].
    - cbn [fst snd]. replace (shr_m (shr_record_of_loc m l)) with m
        by (by destruct l as [|[]]).
      assert (Zdigits2 m = 53) by lia.
      destruct (Zdigits2_bounds m ltac:(lia)) as (_ & _ & Hhi). 
      replace (Zdigits2 m) with 53 in Hhi by lia. lia.
    - split; [exact Hb|lia]. }
  destruct (shr_fexp 53 1024 m e l) as [mrs1 e1]. cbn [fst snd] in H1.
  pose proof (round_nearest_even_bounds (shr_m mrs1)
                (loc_of_shr_record mrs1)) as Hr.
  set (m2 := round_nearest_even (shr_m mrs1) (loc_of_shr_record mrs1)) in *.
  destruct (shr_fexp_cases m2 e1 loc_Exact ltac:(lia) ltac:(lia))
    as [[Hle ->]|(Hgt & Hb & Hx)].
  - cbn [shr_record_of_loc shr_m].
    destruct m2 as [|mant|mant] eqn:E2; try lia.
    destruct (Z.leb_spec e1 (1024 - 53)); [|lia].
    exists mant, e1. split; [reflexivity|]. split; [|lia].
    change (Zpos (digits2_pos mant)) with (Zdigits2 (Zpos mant)).
    apply Zdigits2_unique; [|lia].
    destruct (Zdigits2_bounds (Zpos mant) ltac:(lia)) as (_ & _ & Hhi).
    split; [lia|].
    assert (2 ^ Zdigits2 (Zpos mant) <= 2 ^ 53)
      by (apply Z.pow_le_mono_r; lia). lia.
  - assert (HD2 : Zdigits2 m2 = 54).
    { apply Zdigits2_unique; [|lia].
      change (2 ^ 54) with (2 * 2 ^ 53). change (54 - 1) with 53.
      destruct (Zdigits2_bounds m2 ltac:(lia)) as (_ & Hlo2 & _).
      assert (2 ^ 53 <= 2 ^ (Zdigits2 m2 - 1))
        by (apply Z.pow_le_mono_r; lia). lia. }
    destruct (shr_fexp 53 1024 m2 e1 loc_Exact) as [mrs2 e2].
    cbn [fst snd] in Hb, Hx.
    destruct (shr_m mrs2) as [|mant|mant] eqn:Em; try lia.
    destruct (Z.leb_spec e2 (1024 - 53)); [|lia].
    exists mant, e2. split; [reflexivity|]. split; [|lia].
    change (Zpos (digits2_pos mant)) with (Zdigits2 (Zpos mant)).
    apply Zdigits2_unique; lia.
Qed.

(** An unsigned 64-bit integer other than 0 converts to a normal double;
    below [2 ^ 53] the conversion is exact. *)
Lemma double_of_Z_normal (w : Z) :
  0 < w < 2 ^ 64 ->
  exists mant e,
    double_of_Z w = S754_finite false mant e /\
    Zpos (digits2_pos mant) = 53 /\ -52 <= e <= 12 /\
    (w < 2 ^ 53 -> double_is_int (double_of_Z w) w).
Proof.
  intros Hw. destruct w as [|p|p]; try lia.
  assert (Hp52 : 2 ^ 52 = 4503599627370496) by reflexivity.
  assert (Hp53 : 2 ^ 53 = 9007199254740992) by reflexivity.
  unfold double_of_Z, binary_normalize, binary_round, shl_align, fexp, emin.
  destruct (Zdigits2_bounds (Zpos p) ltac:(lia)) as (Hd & Hlo & Hhi).
  pose proof (Zdigits2_le (Zpos p) 64 ltac:(lia) ltac:(lia) ltac:(lia)) as Hd64.
  cbn [Zdigits2] in *. set (D := Zpos (digits2_pos p)) in *.
  replace (Z.max (D + 0 - 53) (3 - 1024 - 53)) with (D - 53) by lia.
  destruct (D - 53 - 0) as [|d|d] eqn:Ed.
  - rewrite binary_round_aux_exact by (fold D; lia).
    exists p, 0. split; [reflexivity|]. split; [fold D; lia|].
    split; [lia|]. intros _. cbn. lia.
  - destruct (binary_round_aux_normal false (Zpos p) 0 loc_Exact)
      as (mant & e' & -> & Hn & He); [|lia|].
    { split; [|lia].
      assert (2 ^ 52 <= 2 ^ (D - 1)) by (apply Z.pow_le_mono_r; lia). lia. }
    exists mant, e'. split; [reflexivity|]. split; [exact Hn|].
    split; [lia|]. intros Hlt.
    assert (2 ^ 53 <= 2 ^ (D - 1)) by (apply Z.pow_le_mono_r; lia). lia.
  - assert (Hdig : Zpos (digits2_pos (Pos.iter xO p d)) = 53).
    { change (Zpos (digits2_pos (Pos.iter xO p d)))
        with (Zdigits2 (Zpos (Pos.iter xO p d))).
      rewrite iter_xO_shift. apply Zdigits2_unique; [|lia].
      assert (0 < 2 ^ Zpos d) by (apply Z.pow_pos_nonneg; lia).
      replace 53 with (D + Zpos d) by lia.
      replace (D + Zpos d - 1) with (D - 1 + Zpos d) by lia.
      rewrite !Z.pow_add_r by lia. nia. }
    rewrite binary_round_aux_exact by (try exact Hdig; lia).
    exists (Pos.iter xO p d), (D - 53). split; [reflexivity|].
    split; [exact Hdig|]. split; [lia|]. intros _. cbn [double_is_int].
    split; [lia|]. rewrite iter_xO_shift. do 2 f_equal. lia.
Qed.

(** Rounding a nonnegative mantissa never gives a NaN. *)
Lemma binary_round_aux_not_nan sx (m e : Z) l :
  0 <= m -> is_nan (binary_round_aux 53 1024 sx m e l) = false.
Proof.
  assert (Hshr : forall m e l, 0 <= m ->
            0 <= shr_m (shr_fexp 53 1024 m e l).1).
  { clear. intros m e l Hm. unfold shr_fexp, shr.
    assert (Hrec : shr_m (shr_record_of_loc m l) = m)
      by (by destruct l as [|[]]).
    destruct (_ - e) as [|p|p]; cbn [fst]; rewrite ?iter_shr_1_m, Hrec;
      try lia.
    apply Z.div_pos; [lia|]. apply Z.pow_pos_nonneg; lia. }
  intros Hm. unfold binary_round_aux.
  pose proof (Hshr m e l Hm) as H1.
  destruct (shr_fexp 53 1024 m e l) as [mrs1 e1]. cbn [fst] in H1.
  pose proof (round_nearest_even_bounds (shr_m mrs1)
                (loc_of_shr_record mrs1)) as Hr.
  set (m2 := round_nearest_even (shr_m mrs1) (loc_of_shr_record mrs1)) in *.
  pose proof (Hshr m2 e1 loc_Exact ltac:(lia)) as H2.
  destruct (shr_fexp 53 1024 m2 e1 loc_Exact) as [mrs2 e2]. cbn [fst] in H2.
  destruct (shr_m mrs2) as [|mant|mant]; try lia; [reflexivity|].
  by destruct (_ <=? _).
Qed.

(** Dividing an unsigned 64-bit integer by a nonzero one, as doubles, never
    gives a NaN. *)
Lemma double_div_not_nan (a b : Z) :
  0 <= a < 2 ^ 64 -> 0 < b < 2 ^ 64 ->
  is_nan (double_div (double_of_Z a) (double_of_Z b)) = false.
Proof.
  intros Ha Hb.
  destruct (double_of_Z_normal b Hb) as (mb & eb & -> & _).
  destruct (Z.eq_dec a 0) as [->|Hne].
  - reflexivity.
  - destruct (double_of_Z_normal a ltac:(lia)) as (ma & ea & -> & _).
    unfold double_div, SFdiv, SFdiv_core_binary.
    set (s := _ - _ - Z.min _ _).
    assert (Hm' : 0 <= match s with
                       | Zpos _ => Z.shiftl (Zpos ma) s
                       | Z0 => Zpos ma
                       | Zneg _ => 0
                       end).
    { destruct s; try lia. apply Z.shiftl_nonneg. lia. }
    revert Hm'. generalize (match s with
                            | Zpos _ => Z.shiftl (Zpos ma) s
                            | Z0 => Zpos ma
                            | Zneg _ => 0
                            end). intros m' Hm'.
    pose proof (Z_div_mod m' (Zpos mb) ltac:(lia)) as Hdiv.
    destruct (Z.div_eucl m' (Zpos mb)) as [q r].
    apply binary_round_aux_not_nan. nia.
Qed.

Lemma div_eucl_div_mod a b : Z.div_eucl a b = (a / b, a mod b).
Proof. unfold Z.div, Z.modulo. by destruct (Z.div_eucl a b). Qed.

(** Dividing a normal double by a power of two only lowers its exponent. *)
Lemma SFdiv_pow2 (mant : positive) (e ey : Z) :
  Zpos (digits2_pos mant) = 53 -> -100 <= e <= 100 -> -100 <= ey <= 100 ->
  SFdiv 53 1024 (S754_finite false mant e)
    (S754_finite false 4503599627370496 ey)
  = S754_finite false mant (e - ey - 52).
Proof.
  intros Hd He Hey. unfold SFdiv, SFdiv_core_binary. cbn [xorb Zdigits2].
  rewrite Hd. change (Zpos (digits2_pos 4503599627370496)) with 53.
  unfold fexp, emin.
  replace (Z.min (Z.max (53 + e - (53 + ey) - 53) (3 - 1024 - 53)) (e - ey))
    with (e - ey - 53) by lia.
  replace (e - ey - (e - ey - 53)) with 53 by lia.
  rewrite div_eucl_div_mod, Z.shiftl_mul_pow2 by lia.
  replace (Zpos mant * 2 ^ 53) with (2 * Zpos mant * 4503599627370496)
    by (change (2 ^ 53) with (2 * 4503599627370496); lia).
  rewrite Z.div_mul, Z.mod_mul by lia.
  change (new_location 4503599627370496 0) with loc_Exact.
  change (2 * Zpos mant) with (Zpos mant~0).
  unfold binary_round_aux.
  assert (H1 : shr_fexp 53 1024 (Zpos mant~0) (e - ey - 53) loc_Exact
               = ({| shr_m := Zpos mant; shr_r := false; shr_s := false |},
                  e - ey - 52)).
  { unfold shr_fexp, fexp, emin. cbn [Zdigits2 digits2_pos].
    rewrite Pos2Z.inj_succ, Hd.
    replace (Z.max (Z.succ 53 + (e - ey - 53) - 53) (3 - 1024 - 53)
             - (e - ey - 53)) with 1 by lia.
    cbn. f_equal. lia. }
  rewrite H1. cbn [shr_m loc_of_shr_record round_nearest_even].
  destruct (shr_fexp_cases (Zpos mant) (e - ey - 52) loc_Exact ltac:(lia)
              ltac:(lia)) as [[_ ->]|[Hgt _]]; [|cbn [Zdigits2] in Hgt; lia].
  cbn [shr_record_of_loc shr_m].
  destruct (Z.leb_spec (e - ey - 52) (1024 - 53)); [reflexivity|lia].
Qed.

(** Dividing the double of an unsigned 64-bit integer by [2 ^ 16] or
    [2 ^ 48] is an exact scaling. *)
Lemma double_div_65536 (w : Z) :
  0 <= w < 2 ^ 64 ->
  double_div (double_of_Z w) (double_of_Z 65536)
  = double_scale (double_of_Z w) 16.
Proof.
  intros Hw. destruct (Z.eq_dec w 0) as [->|Hne]; [reflexivity|].
  destruct (double_of_Z_normal w ltac:(lia)) as (mant & e & -> & Hd & He & _).
  change (double_of_Z 65536) with (S754_finite false 4503599627370496 (-36)).
  unfold double_div. rewrite SFdiv_pow2 by lia. cbn. f_equal. lia.
Qed.

Lemma double_div_2_48 (w : Z) :
  0 <= w < 2 ^ 64 ->
  double_div (double_of_Z w) (double_of_Z 281474976710656)
  = double_scale (double_of_Z w) 48.
Proof.
  intros Hw. destruct (Z.eq_dec w 0) as [->|Hne]; [reflexivity|].
  destruct (double_of_Z_normal w ltac:(lia)) as (mant & e & -> & Hd & He & _).
  change (double_of_Z 281474976710656)
    with (S754_finite false 4503599627370496 (-4)).
  unfold double_div. rewrite SFdiv_pow2 by lia. cbn. f_equal. lia.
Qed.

(** ** Eye capture: numeric conversions *)

(** The two 32-bit halves of a counter make up its 64-bit value. *)
Lemma hi_lo_to_uint64_value (lo hi : Z) :
  0 <= lo < 2 ^ 32 -> 0 <= hi < 2 ^ 32 ->
  hi_lo_to_uint64 lo hi = lo + 2 ^ 32 * hi /\
  0 <= hi_lo_to_uint64 lo hi < 2 ^ 64.
Proof.
  intros Hlo Hhi. unfold hi_lo_to_uint64, le32toh.
  assert (Hs : Z.shiftl hi 32 mod 2 ^ 64 = Z.shiftl hi 32).
  { apply Z.mod_small. rewrite Z.shiftl_mul_pow2 by lia.
    change (2 ^ 64) with (2 ^ 32 * 2 ^ 32). nia. }
  rewrite Hs, lor_shiftl_add by lia.
  change (2 ^ 64) with (2 ^ 32 * 2 ^ 32). nia.
Qed.

(** C7. The values the decoding stores.
    - A raw-mode pixel: the two 64-bit counters are assembled from their
      32-bit halves; the pixel is the quotient of their doubles, and it is
      a NaN exactly when the sample counter is 0.
    - A ratio-mode pixel is the 32-bit wire value divided by 65536.0; the
      wire value is exact as a double and the division only lowers the
      exponent by 16.
    - A Gen5 BER value is the double of the 64-bit wire value divided by
      2^48, a division that only lowers the exponent by 48. *)
Theorem eye_numeric_conversions (r : eye_raw) (w32 w64 : Z) :
  let errors := error_cnt_lo r + 2 ^ 32 * error_cnt_hi r in
  let samples := sample_cnt_lo r + 2 ^ 32 * sample_cnt_hi r in
  0 <= error_cnt_lo r < 2 ^ 32 -> 0 <= error_cnt_hi r < 2 ^ 32 ->
  0 <= sample_cnt_lo r < 2 ^ 32 -> 0 <= sample_cnt_hi r < 2 ^ 32 ->
  0 <= w32 < 2 ^ 32 -> 0 <= w64 < 2 ^ 64 ->
  (hi_lo_to_uint64 (error_cnt_lo r) (error_cnt_hi r) = errors /\
   hi_lo_to_uint64 (sample_cnt_lo r) (sample_cnt_hi r) = samples /\
   eye_raw_pixel r
   = (if samples =? 0 then double_nan
      else double_div (double_of_Z errors) (double_of_Z samples)) /\
   (is_nan (eye_raw_pixel r) = true <-> samples = 0)) /\
  (eye_ratio_pixel w32 = double_div (double_of_Z w32) (double_of_Z 65536) /\
   double_is_int (double_of_Z w32) w32 /\
   eye_ratio_pixel w32 = double_scale (double_of_Z w32) 16) /\
  (gen5_eye_ber w64 = double_div (double_of_Z w64) (double_of_Z (2 ^ 48)) /\
   gen5_eye_ber w64 = double_scale (double_of_Z w64) 48).
Proof.
  intros errors samples Hel Heh Hsl Hsh Hw32 Hw64.
  destruct (hi_lo_to_uint64_value _ _ Hel Heh) as [He Her].
  destruct (hi_lo_to_uint64_value _ _ Hsl Hsh) as [Hs Hsr].
  fold errors in He. fold samples in Hs.
  assert (Hraw : eye_raw_pixel r
                 = (if samples =? 0 then double_nan
                    else double_div (double_of_Z errors) (double_of_Z samples))).
  { unfold eye_raw_pixel. rewrite He, Hs. by destruct (samples =? 0). }
  split; [|split].
  - split; [exact He|]. split; [exact Hs|]. split; [exact Hraw|].
    rewrite Hraw. destruct (Z.eqb_spec samples 0) as [E|E].
    + by split.
    + rewrite double_div_not_nan by lia. split; [discriminate|contradiction].
  - split; [reflexivity|].
    assert (H64 : 2 ^ 32 < 2 ^ 53 /\ 2 ^ 53 < 2 ^ 64) by (cbn; lia).
    split.
    + destruct (Z.eq_dec w32 0) as [->|Hne]; [reflexivity|].
      destruct (double_of_Z_normal w32 ltac:(lia)) as (m & e & _ & _ & _ & Hx).
      apply Hx. lia.
    + unfold eye_ratio_pixel, le32toh. apply double_div_65536. lia.
  - split; [reflexivity|].
    unfold gen5_eye_ber, le64toh. apply double_div_2_48. lia.
Qed.

Lemma eye_numeric_conversions_witness :
  let r := {| error_cnt_lo := 3; error_cnt_hi := 1;
              sample_cnt_lo := 0; sample_cnt_hi := 2 |} in
  hi_lo_to_uint64 (error_cnt_lo r) (error_cnt_hi r) = 4294967299 /\
  hi_lo_to_uint64 (sample_cnt_lo r) (sample_cnt_hi r) = 8589934592 /\
  is_nan (eye_raw_pixel r) = false /\
  eye_ratio_pixel 32768 = double_scale (double_of_Z 32768) 16 /\
  gen5_eye_ber (2 ^ 47) = double_scale (double_of_Z (2 ^ 47)) 48.
Proof.
  intros r.
  pose proof (eye_numeric_conversions r 32768 (2 ^ 47)
                ltac:(cbn; lia) ltac:(cbn; lia) ltac:(cbn; lia)
                ltac:(cbn; lia) ltac:(lia) ltac:(cbn; lia))
    as ((He & Hs & _ & Hn) & (_ & _ & Hr) & (_ & Hb)).
  split; [exact He|]. split; [exact Hs|].
  split; [|split; [exact Hr|exact Hb]].
  destruct (is_nan (eye_raw_pixel r)); [|reflexivity].
  destruct Hn as [Hn _]. specialize (Hn eq_refl). discriminate Hn.
Defined.

(** A sample counter of 0 gives a NaN; half of 65536 and half of 2^48 give
    one half. *)
Example eye_raw_pixel_no_samples :
  eye_raw_pixel {| error_cnt_lo := 5; error_cnt_hi := 0;
                   sample_cnt_lo := 0; sample_cnt_hi := 0 |} = double_nan.
Proof. reflexivity. Qed.

Example eye_ratio_pixel_half :
  eye_ratio_pixel 32768 = S754_finite false 4503599627370496 (-53) /\
  gen5_eye_ber (2 ^ 47) = S754_finite false 4503599627370496 (-53) /\
  double_div (double_of_Z 1) (double_of_Z 2)
  = S754_finite false 4503599627370496 (-53).
Proof. vm_compute. done. Qed.

(** * More on the LTSSM log *)

Section LtssmEarly.

Variable transfers : Z -> spec_float.

(** X1. A retrieval whose freeze request is rejected returns that status
    after this one request.  A retrieval whose status query is rejected
    returns that status after the freeze and the query: no unfreeze request
    follows, so the log stays frozen.  In both cases [*log_count] and
    [log_data] are as the caller passed them.  Gen4 and Gen5 alike. *)
Theorem ltssm_log_early_failure dev port log_count log_data w :
  let t := w_trace w in
  let freeze := LtssmFreeze 14 (u8 port) 1 in
  let status4 := LtssmStatusGen4 13 (u8 port) in
  let status5 := LtssmStatusGen5 20 (u8 port) in
  let s1 := cmd_status dev t freeze in
  let s4 := cmd_status dev (t ++ [EvCmd freeze]) status4 in
  let s5 := cmd_status dev (t ++ [EvCmd freeze]) status5 in
  let failed s evs :=
    ((s, log_count, log_data),
     {| w_trace := t ++ evs; w_errno := w_errno w |}) in
  (s1 <> 0 ->
   switchtec_diag_ltssm_log_gen4 transfers dev port log_count log_data w
   = failed s1 [EvCmd freeze] /\
   switchtec_diag_ltssm_log_gen5 transfers dev port log_count log_data w
   = failed s1 [EvCmd freeze]) /\
  (s1 = 0 -> s4 <> 0 ->
   switchtec_diag_ltssm_log_gen4 transfers dev port log_count log_data w
   = failed s4 [EvCmd freeze; EvCmd status4]) /\
  (s1 = 0 -> s5 <> 0 ->
   switchtec_diag_ltssm_log_gen5 transfers dev port log_count log_data w
   = failed s5 [EvCmd freeze; EvCmd status5]).
Proof.
  intros t freeze status4 status5 s1 s4 s5 failed.
  subst s1 s4 s5 failed. unfold cmd_status.
  unfold switchtec_diag_ltssm_log_gen4, switchtec_diag_ltssm_log_gen5.
  fold freeze status4 status5.
  rewrite !bind_switchtec_cmd. fold t.
  destruct (dev_exec dev t freeze) as [a1 []]. cbn [fst].
  split; [|split].
  - intros N. destruct (Z.eqb_spec a1 0); [lia|]. split; reflexivity.
  - intros -> N. cbn [Z.eqb negb w_trace w_errno].
    rewrite bind_switchtec_cmd. cbn [w_trace w_errno].
    destruct (dev_exec dev (t ++ [EvCmd freeze]) status4) as [a2 n].
    cbn [fst] in *. destruct (Z.eqb_spec a2 0); [lia|].
    cbn [negb]. unfold ret. by rewrite <- app_assoc.
  - intros -> N. cbn [Z.eqb negb w_trace w_errno].
    rewrite bind_switchtec_cmd. cbn [w_trace w_errno].
    destruct (dev_exec dev (t ++ [EvCmd freeze]) status5) as [a2 n].
    cbn [fst] in *. destruct (Z.eqb_spec a2 0); [lia|].
    cbn [negb]. unfold ret. by rewrite <- app_assoc.
Qed.

(** X2. On a device that is neither Gen4 nor Gen5 the LTSSM log is refused
    with [-EINVAL], that is -22: no request is issued and [errno],
    [*log_count] and [log_data] are untouched. *)
Theorem ltssm_log_unsupported_generation dev port log_count log_data w :
  switchtec_is_gen4 dev = false ->
  switchtec_is_gen5 dev = false ->
  switchtec_diag_ltssm_log_dispatch transfers dev port log_count log_data w
  = ((-22, log_count, log_data), w).
Proof.
  intros H4 H5. unfold switchtec_diag_ltssm_log_dispatch.
  rewrite H4, H5. reflexivity.
Qed.

(** X3. An empty log.  When freeze and status query succeed and the
    clamped count is 0, the Gen4 retrieval still sends a dump request, for
    zero records at index 0, and gives up without unfreezing if that
    request is rejected; the Gen5 retrieval sends no dump request (also
    for a negative count) and goes straight to the unfreeze request.
    Neither writes an entry of [log_data]. *)
Theorem ltssm_log_empty dev port log_count log_data w :
  let t := w_trace w in
  let freeze := LtssmFreeze 14 (u8 port) 1 in
  let unfreeze := LtssmFreeze 14 (u8 port) 0 in
  let status4 := LtssmStatusGen4 13 (u8 port) in
  let status5 := LtssmStatusGen5 20 (u8 port) in
  let dump4 := LtssmDumpGen4 15 (u8 port) 0 0 in
  let h4 := t ++ [EvCmd freeze; EvCmd status4] in
  let h5 := t ++ [EvCmd freeze; EvCmd status5] in
  let n4 := Z.min (u8 (dev_exec dev (t ++ [EvCmd freeze]) status4).2)
              log_count in
  let n5 := Z.min (u16 (dev_exec dev (t ++ [EvCmd freeze]) status5).2)
              log_count in
  cmd_status dev t freeze = 0 ->
  (cmd_status dev (t ++ [EvCmd freeze]) status4 = 0 -> n4 = 0 ->
   switchtec_diag_ltssm_log_gen4 transfers dev port log_count log_data w
   = if cmd_status dev h4 dump4 =? 0
     then ((cmd_status dev (h4 ++ [EvCmd dump4]) unfreeze, 0, log_data),
           {| w_trace := h4 ++ [EvCmd dump4; EvCmd unfreeze];
              w_errno := w_errno w |})
     else ((cmd_status dev h4 dump4, 0, log_data),
           {| w_trace := h4 ++ [EvCmd dump4]; w_errno := w_errno w |})) /\
  (cmd_status dev (t ++ [EvCmd freeze]) status5 = 0 -> n5 <= 0 ->
   switchtec_diag_ltssm_log_gen5 transfers dev port log_count log_data w
   = ((cmd_status dev h5 unfreeze, n5, log_data),
      {| w_trace := h5 ++ [EvCmd unfreeze]; w_errno := w_errno w |})).
Proof.
  intros t freeze unfreeze status4 status5 dump4 h4 h5 n4 n5 Hf. split.
  - intros Hs Hn. unfold switchtec_diag_ltssm_log_gen4.
    fold freeze status4 unfreeze.
    rewrite bind_switchtec_cmd. fold t. unfold cmd_status in Hf, Hs.
    destruct (dev_exec dev t freeze) as [a1 []]. cbn [fst] in Hf. subst a1.
    cbn [Z.eqb negb w_trace w_errno].
    rewrite bind_switchtec_cmd. cbn [w_trace w_errno].
    subst n4.
    destruct (dev_exec dev (t ++ [EvCmd freeze]) status4) as [a2 log_num].
    cbn [fst snd] in *. subst a2. cbn [Z.eqb negb].
    fold (clamp_count (u8 log_num) log_count).
    rewrite clamp_count_min, Hn.
    rewrite <- !app_assoc. cbn [app]. fold h4.
    change (u8 0 <=? 126) with true. cbn iota. change (u8 0) with 0.
    fold dump4. mstep. unfold cmd_status.
    destruct (dev_exec dev h4 dump4) as [a3 out]. cbn [fst snd]. mstep.
    destruct (a3 =? 0); cbn [negb]; [|reflexivity].
    mstep. rewrite <- !app_assoc. cbn [app].
    destruct (dev_exec dev (h4 ++ [EvCmd dump4]) unfreeze) as [a4 []].
    reflexivity.
  - intros Hs Hn.
    rewrite (ltssm_log_gen5_run transfers dev port log_count log_data w Hf Hs).
    cbn zeta. fold t freeze status5 unfreeze h5.
    rewrite clamp_count_min. fold n5.
    rewrite gen5_chunks_nil by exact Hn. reflexivity.
Qed.

(** What a complete Gen4 dump leaves in the local buffer, at the indices
    below the clamped count. *)
Lemma copy_out_inside {A} (base n : nat) (src arr : nat -> A) (i : nat) :
  (base <= i < base + n)%nat -> copy_out base n src arr i = src (i - base)%nat.
Proof. intros. unfold copy_out. by rewrite decide_True. Qed.

Lemma copy_out_outside {A} (base n : nat) (src arr : nat -> A) (i : nat) :
  (i < base \/ base + n <= i)%nat -> copy_out base n src arr i = arr i.
Proof. intros. unfold copy_out. rewrite decide_False; [done|lia]. Qed.

(** X4. A Gen4 retrieval in which every request succeeds decodes record
    [j] of the dump into [log_data[j]] for every [j] below the clamped
    count [n]: the records of the first response for [j < 126], those of
    the second response, shifted by 126, from there on.  The entries from
    [n] on are left as they were, and so is the length of the array. *)
Theorem ltssm_gen4_entries dev port log_count log_data w :
  let t := w_trace w in
  let freeze := LtssmFreeze 14 (u8 port) 1 in
  let status := LtssmStatusGen4 13 (u8 port) in
  let h := t ++ [EvCmd freeze; EvCmd status] in
  let n := Z.min (u8 (dev_exec dev (t ++ [EvCmd freeze]) status).2)
             log_count in
  let res := switchtec_diag_ltssm_log_gen4 transfers dev port log_count
               log_data w in
  cmd_status dev t freeze = 0 ->
  cmd_status dev (t ++ [EvCmd freeze]) status = 0 ->
  0 <= log_count ->
  all_succeed dev h (gen4_dump_requests port n) ->
  res.1.1.2 = n /\
  length res.1.2 = length log_data /\
  (forall j : nat, Z.of_nat j < n -> (j < length log_data)%nat ->
     res.1.2 !! j
     = Some (ltssm_gen4_entry transfers (gen4_dump_record dev port h n j))) /\
  (forall j : nat, n <= Z.of_nat j -> res.1.2 !! j = log_data !! j).
Proof.
  intros t freeze status h n res Hf Hs Hc Hall.
  subst res. unfold switchtec_diag_ltssm_log_gen4.
  fold freeze status.
  rewrite bind_switchtec_cmd. fold t. unfold cmd_status in Hf, Hs.
  destruct (dev_exec dev t freeze) as [a1 []]. cbn [fst] in Hf. subst a1.
  cbn [Z.eqb negb w_trace w_errno].
  rewrite bind_switchtec_cmd. cbn [w_trace w_errno].
  subst n.
  destruct (dev_exec dev (t ++ [EvCmd freeze]) status) as [a2 log_num].
  cbn [fst snd] in *. subst a2. cbn [Z.eqb negb].
  fold (clamp_count (u8 log_num) log_count).
  rewrite clamp_count_min.
  set (n := Z.min (u8 log_num) log_count) in *.
  assert (Hr : 0 <= n < 256) by (pose proof (u8_range log_num); lia).
  rewrite <- !app_assoc. cbn [app]. fold h.
  unfold gen4_dump_requests in Hall. unfold gen4_dump_record.
  rewrite (u8_small n) in * by exact Hr.
  destruct (Z.leb_spec n 126) as [Hle|Hgt].
  - destruct Hall as [H1 _]. unfold cmd_status in H1.
    rewrite Z.min_l by lia.
    mstep.
    destruct (dev_exec dev h (LtssmDumpGen4 15 (u8 port) 0 n)) as [a3 out].
    cbn [fst snd] in *. subst a3. mstep. cbn [Z.eqb negb].
    mstep. destruct (dev_exec dev _ _) as [a4 []]. cbn [fst snd ret].
    split; [reflexivity|]. split; [apply store_range_length|]. split.
    + intros j Hj Hl.
      rewrite store_range_inside by lia.
      rewrite Nat.sub_0_r. f_equal. f_equal.
      replace (j <? 126)%nat with true by (symmetry; apply Nat.ltb_lt; lia).
      rewrite copy_out_inside by lia. by rewrite Nat.sub_0_r.
    + intros j Hj. apply store_range_outside; lia.
  - rewrite (u8_small (n - 126)) in * by lia.
    destruct Hall as [H1 [H2 _]]. unfold cmd_status in H1, H2.
    rewrite Z.min_r by lia.
    mstep.
    destruct (dev_exec dev h (LtssmDumpGen4 15 (u8 port) 0 126)) as [a3 out].
    cbn [fst snd] in *. subst a3. cbn [Z.eqb negb].
    mstep.
    destruct (dev_exec dev (h ++ [EvCmd (LtssmDumpGen4 15 (u8 port) 0 126)])
                (LtssmDumpGen4 15 (u8 port) 126 (n - 126))) as [a4 out2].
    cbn [fst snd] in *. subst a4. mstep. cbn [Z.eqb negb].
    mstep. destruct (dev_exec dev _ _) as [a5 []]. cbn [fst snd ret].
    split; [reflexivity|]. split; [apply store_range_length|]. split.
    + intros j Hj Hl.
      rewrite store_range_inside by lia.
      rewrite Nat.sub_0_r. f_equal. f_equal.
      destruct (Nat.ltb_spec j 126).
      * rewrite copy_out_outside by lia.
        rewrite copy_out_inside by lia. by rewrite Nat.sub_0_r.
      * apply copy_out_inside. lia.
    + intros j Hj. apply store_range_outside; lia.
Qed.

End LtssmEarly.

(** A rejected freeze on a Gen4 device, a rejected status query on a Gen5
    device. *)
Lemma ltssm_log_early_failure_witness :
  let dev1 := sample_dev SWITCHTEC_GEN4 200 freeze_request in
  let dev2 := sample_dev SWITCHTEC_GEN5 200 status_query in
  (cmd_status dev1 [] (LtssmFreeze 14 3 1) <> 0 /\
   switchtec_diag_ltssm_log_gen4 sample_transfers dev1 3 130 (blank_log 130)
     world0
   = ((5, 130, blank_log 130),
      {| w_trace := [EvCmd (LtssmFreeze 14 3 1)]; w_errno := 0 |})) /\
  (cmd_status dev2 [] (LtssmFreeze 14 3 1) = 0 /\
   cmd_status dev2 [EvCmd (LtssmFreeze 14 3 1)] (LtssmStatusGen5 20 3) <> 0 /\
   switchtec_diag_ltssm_log_gen5 sample_transfers dev2 3 130 (blank_log 130)
     world0
   = ((5, 130, blank_log 130),
      {| w_trace := [EvCmd (LtssmFreeze 14 3 1); EvCmd (LtssmStatusGen5 20 3)];
         w_errno := 0 |})).
Proof.
  intros dev1 dev2.
  assert (N1 : cmd_status dev1 (w_trace world0) (LtssmFreeze 14 (u8 3) 1) <> 0)
    by (cbn; discriminate).
  assert (F2 : cmd_status dev2 (w_trace world0) (LtssmFreeze 14 (u8 3) 1) = 0)
    by reflexivity.
  assert (N2 : cmd_status dev2
                 (w_trace world0 ++ [EvCmd (LtssmFreeze 14 (u8 3) 1)])
                 (LtssmStatusGen5 20 (u8 3)) <> 0) by (cbn; discriminate).
  split.
  - split; [exact N1|].
    exact (proj1 (proj1 (ltssm_log_early_failure sample_transfers dev1 3 130
                           (blank_log 130) world0) N1)).
  - split; [exact F2|]. split; [exact N2|].
    exact (proj2 (proj2 (ltssm_log_early_failure sample_transfers dev2 3 130
                           (blank_log 130) world0)) F2 N2).
Defined.

(** A Gen3 device. *)
Lemma ltssm_log_unsupported_generation_witness :
  let dev := sample_dev SWITCHTEC_GEN3 200 never in
  switchtec_is_gen4 dev = false /\
  switchtec_is_gen5 dev = false /\
  switchtec_diag_ltssm_log_dispatch sample_transfers dev 3 130 (blank_log 130)
    world0
  = ((- EINVAL, 130, blank_log 130), world0).
Proof.
  intros dev. split; [reflexivity|]. split; [reflexivity|].
  exact (ltssm_log_unsupported_generation sample_transfers dev 3 130
           (blank_log 130) world0 eq_refl eq_refl).
Defined.

(** A device that reports no entry. *)
Lemma ltssm_log_empty_witness :
  let dev4 := sample_dev SWITCHTEC_GEN4 0 never in
  let dev5 := sample_dev SWITCHTEC_GEN5 0 never in
  (cmd_status dev4 [] (LtssmFreeze 14 3 1) = 0 /\
   cmd_status dev4 [EvCmd (LtssmFreeze 14 3 1)] (LtssmStatusGen4 13 3) = 0 /\
   switchtec_diag_ltssm_log_gen4 sample_transfers dev4 3 10 (blank_log 10)
     world0
   = ((0, 0, blank_log 10),
      {| w_trace := [EvCmd (LtssmFreeze 14 3 1); EvCmd (LtssmStatusGen4 13 3);
                     EvCmd (LtssmDumpGen4 15 3 0 0);
                     EvCmd (LtssmFreeze 14 3 0)];
         w_errno := 0 |})) /\
  (cmd_status dev5 [] (LtssmFreeze 14 3 1) = 0 /\
   cmd_status dev5 [EvCmd (LtssmFreeze 14 3 1)] (LtssmStatusGen5 20 3) = 0 /\
   switchtec_diag_ltssm_log_gen5 sample_transfers dev5 3 10 (blank_log 10)
     world0
   = ((0, 0, blank_log 10),
      {| w_trace := [EvCmd (LtssmFreeze 14 3 1); EvCmd (LtssmStatusGen5 20 3);
                     EvCmd (LtssmFreeze 14 3 0)];
         w_errno := 0 |})).
Proof.
  intros dev4 dev5.
  assert (F4 : cmd_status dev4 (w_trace world0) (LtssmFreeze 14 (u8 3) 1) = 0)
    by reflexivity.
  assert (S4 : cmd_status dev4
                 (w_trace world0 ++ [EvCmd (LtssmFreeze 14 (u8 3) 1)])
                 (LtssmStatusGen4 13 (u8 3)) = 0) by reflexivity.
  assert (F5 : cmd_status dev5 (w_trace world0) (LtssmFreeze 14 (u8 3) 1) = 0)
    by reflexivity.
  assert (S5 : cmd_status dev5
                 (w_trace world0 ++ [EvCmd (LtssmFreeze 14 (u8 3) 1)])
                 (LtssmStatusGen5 20 (u8 3)) = 0) by reflexivity.
  split.
  - split; [exact F4|]. split; [exact S4|].
    exact (proj1 (ltssm_log_empty sample_transfers dev4 3 10 (blank_log 10)
                    world0 F4) S4 eq_refl).
  - split; [exact F5|]. split; [exact S5|].
    exact (proj2 (ltssm_log_empty sample_transfers dev5 3 10 (blank_log 10)
                    world0 F5) S5 ltac:(vm_compute; discriminate)).
Defined.

(** 130 of 200 entries: entry 127 is record 1 of the second response. *)
Lemma ltssm_gen4_entries_witness :
  let dev := sample_dev SWITCHTEC_GEN4 200 never in
  let res := switchtec_diag_ltssm_log_gen4 sample_transfers dev 3 130
               (blank_log 140) world0 in
  cmd_status dev [] (LtssmFreeze 14 3 1) = 0 /\
  cmd_status dev [EvCmd (LtssmFreeze 14 3 1)] (LtssmStatusGen4 13 3) = 0 /\
  all_succeed dev [EvCmd (LtssmFreeze 14 3 1); EvCmd (LtssmStatusGen4 13 3)]
    [LtssmDumpGen4 15 3 0 126; LtssmDumpGen4 15 3 126 4] /\
  res.1.2 !! 127%nat
  = Some (ltssm_gen4_entry sample_transfers {| dw0 := 8 * 127; dw1 := 0 |}) /\
  res.1.2 !! 130%nat = Some blank_entry.
Proof.
  intros dev res.
  assert (F : cmd_status dev (w_trace world0) (LtssmFreeze 14 (u8 3) 1) = 0)
    by reflexivity.
  assert (S : cmd_status dev (w_trace world0 ++ [EvCmd (LtssmFreeze 14 (u8 3) 1)])
                (LtssmStatusGen4 13 (u8 3)) = 0) by reflexivity.
  assert (A : all_succeed dev
                [EvCmd (LtssmFreeze 14 3 1); EvCmd (LtssmStatusGen4 13 3)]
                [LtssmDumpGen4 15 3 0 126; LtssmDumpGen4 15 3 126 4])
    by (cbn; done).
  pose proof (ltssm_gen4_entries sample_transfers dev 3 130 (blank_log 140)
                world0 F S ltac:(lia) A) as (_ & _ & I & O).
  split; [exact F|]. split; [exact S|]. split; [exact A|]. split.
  - transitivity
      (Some (ltssm_gen4_entry sample_transfers
               (gen4_dump_record dev 3
                  [EvCmd (LtssmFreeze 14 3 1); EvCmd (LtssmStatusGen4 13 3)]
                  130 127))).
    + apply (I 127%nat); [reflexivity|]. unfold blank_log.
      rewrite length_replicate. lia.
    + reflexivity.
  - transitivity (blank_log 140 !! 130%nat); [apply (O 130%nat); lia|reflexivity].
Defined.

(** A decoded field is what its bits allow. *)
Lemma land_mask_range (a k : Z) :
  0 <= k -> 0 <= Z.land a (Z.ones k) < 2 ^ k.
Proof.
  intros Hk. rewrite Z.land_ones by lia. apply Z.mod_pos_bound. lia.
Qed.

(** X5. Whatever the device sends, a decoded entry is within the range of
    its bit-fields: a Gen4 entry has a 26-bit time stamp, no high time
    stamp and a rate looked up at an index from 1 to 4; a Gen5 entry has a
    5-bit high time stamp and a rate looked up at an index from 1 to 8; in
    both the link state is below 2^12. *)
Theorem ltssm_entry_ranges transfers (r : ltssm_gen4_rec) (b : log_buffer) :
  let e4 := ltssm_gen4_entry transfers r in
  let e5 := ltssm_gen5_entry transfers b in
  (0 <= timestamp e4 < 2 ^ 26 /\ timestamp_high e4 = 0 /\
   0 <= link_state e4 < 2 ^ 12 /\
   exists k, 1 <= k <= 4 /\ link_rate e4 = transfers k) /\
  (timestamp e5 = time_stamp b /\ 0 <= timestamp_high e5 < 2 ^ 5 /\
   0 <= link_state e5 < 2 ^ 12 /\
   exists k, 1 <= k <= 8 /\ link_rate e5 = transfers k).
Proof.
  cbn zeta.
  assert (T4 : 0 <= Z.land (dw1 r) 0x3ffffff < 2 ^ 26)
    by exact (land_mask_range (dw1 r) 26 ltac:(lia)).
  assert (R4 : 0 <= gen4_rate r < 2 ^ 2)
    by exact (land_mask_range (Z.shiftr (dw0 r) 13) 2 ltac:(lia)).
  assert (J4 : 0 <= gen4_major r < 2 ^ 4)
    by exact (land_mask_range (Z.shiftr (dw0 r) 7) 4 ltac:(lia)).
  assert (N4 : 0 <= gen4_minor r < 2 ^ 4)
    by exact (land_mask_range (Z.shiftr (dw0 r) 3) 4 ltac:(lia)).
  assert (N5 : 0 <= lb_minor b < 2 ^ 4)
    by exact (land_mask_range (Z.shiftr (lb_dword0 b) 3) 4 ltac:(lia)).
  assert (J5 : 0 <= lb_major b < 2 ^ 6)
    by exact (land_mask_range (Z.shiftr (lb_dword0 b) 7) 6 ltac:(lia)).
  assert (R5 : 0 <= lb_link_rate b < 2 ^ 3)
    by exact (land_mask_range (Z.shiftr (lb_dword0 b) 13) 3 ltac:(lia)).
  assert (H5 : 0 <= lb_ts_high b < 2 ^ 5)
    by exact (land_mask_range (lb_dword2 b) 5 ltac:(lia)).
  unfold ltssm_gen4_entry, ltssm_gen5_entry.
  cbn [timestamp timestamp_high link_state link_rate].
  split.
  - split; [exact T4|]. split; [reflexivity|]. split.
    + rewrite Z.lor_comm, (lor_shiftl_add _ _ 8) by lia. lia.
    + exists (gen4_rate r + 1). split; [lia|reflexivity].
  - split; [reflexivity|]. split; [exact H5|]. split.
    + rewrite Z.lor_comm, (lor_shiftl_add _ _ 8) by lia. lia.
    + exists (lb_link_rate b + 1). split; [lia|reflexivity].
Qed.

(** * More on the eye fetch *)

Lemma eye_status_nonzero (st : Z) w :
  st <> 0 ->
  switchtec_diag_eye_status st w
  = (-1, {| w_trace := w_trace w; w_errno := eye_status_errno st |}).
Proof.
  intros N. unfold switchtec_diag_eye_status, eye_status_errno.
  destruct (Z.eqb_spec st 0); [lia|].
  destruct (st =? 2); [reflexivity|]. destruct (st =? 3); reflexivity.
Qed.

(** X6. A fetch that, after [k] busy answers, gets a response whose status
    is neither 0 nor 1 returns -1 with [errno] set by that status ([EINVAL]
    for 2, [EBUSY] for 3, [EPROTO] otherwise).  It has slept 5 ms after
    each busy answer and not after the last one, and it has written
    neither [pixels] nor [*lane_id]. *)
Theorem eye_fetch_status_error dev w k out w' fuel pixels pixel_cnt lane_id :
  eye_answers dev w k out w' ->
  status out <> 0 ->
  (k < fuel)%nat ->
  switchtec_diag_eye_fetch fuel dev pixels pixel_cnt lane_id w
  = (Some (-1, pixels, lane_id),
     {| w_trace := w_trace w ++ busy_fetches k ++ [EvCmd EyeObserveFetch];
        w_errno := eye_status_errno (status out) |}).
Proof.
  intros Ha N. revert fuel.
  induction Ha as [w out E N1|w busy k out w' E B Ha IH]; intros fuel Hk.
  - destruct fuel as [|fuel]; [lia|]. cbn [switchtec_diag_eye_fetch].
    mstep. rewrite E. cbn [Z.eqb negb].
    destruct (Z.eqb_spec (status out) 1); [lia|].
    unfold bind. rewrite eye_status_nonzero by exact N.
    cbn [w_trace w_errno busy_fetches app Z.eqb negb]. reflexivity.
  - destruct fuel as [|fuel]; [lia|]. cbn [switchtec_diag_eye_fetch].
    mstep. rewrite E. cbn [Z.eqb negb]. rewrite B.
    change (1 =? 1) with true. cbn iota.
    unfold bind at 1, usleep. cbn [w_trace w_errno].
    rewrite <- app_assoc. cbn [app].
    rewrite IH by (exact N || lia). cbn [w_trace w_errno busy_fetches].
    rewrite <- !app_assoc. reflexivity.
Qed.

(** One busy answer, then a response with status 3. *)
Lemma eye_fetch_status_error_witness :
  let out := eye_ratio_reply 3 4 10 in
  let dev := eye_dev 1 out in
  let w' := {| w_trace := [EvCmd EyeObserveFetch; EvSleep 5000;
                           EvCmd EyeObserveFetch];
               w_errno := 0 |} in
  eye_answers dev world0 1 out w' /\
  status out <> 0 /\
  switchtec_diag_eye_fetch 2 dev (replicate 10 double_nan) 10 (-1) world0
  = (Some (-1, replicate 10 double_nan, -1),
     {| w_trace := [EvCmd EyeObserveFetch; EvSleep 5000;
                    EvCmd EyeObserveFetch];
        w_errno := EBUSY |}).
Proof.
  intros out dev w'.
  assert (A : eye_answers dev world0 1 out w').
  { eapply eye_answers_busy; [reflexivity|reflexivity|].
    apply (eye_answers_done dev
             {| w_trace := w_trace world0 ++ [EvCmd EyeObserveFetch; EvSleep 5000];
                w_errno := w_errno world0 |} out); [reflexivity|].
    cbn. discriminate. }
  assert (N : status out <> 0) by (cbn; discriminate).
  split; [exact A|]. split; [exact N|].
  exact (eye_fetch_status_error dev world0 1 out w' 2
           (replicate 10 double_nan) 10 (-1) A N ltac:(lia)).
Defined.

Lemma eye_busy_step dev h k :
  eye_busy dev h (S k) ->
  exists busy, dev_exec dev h EyeObserveFetch = (0, busy) /\ status busy = 1 /\
    eye_busy dev (h ++ [EvCmd EyeObserveFetch; EvSleep 5000]) k.
Proof.
  cbn [eye_busy]. destruct (dev_exec dev h EyeObserveFetch) as [r busy].
  cbn [fst snd]. intros (-> & B & H). by exists busy.
Qed.



(** X8. The retry loop of the fetch has no bound: however many busy
    answers the device gives in a row, the fetch has by then issued as
    many requests, slept 5 ms after each, and goes on exactly as a fetch
    with the same [pixels] and [*lane_id] would that started then, so that
    it has written nothing; [errno] is what the sleeps left. *)
Theorem eye_fetch_unbounded_retry dev w (k fuel : nat) pixels pixel_cnt
    lane_id :
  let w_k := {| w_trace := w_trace w ++ busy_fetches k;
                w_errno := busy_errno dev (w_trace w) k (w_errno w) |} in
  eye_busy dev (w_trace w) k ->
  switchtec_diag_eye_fetch (k + fuel) dev pixels pixel_cnt lane_id w
  = switchtec_diag_eye_fetch fuel dev pixels pixel_cnt lane_id w_k /\
  switchtec_diag_eye_fetch k dev pixels pixel_cnt lane_id w = (None, w_k).
Proof.
  cbn zeta. intros Hb.
  assert (G : forall fuel,
            switchtec_diag_eye_fetch (k + fuel) dev pixels pixel_cnt lane_id w
            = switchtec_diag_eye_fetch fuel dev pixels pixel_cnt lane_id
                {| w_trace := w_trace w ++ busy_fetches k;
                   w_errno := busy_errno dev (w_trace w) k (w_errno w) |}).
  { clear fuel. revert w Hb. induction k as [|k IH]; intros w Hb fuel.
    - cbn [Nat.add busy_fetches busy_errno]. rewrite app_nil_r.
      by destruct w.
    - cbn [Nat.add switchtec_diag_eye_fetch].
      apply eye_busy_step in Hb as (busy & E & B & Hb).
      mstep. rewrite E. cbn [Z.eqb negb]. rewrite B.
      change (1 =? 1) with true. cbn iota.
      unfold bind at 1, usleep. cbn [w_trace w_errno].
      rewrite <- app_assoc. cbn [app].
      rewrite IH by exact Hb. cbn [w_trace w_errno busy_fetches busy_errno].
      by rewrite <- app_assoc. }
  split; [apply G|].
  rewrite <- (Nat.add_0_r k) at 1. rewrite G. reflexivity.
Qed.

(** Three busy answers with interrupted sleeps; the fetch that goes on
    from there gets the response and writes its pixel. *)
Lemma eye_fetch_unbounded_retry_witness :
  let out := eye_ratio_reply 0 1 1 in
  let dev := eye_intr_dev 3 0 out in
  let w3 := {| w_trace := busy_fetches 3; w_errno := EINTR |} in
  eye_busy dev [] 3 /\
  switchtec_diag_eye_fetch 3 dev [double_nan] 1 (-1) world0 = (None, w3) /\
  switchtec_diag_eye_fetch 4 dev [double_nan] 1 (-1) world0
  = switchtec_diag_eye_fetch 1 dev [double_nan] 1 (-1) w3.
Proof.
  intros out dev w3.
  assert (B : eye_busy dev (w_trace world0) 3) by (cbn; done).
  split; [exact B|]. split.
  - exact (proj2 (eye_fetch_unbounded_retry dev world0 3 0 [double_nan] 1%nat
                    (-1) B)).
  - exact (proj1 (eye_fetch_unbounded_retry dev world0 3 1 [double_nan] 1%nat
                    (-1) B)).
Defined.

(** ** The lane id *)

(** A positive number is an odd number times two to the power of its
    number of trailing zeros. *)
Lemma ctz_spec (p : positive) :
  0 <= ctz p /\ exists y, Z.odd y = true /\ Zpos p = y * 2 ^ ctz p.
Proof.
  induction p as [p _|p [IH0 (y & Hy & E)]|].
  - split; [cbn; lia|]. exists (Zpos p~1). split; [reflexivity|]. cbn [ctz]. lia.
  - cbn [ctz]. split; [lia|]. exists y. split; [exact Hy|].
    rewrite Z.pow_add_r by lia. change (Zpos p~0) with (2 * Zpos p). lia.
  - split; [cbn; lia|]. exists 1. split; reflexivity.
Qed.

(** [ffs x - 1] is the index of the lowest set bit of a nonzero [x]. *)
Lemma ffs_lowest_bit (x : Z) :
  x <> 0 ->
  1 <= ffs x /\
  Z.testbit x (ffs x - 1) = true /\
  (forall b, 0 <= b < ffs x - 1 -> Z.testbit x b = false).
Proof.
  intros N.
  assert (exists p y, ffs x = 1 + ctz p /\ 0 <= ctz p /\ Z.odd y = true /\
                      x = y * 2 ^ ctz p) as (p & y & -> & H0 & Hy & ->).
  { destruct x as [|p|p]; [done| |].
    - destruct (ctz_spec p) as (H0 & y & Hy & E). by exists p, y.
    - destruct (ctz_spec p) as (H0 & y & Hy & E). exists p, (- y).
      split; [reflexivity|]. split; [exact H0|]. split.
      + by rewrite Z.odd_opp.
      + rewrite Z.mul_opp_l, <- E. reflexivity. }
  split; [lia|]. replace (1 + ctz p - 1) with (ctz p) by lia. split.
  - rewrite <- (Z.add_0_r (ctz p)) at 2.
    rewrite Z.mul_pow2_bits_add by lia. by rewrite Z.bit0_odd.
  - intros b Hb. apply Z.mul_pow2_bits_low. lia.
Qed.

Lemma ffs_le_32 (x : Z) : Z.abs x < 2 ^ 32 -> ffs x <= 32.
Proof.
  intros Hx. destruct x as [|p|p]; [cbn; lia| |].
  - destruct (ctz_spec p) as (H0 & y & Hy & E). cbn [ffs].
    destruct (Z.le_gt_cases 32 (ctz p)) as [Hge|]; [|lia].
    assert (2 ^ 32 <= 2 ^ ctz p) by (apply Z.pow_le_mono_r; lia).
    assert (1 <= y) by (destruct y; try discriminate; lia).
    cbn [Z.abs] in Hx. nia.
  - destruct (ctz_spec p) as (H0 & y & Hy & E). cbn [ffs].
    destruct (Z.le_gt_cases 32 (ctz p)) as [Hge|]; [|lia].
    assert (2 ^ 32 <= 2 ^ ctz p) by (apply Z.pow_le_mono_r; lia).
    assert (1 <= y) by (destruct y; try discriminate; lia).
    cbn [Z.abs] in Hx. nia.
Qed.

(** X9. The lane id a successful fetch reports never depends on the value
    [*lane_id] had before.  It is 0 when the four mask words are zero;
    otherwise it is one more than the index of the lowest set bit of the
    first nonzero mask word, whichever of the four words that is, and so at
    most 32 for 32-bit words. *)
Theorem eye_fetch_lane_id out pixels pixel_cnt lane_id :
  let lane := (eye_fetch_finish out pixels pixel_cnt lane_id).2 in
  ((forall j : nat, (j < 4)%nat -> lane_mask out j = 0) -> lane = 0) /\
  (forall i : nat, (i < 4)%nat ->
     (forall j : nat, (j < i)%nat -> lane_mask out j = 0) ->
     lane_mask out i <> 0 ->
     1 <= lane /\
     Z.testbit (lane_mask out i) (lane - 1) = true /\
     (forall b, 0 <= b < lane - 1 -> Z.testbit (lane_mask out i) b = false) /\
     (Z.abs (lane_mask out i) < 2 ^ 32 -> lane <= 32)).
Proof.
  cbn zeta. unfold eye_fetch_finish. cbn [snd]. split.
  - intros Hz. by apply eye_lane_scan_none.
  - intros i Hi Hz Hn.
    rewrite (eye_lane_scan_first _ i) by assumption.
    destruct (ffs_lowest_bit _ Hn) as (H1 & H2 & H3).
    split; [exact H1|]. split; [exact H2|]. split; [exact H3|].
    apply ffs_le_32.
Qed.

(** Mask word 0 is zero and word 1 is 12 (bits 2 and 3): the lane id is 3. *)
Lemma eye_fetch_lane_id_witness :
  let out := {| status := 0; data_mode := SWITCHTEC_DIAG_EYE_RATIO;
                lane_mask := fun i => if decide (i = 1%nat) then 12 else 0;
                data_count_lo := 0; data_count_hi := 0;
                raw := fun _ => eye_raw_zero; ratio := fun _ => 0 |} in
  lane_mask out 0%nat = 0 /\ lane_mask out 1%nat <> 0 /\
  1 <= (eye_fetch_finish out [] 0 (-1)).2 <= 32 /\
  Z.testbit 12 ((eye_fetch_finish out [] 0 (-1)).2 - 1) = true.
Proof.
  intros out.
  assert (Z0 : forall j : nat, (j < 1)%nat -> lane_mask out j = 0).
  { intros j Hj. assert (j = 0%nat) as -> by lia. reflexivity. }
  assert (N : lane_mask out 1%nat <> 0) by (cbn; discriminate).
  destruct (proj2 (eye_fetch_lane_id out [] 0%nat (-1)) 1%nat ltac:(lia) Z0 N)
    as (H1 & H2 & _ & H4).
  split; [reflexivity|]. split; [exact N|]. split.
  - split; [exact H1|]. apply H4. reflexivity.
  - exact H2.
Defined.

(** * More on the equalization dumps *)

(** X10. The equalization dumps check their arguments before they talk to
    the device.  A null result pointer, an end that is neither local nor
    far end (where the function takes one, the Gen5 coefficient dump
    apart) and, in the Gen4 functions, a link that is neither current nor
    previous end the call with -1 and [errno = -EINVAL]: no request is
    issued. *)
Theorem eq_invalid_arguments dev port_id lane_id e l
    (rc : option switchtec_port_eq_coeff) (rt : option switchtec_port_eq_table)
    (rf : option switchtec_port_eq_tx_fslf) w :
  (switchtec_gen4_diag_port_eq_tx_coeff dev port_id e l None w = refused w None /\
   switchtec_gen5_diag_port_eq_tx_coeff dev port_id e l None w = refused w None /\
   switchtec_gen4_diag_port_eq_tx_table dev port_id l None w = refused w None /\
   switchtec_gen5_diag_port_eq_tx_table dev port_id l None w = refused w None /\
   switchtec_gen4_diag_port_eq_tx_fslf dev port_id lane_id e l None w
   = refused w None /\
   switchtec_gen5_diag_port_eq_tx_fslf dev port_id lane_id e l None w
   = refused w None) /\
  (switchtec_gen4_diag_port_eq_tx_coeff dev port_id
     SWITCHTEC_DIAG_END_INVALID l rc w = refused w rc /\
   switchtec_gen4_diag_port_eq_tx_fslf dev port_id lane_id
     SWITCHTEC_DIAG_END_INVALID l rf w = refused w rf /\
   switchtec_gen5_diag_port_eq_tx_fslf dev port_id lane_id
     SWITCHTEC_DIAG_END_INVALID l rf w = refused w rf) /\
  (switchtec_gen4_diag_port_eq_tx_coeff dev port_id e
     SWITCHTEC_DIAG_LINK_INVALID rc w = refused w rc /\
   switchtec_gen4_diag_port_eq_tx_table dev port_id
     SWITCHTEC_DIAG_LINK_INVALID rt w = refused w rt /\
   switchtec_gen4_diag_port_eq_tx_fslf dev port_id lane_id e
     SWITCHTEC_DIAG_LINK_INVALID rf w = refused w rf).
Proof.
  unfold refused. split; [|split].
  - repeat split; by destruct e, l.
  - repeat split; by destruct rc, rf, l.
  - repeat split; by destruct rc, rt, rf, e.
Qed.

(** X11. The Gen5 coefficient dump does not reject an end that is neither
    local nor far end: with a result pointer and such an end it allocates
    its buffer, issues no request, leaves the result as it was, sets
    [errno = -EINVAL] and returns 0.  Only a failed allocation makes this
    call return -1, then with [errno = -ENOMEM]. *)
Theorem gen5_eq_coeff_invalid_end dev port_id l res0 w :
  switchtec_gen5_diag_port_eq_tx_coeff dev port_id SWITCHTEC_DIAG_END_INVALID
    l (Some res0) w
  = if dev_alloc dev (w_trace w)
    then ((0, Some res0), {| w_trace := w_trace w; w_errno := - EINVAL |})
    else ((-1, Some res0), {| w_trace := w_trace w; w_errno := - ENOMEM |}).
Proof.
  unfold switchtec_gen5_diag_port_eq_tx_coeff, bind, set_errno, malloc, ret.
  cbn [w_trace w_errno]. by destruct (dev_alloc dev (w_trace w)).
Qed.



(** * The other diagnostic commands *)

Lemma dbind_dret {A B} (a : A) (k : A -> DM B) w : dbind (dret a) k w = k a w.
Proof. reflexivity. Qed.

Lemma dbind_assoc {A B C} (m : DM A) (k1 : A -> DM B) (k2 : B -> DM C) w :
  dbind (dbind m k1) k2 w = dbind m (fun a => dbind (k1 a) k2) w.
Proof. unfold dbind. destruct (m w). reflexivity. Qed.

Lemma dbind_diag_cmd {B} dev r (k : Z * diag_reply r -> DM B) w :
  dbind (diag_cmd dev r) k w
  = k (dd_exec dev (dw_trace w) r)
      {| dw_trace := dw_trace w ++ [DCmd r]; dw_errno := dw_errno w |}.
Proof. reflexivity. Qed.

Ltac dstep :=
  rewrite ?dbind_assoc;
  first [ rewrite dbind_diag_cmd | rewrite dbind_dret ];
  cbn [dw_trace dw_errno].

(** A loop that stores at the indices below [n] of an array that long
    replaces its first [n] entries and keeps the others. *)
Lemma store_range_prefix {A} (n : Z) (f : nat -> A) (dst : list A) :
  (Z.to_nat n <= length dst)%nat ->
  store_range 0 n f dst = map f (seq 0 (Z.to_nat n)) ++ drop (Z.to_nat n) dst.
Proof.
  intros Hn. apply list_eq. intros j.
  destruct (Nat.lt_ge_cases j (Z.to_nat n)) as [Hj|Hj].
  - rewrite store_range_inside by (cbn; lia).
    rewrite lookup_app_l by (rewrite length_map, length_seq; lia).
    rewrite list_lookup_fmap, lookup_seq_lt by lia. cbn. by rewrite Nat.sub_0_r.
  - rewrite store_range_outside by (cbn; lia).
    rewrite lookup_app_r by (rewrite length_map, length_seq; lia).
    rewrite length_map, length_seq, lookup_drop. f_equal. lia.
Qed.

Section CrossHairFacts.

Variables WAITING DONE ERROR : Z.

(** X13. A cross hair query the device rejects returns that status and
    leaves [res] alone.  One that succeeds rebuilds each of the first
    [num_lanes] entries of [res] from the response alone, so nothing of
    what the caller's array held before is left in them, and keeps the
    entries after them. *)
Theorem cross_hair_get_result dev start_lane_id num_lanes res w :
  let q := CrossHairGet start_lane_id num_lanes in
  let s := (dd_exec dev (dw_trace w) q).1 in
  let out := (dd_exec dev (dw_trace w) q).2 in
  let n := Z.to_nat num_lanes in
  (n <= length res)%nat ->
  switchtec_diag_cross_hair_get WAITING DONE ERROR dev start_lane_id num_lanes
    res w
  = ((if s =? 0
      then (0, map (fun i => cross_hair_entry WAITING DONE ERROR (out i))
                 (seq 0 n) ++ drop n res)
      else (s, res)),
     {| dw_trace := dw_trace w ++ [DCmd q]; dw_errno := dw_errno w |}).
Proof.
  intros q s out n Hn. subst s out. unfold switchtec_diag_cross_hair_get.
  fold q. dstep. destruct (dd_exec dev (dw_trace w) q) as [s out].
  cbn [fst snd]. destruct (s =? 0); cbn [negb]; [|reflexivity].
  unfold dret. by rewrite store_range_prefix.
Qed.

End CrossHairFacts.

(** Two lanes into an array of three stale entries: waiting lanes come out
    cleared, the third entry is kept. *)
Lemma cross_hair_get_result_witness :
  let stale := {| ch_state := 9; ch_lane_id := 9; ch_prev_state := 9;
                  ch_x_pos := 9; ch_y_pos := 9;
                  ch_eye_left_lim := 9; ch_eye_right_lim := 9;
                  ch_eye_bot_left_lim := 9; ch_eye_bot_right_lim := 9;
                  ch_eye_top_left_lim := 9; ch_eye_top_right_lim := 9 |} in
  let clear l st := {| ch_state := st; ch_lane_id := l; ch_prev_state := 0;
                       ch_x_pos := 0; ch_y_pos := 0;
                       ch_eye_left_lim := 0; ch_eye_right_lim := 0;
                       ch_eye_bot_left_lim := 0; ch_eye_bot_right_lim := 0;
                       ch_eye_top_left_lim := 0; ch_eye_top_right_lim := 0 |} in
  (switchtec_diag_cross_hair_get 2 20 21
     (diag_sample_dev (0, 0, 0, 0) (fun _ => 0) diag_never) 4 2
     [stale; stale; stale] diag_world0).1
  = (0, [clear 4 0; clear 5 1; stale]).
Proof.
  intros stale clear.
  exact (f_equal fst
           (cross_hair_get_result 2 20 21
              (diag_sample_dev (0, 0, 0, 0) (fun _ => 0) diag_never) 4 2
              [stale; stale; stale] diag_world0 ltac:(cbn; lia))).
Defined.

Lemma errno_only_eye_status (st : Z) w :
  errno_only (switchtec_diag_eye_status st) w
  = (if st =? 0 then 0 else -1,
     {| dw_trace := dw_trace w;
        dw_errno := if st =? 0 then dw_errno w else eye_status_errno st |}).
Proof.
  unfold errno_only. destruct (Z.eqb_spec st 0) as [->|N].
  - by destruct w.
  - by rewrite eye_status_nonzero.
Qed.

(** X14. Setting the data mode, starting and cancelling an eye capture
    issue one request.  A rejected request gives its status; an accepted
    one gives 0 for the response status 0 and otherwise -1 with [errno]
    set by the response status, by which the busy status 1, too, is
    reported as [EPROTO].  Start and cancel then sleep 200 ms in every
    case, and a change the sleep makes to [errno] is undone. *)
Theorem eye_command_outcome dev mode lane_mask x_range y_range step_interval w :
  let start :=
    EyeStart (lane_mask 0%nat) (lane_mask 1%nat) (lane_mask 2%nat)
      (lane_mask 3%nat)
      (range_start x_range) (range_start y_range)
      (range_end x_range) (range_end y_range)
      (range_step x_range) (range_step y_range) step_interval in
  let outcome (i : eye_observe_in) (after : list diag_event) :=
    let '(r, st) := dd_exec dev (dw_trace w) (EyeObserve i) in
    (if r =? 0 then (if st =? 0 then 0 else -1) else r,
     {| dw_trace := dw_trace w ++ DCmd (EyeObserve i) :: after;
        dw_errno := if (r =? 0) && negb (st =? 0)
                    then eye_status_errno st else dw_errno w |}) in
  switchtec_diag_eye_set_mode dev mode w = outcome (EyeSetDataMode mode) [] /\
  switchtec_diag_eye_start dev lane_mask x_range y_range step_interval w
  = outcome start [DSleep 200000] /\
  switchtec_diag_eye_cancel dev w = outcome EyeCancel [DSleep 200000].
Proof.
  intros start outcome.
  assert (C : forall i, switchtec_diag_eye_cmd dev i w = outcome i []).
  { intros i. unfold switchtec_diag_eye_cmd, outcome. dstep.
    destruct (dd_exec dev (dw_trace w) (EyeObserve i)) as [r st].
    destruct (r =? 0); cbn [negb andb]; [|reflexivity].
    rewrite errno_only_eye_status. cbn [dw_trace dw_errno].
    by destruct (st =? 0). }
  assert (S : forall i,
            dbind (switchtec_diag_eye_cmd dev i)
              (fun r => dbind get_errno (fun err =>
                 dbind (diag_usleep dev 200000) (fun _ =>
                   dbind (put_errno err) (fun _ => dret r)))) w
            = outcome i [DSleep 200000]).
  { intros i. unfold dbind at 1. rewrite C. unfold outcome.
    destruct (dd_exec dev (dw_trace w) (EyeObserve i)) as [r st].
    unfold dbind, get_errno, diag_usleep, put_errno, dret.
    cbn [dw_trace dw_errno]. by rewrite <- app_assoc. }
  split; [apply C|]. split; apply S.
Qed.

(** X15. A Gen5 eye read the device rejects returns that status and writes
    neither [*num_phases] nor [ber_data].  One that succeeds returns 0,
    stores the number of phases of the response and converts that many
    values into the first entries of [ber_data]; the count of the device
    alone bounds the loop. *)
Theorem gen5_eye_read_result dev lane_id bin num_phases0 ber w :
  let q := Gen5EyeRead lane_id bin in
  let s := (dd_exec dev (dw_trace w) q).1 in
  let out := (dd_exec dev (dw_trace w) q).2 in
  let n := Z.to_nat (num_phases out) in
  (n <= length ber)%nat ->
  switchtec_gen5_diag_eye_read dev lane_id bin num_phases0 ber w
  = ((if s =? 0
      then (0, num_phases out,
            map (fun i => gen5_eye_ber (ber_data out i)) (seq 0 n) ++ drop n ber)
      else (s, num_phases0, ber)),
     {| dw_trace := dw_trace w ++ [DCmd q]; dw_errno := dw_errno w |}).
Proof.
  intros q s out n Hn. subst s out n. unfold switchtec_gen5_diag_eye_read.
  fold q. dstep. destruct (dd_exec dev (dw_trace w) q) as [s out].
  cbn [fst snd] in *. destruct (Z.eqb_spec s 0) as [->|N]; cbn [negb];
    [|reflexivity].
  unfold dret. by rewrite store_range_prefix.
Qed.

(** Three phases into an array of four. *)
Lemma gen5_eye_read_result_witness :
  (switchtec_gen5_diag_eye_read
     (diag_sample_dev (0, 0, 0, 0) (fun _ => 0) diag_never) 2 7 0
     (replicate 4 double_nan) diag_world0).1
  = (0, 3, [gen5_eye_ber 0; gen5_eye_ber (2 ^ 44); gen5_eye_ber (2 * 2 ^ 44);
            double_nan]).
Proof.
  exact (f_equal fst
           (gen5_eye_read_result
              (diag_sample_dev (0, 0, 0, 0) (fun _ => 0) diag_never) 2 7 0
              (replicate 4 double_nan) diag_world0 ltac:(cbn; lia))).
Defined.

(** ** Loopback state *)

(** The bits a power of two selects. *)
Lemma land_pow2 (x a : Z) :
  0 <= a -> Z.land x (2 ^ a) = if Z.testbit x a then 2 ^ a else 0.
Proof.
  intros Ha. apply Z.bits_inj'. intros n Hn. rewrite Z.land_spec.
  rewrite Z.pow2_bits_eqb by lia.
  destruct (Z.eqb_spec a n) as [->|N].
  - destruct (Z.testbit x n); [|by rewrite Z.bits_0].
    rewrite Z.pow2_bits_eqb, Z.eqb_refl by lia. reflexivity.
  - rewrite andb_false_r. destruct (Z.testbit x a); [|by rewrite Z.bits_0].
    rewrite Z.pow2_bits_eqb by lia. symmetry. by apply Z.eqb_neq.
Qed.

Lemma pow2_nonzero (a : Z) : 0 <= a -> 2 ^ a <> 0.
Proof. intros. apply Z.pow_nonzero; lia. Qed.

(** A single-bit flag that is set when that bit of [enable] is, is that bit
    of [enable]. *)
Lemma flag_of_test (enable flag : Z) :
  (exists a, 0 <= a /\ flag = 2 ^ a) ->
  (if c_truth (Z.land enable flag) =? 0 then 0 else flag)
  = Z.land enable flag.
Proof.
  intros (a & Ha & ->). rewrite land_pow2 by exact Ha. unfold c_truth.
  pose proof (pow2_nonzero a Ha).
  destruct (Z.testbit enable a); [|reflexivity].
  destruct (Z.eqb_spec (2 ^ a) 0); [lia|]. reflexivity.
Qed.

Section LoopbackGetFacts.

Variables RX_TO_TX TX_TO_RX LTSSM : Z.

(** A run of the loopback state query, by the answers of the device. *)
Lemma loopback_get_run dev port_id enabled ltssm_speed w :
  let g1 := LoopbackGetInt port_id DIAG_LOOPBACK_RX_TO_TX in
  let g2 := LoopbackGetInt port_id DIAG_LOOPBACK_TX_TO_RX in
  let g3 := LoopbackGetLtssm port_id in
  let t := dw_trace w in
  let a1 := dd_exec dev t g1 in
  let a2 := dd_exec dev (t ++ [DCmd g1]) g2 in
  let a3 := dd_exec dev (t ++ [DCmd g1; DCmd g2]) g3 in
  let flag (on mask : Z) := if on =? 0 then 0 else mask in
  let en := Z.lor (Z.lor (flag a1.2 RX_TO_TX) (flag a2.2 TX_TO_RX))
              (flag (lt_enabled a3.2) LTSSM) in
  let after evs := {| dw_trace := t ++ evs; dw_errno := dw_errno w |} in
  switchtec_diag_loopback_get RX_TO_TX TX_TO_RX LTSSM dev port_id enabled
    ltssm_speed w
  = if a1.1 =? 0 then
      if a2.1 =? 0 then
        if a3.1 =? 0 then
          ((0, (fun _ => en) <$> enabled,
               (fun _ => lt_speed a3.2) <$> ltssm_speed),
           after [DCmd g1; DCmd g2; DCmd g3])
        else ((a3.1, enabled, ltssm_speed), after [DCmd g1; DCmd g2; DCmd g3])
      else ((a2.1, enabled, ltssm_speed), after [DCmd g1; DCmd g2])
    else ((a1.1, enabled, ltssm_speed), after [DCmd g1]).
Proof.
  intros g1 g2 g3 t a1 a2 a3 flag en after.
  subst a1 a2 a3 en after. unfold switchtec_diag_loopback_get.
  fold g1 g2 g3. dstep. fold t.
  destruct (dd_exec dev t g1) as [s1 e1]. cbn [fst snd].
  destruct (s1 =? 0); cbn [negb]; [|reflexivity].
  dstep. destruct (dd_exec dev (t ++ [DCmd g1]) g2) as [s2 e2]. cbn [fst snd].
  destruct (s2 =? 0); cbn [negb]; [|by rewrite <- app_assoc].
  dstep. rewrite <- !app_assoc. cbn [app].
  destruct (dd_exec dev (t ++ [DCmd g1; DCmd g2]) g3) as [s3 e3].
  cbn [fst snd]. destruct (s3 =? 0); cbn [negb]; [|reflexivity].
  unfold dret, flag. f_equal. f_equal. f_equal.
  destruct enabled; [|reflexivity]. cbn. f_equal.
  destruct (e1 =? 0), (e2 =? 0), (lt_enabled e3 =? 0); cbn [negb];
    rewrite ?Z.lor_0_l, ?Z.lor_0_r; reflexivity.
Qed.

(** X16. Reading the loopback state queries RX->TX, TX->RX and LTSSM in
    that order, each after the ones before it, and stops at the first
    query the device rejects: the call returns the status of that query,
    issues nothing after it and leaves [*enabled] and [*ltssm_speed] as
    they were.  When the device accepts all three the call returns 0, the
    mask stored is the or of the flags whose query reported a nonzero
    state, the speed stored is the one the LTSSM query reported, and a
    null pointer is skipped.  [errno] is never touched. *)
Theorem loopback_get_result dev port_id enabled ltssm_speed w :
  let g1 := LoopbackGetInt port_id DIAG_LOOPBACK_RX_TO_TX in
  let g2 := LoopbackGetInt port_id DIAG_LOOPBACK_TX_TO_RX in
  let g3 := LoopbackGetLtssm port_id in
  let t := dw_trace w in
  let a1 := dd_exec dev t g1 in
  let a2 := dd_exec dev (t ++ [DCmd g1]) g2 in
  let a3 := dd_exec dev (t ++ [DCmd g1; DCmd g2]) g3 in
  let flag (on mask : Z) := if on =? 0 then 0 else mask in
  let en := Z.lor (Z.lor (flag a1.2 RX_TO_TX) (flag a2.2 TX_TO_RX))
              (flag (lt_enabled a3.2) LTSSM) in
  let after evs := {| dw_trace := t ++ evs; dw_errno := dw_errno w |} in
  switchtec_diag_loopback_get RX_TO_TX TX_TO_RX LTSSM dev port_id enabled
    ltssm_speed w
  = if a1.1 =? 0 then
      if a2.1 =? 0 then
        if a3.1 =? 0 then
          ((0, match enabled with Some _ => Some en | None => None end,
               match ltssm_speed with
               | Some _ => Some (lt_speed a3.2)
               | None => None
               end),
           after [DCmd g1; DCmd g2; DCmd g3])
        else ((a3.1, enabled, ltssm_speed), after [DCmd g1; DCmd g2; DCmd g3])
      else ((a2.1, enabled, ltssm_speed), after [DCmd g1; DCmd g2])
    else ((a1.1, enabled, ltssm_speed), after [DCmd g1]).
Proof.
  intros g1 g2 g3 t a1 a2 a3 flag en after.
  pose proof (loopback_get_run dev port_id enabled ltssm_speed w) as R.
  cbn zeta in R. rewrite R. fold g1 g2 g3 t a1 a2 a3.
  by destruct enabled, ltssm_speed.
Qed.

(** X17. Set, then get.  When each of the three flags is a single bit and
    the device reports, for each mode, what the three requests of a
    successful loopback-set asked for, reading the state gives back the
    [enable] argument of the set, restricted to the three flags, and the
    LTSSM speed of the set. *)
Theorem loopback_set_get_round_trip dev port_id enable ltssm_speed w
    ddev dw old_enabled old_speed :
  let set := switchtec_diag_loopback_set RX_TO_TX TX_TO_RX LTSSM dev port_id
               enable ltssm_speed w in
  (exists a, 0 <= a /\ RX_TO_TX = 2 ^ a) ->
  (exists a, 0 <= a /\ TX_TO_RX = 2 ^ a) ->
  (exists a, 0 <= a /\ LTSSM = 2 ^ a) ->
  loopback_reports ddev (dw_trace dw) port_id
    (drop (length (w_trace w)) (w_trace set.2)) ->
  (switchtec_diag_loopback_get RX_TO_TX TX_TO_RX LTSSM ddev port_id
     (Some old_enabled) (Some old_speed) dw).1
  = (0, Some (Z.land enable (Z.lor (Z.lor RX_TO_TX TX_TO_RX) LTSSM)),
        Some ltssm_speed).
Proof.
  intros set Hrx Htx Hlt. subst set.
  unfold switchtec_diag_loopback_set.
  mstep. destruct (dev_exec dev (w_trace w) _) as [s1 []].
  destruct (s1 =? 0); cbn [negb].
  2:{ cbn [ret snd w_trace]. rewrite drop_app_length. intros []. }
  mstep. destruct (dev_exec dev _ _) as [s2 []].
  destruct (s2 =? 0); cbn [negb].
  2:{ cbn [ret snd w_trace]. rewrite <- app_assoc, drop_app_length. intros []. }
  mstep. destruct (dev_exec dev _ _) as [s3 []].
  assert (T : forall r : Z,
            w_trace (ret r {| w_trace :=
                               ((w_trace w ++
                                 [EvCmd (LoopbackSetInt port_id DIAG_LOOPBACK_RX_TO_TX
                                           (c_truth (Z.land enable RX_TO_TX)))]) ++
                                [EvCmd (LoopbackSetInt port_id DIAG_LOOPBACK_TX_TO_RX
                                          (c_truth (Z.land enable TX_TO_RX)))]) ++
                               [EvCmd (LoopbackSetLtssm port_id
                                         (c_truth (Z.land enable LTSSM))
                                         ltssm_speed)];
                             w_errno := w_errno w |}).2
            = w_trace w ++
              [EvCmd (LoopbackSetInt port_id DIAG_LOOPBACK_RX_TO_TX
                        (c_truth (Z.land enable RX_TO_TX)));
               EvCmd (LoopbackSetInt port_id DIAG_LOOPBACK_TX_TO_RX
                        (c_truth (Z.land enable TX_TO_RX)));
               EvCmd (LoopbackSetLtssm port_id (c_truth (Z.land enable LTSSM))
                        ltssm_speed)]).
  { intros r. cbn [ret snd w_trace]. by rewrite <- !app_assoc. }
  destruct (s3 =? 0); cbn [negb]; rewrite T, drop_app_length;
    cbn [loopback_reports]; intros (E1 & E2 & E3);
    rewrite loopback_get_run; cbn zeta; rewrite E1, E2, E3;
    cbn [fst snd Z.eqb lt_enabled lt_speed fmap option_fmap option_map];
    f_equal; f_equal; f_equal;
    rewrite !Z.land_lor_distr_r;
    rewrite (flag_of_test enable RX_TO_TX Hrx),
      (flag_of_test enable TX_TO_RX Htx), (flag_of_test enable LTSSM Hlt);
    reflexivity.
Qed.

End LoopbackGetFacts.

(** Flags 1, 2 and 4 on a device that rejects the TX->RX query with
    status 5: the call returns 5 after two queries and leaves both outputs
    as they were. *)
Example loopback_get_second_rejected :
  let dev := diag_sample_dev (1, 1, 1, 3) (fun _ => 0) second_loopback_get in
  switchtec_diag_loopback_get 1 2 4 dev 7 (Some 0) (Some 0) diag_world0
  = ((5, Some 0, Some 0),
     {| dw_trace := [DCmd (LoopbackGetInt 7 DIAG_LOOPBACK_RX_TO_TX);
                     DCmd (LoopbackGetInt 7 DIAG_LOOPBACK_TX_TO_RX)];
        dw_errno := 0 |}).
Proof. reflexivity. Qed.

(** Flags 1, 2 and 4; a set with [enable = 13] and speed 3 on a device that
    then reports RX->TX on, TX->RX off, LTSSM on at speed 3: the state read
    back is 5 = 13 & 7. *)
Lemma loopback_set_get_round_trip_witness :
  let dev := sample_dev SWITCHTEC_GEN4 0 never in
  let ddev := diag_sample_dev (1, 0, 1, 3) (fun _ => 0) diag_never in
  loopback_reports ddev [] 7
    (w_trace (switchtec_diag_loopback_set 1 2 4 dev 7 13 3 world0).2) /\
  (switchtec_diag_loopback_get 1 2 4 ddev 7 (Some 0) (Some 0) diag_world0).1
  = (0, Some 5, Some 3).
Proof.
  intros dev ddev.
  assert (R : loopback_reports ddev (dw_trace diag_world0) 7
                (drop (length (w_trace world0))
                   (w_trace (switchtec_diag_loopback_set 1 2 4 dev 7 13 3
                               world0).2))) by (cbn; done).
  split; [exact R|].
  exact (loopback_set_get_round_trip 1 2 4 dev 7 13 3 world0 ddev diag_world0
           0 0
           (ex_intro _ 0 (conj (Z.le_refl 0) eq_refl))
           (ex_intro _ 1 (conj (Z.le_0_1) eq_refl))
           (ex_intro _ 2 (conj (Z.le_0_2) eq_refl)) R).
Defined.

(** ** Receiver objects *)

(** X18. The two receiver dumps refuse a null result pointer and a link
    that is neither current nor previous with -1 and [errno = -EINVAL],
    before any request.  When the device rejects the one request a dump
    issues, the dump returns -1, whatever the status of the device and
    whatever the device would answer to another request, and leaves the
    result and [errno] alone. *)
Theorem rcvr_dump_failures dfe_len dev port_id lane_id l
    (ro : switchtec_rcvr_obj) (re : switchtec_rcvr_ext)
    (po : option switchtec_rcvr_obj) (pe : option switchtec_rcvr_ext) w :
  let refuse {A} (res : option A) :=
    ((-1, res), {| dw_trace := dw_trace w; dw_errno := - EINVAL |}) in
  let reject {A} (q : diag_request) (res : option A) :=
    ((-1, res), {| dw_trace := dw_trace w ++ [DCmd q];
                   dw_errno := dw_errno w |}) in
  let rejects (q : diag_request) := (dd_exec dev (dw_trace w) q).1 <> 0 in
  let prev := match l with
              | SWITCHTEC_DIAG_LINK_PREVIOUS => true
              | _ => false
              end in
  let q := if prev then ExtRcvrObjDumpPrev port_id lane_id
           else RcvrObjDump port_id lane_id in
  (switchtec_diag_rcvr_obj dfe_len dev port_id lane_id l None w = refuse None /\
   switchtec_diag_rcvr_ext dev port_id lane_id l None w = refuse None /\
   switchtec_diag_rcvr_obj dfe_len dev port_id lane_id
     SWITCHTEC_DIAG_LINK_INVALID po w = refuse po /\
   switchtec_diag_rcvr_ext dev port_id lane_id
     SWITCHTEC_DIAG_LINK_INVALID pe w = refuse pe) /\
  (l <> SWITCHTEC_DIAG_LINK_INVALID ->
   (rejects q ->
    switchtec_diag_rcvr_obj dfe_len dev port_id lane_id l (Some ro) w
    = reject q (Some ro)) /\
   (rejects (ExtRcvrExt prev port_id lane_id) ->
    switchtec_diag_rcvr_ext dev port_id lane_id l (Some re) w
    = reject (ExtRcvrExt prev port_id lane_id) (Some re))).
Proof.
  cbn zeta. split.
  - repeat split; by destruct l, po, pe.
  - intros Hl.
    split; intros Hrej; destruct l; try done;
      cbn [switchtec_diag_rcvr_obj switchtec_diag_rcvr_ext]; dstep;
      match goal with |- context [dd_exec dev (dw_trace w) ?r] =>
        destruct (dd_exec dev (dw_trace w) r) as [s out] end;
      cbn [fst] in Hrej; by destruct (Z.eqb_spec s 0).
Qed.

(** The previous link of port 1, lane 2, on a device that rejects with
    status 5 the dump of the previous link only: the receiver dump fails,
    the extended dump of the same lane succeeds. *)
Lemma rcvr_dump_failures_witness :
  let dev := diag_sample_dev (0, 0, 0, 0) (fun _ => 0) rcvr_prev_dump in
  (dd_exec dev [] (ExtRcvrObjDumpPrev 1 2)).1 <> 0 /\
  (dd_exec dev [] (ExtRcvrExt true 1 2)).1 = 0 /\
  switchtec_diag_rcvr_obj 7 dev 1 2 SWITCHTEC_DIAG_LINK_PREVIOUS
    (Some rcvr_obj_zero) diag_world0
  = ((-1, Some rcvr_obj_zero),
     {| dw_trace := [DCmd (ExtRcvrObjDumpPrev 1 2)]; dw_errno := 0 |}) /\
  (switchtec_diag_rcvr_ext dev 1 2 SWITCHTEC_DIAG_LINK_PREVIOUS
     (Some {| ctle2_rx_mode := 9; dtclk_9 := 9; dtclk_8_6 := 9;
              dtclk_5 := 9 |}) diag_world0).1.1 = 0.
Proof.
  intros dev.
  assert (R : (dd_exec dev (dw_trace diag_world0)
                 (ExtRcvrObjDumpPrev 1 2)).1 <> 0) by (cbn; discriminate).
  split; [exact R|]. split; [reflexivity|]. split; [|reflexivity].
  exact (proj1 (proj2 (rcvr_dump_failures 7 dev 1 2
                         SWITCHTEC_DIAG_LINK_PREVIOUS rcvr_obj_zero
                         {| ctle2_rx_mode := 0; dtclk_9 := 0; dtclk_8_6 := 0;
                            dtclk_5 := 0 |} None None diag_world0)
                  ltac:(discriminate)) R).
Defined.

(** ** MRPC permission table *)

(** The test of the loop reads bit [i mod 32] of word [i / 32]. *)
Lemma perm_bit_testbit (perms : nat -> Z) (i : nat) :
  perm_bit perms i
  = Z.testbit (perms (i / 32)%nat) (Z.of_nat (i mod 32)).
Proof.
  unfold perm_bit.
  rewrite Z.shiftr_div_pow2 by lia. change (2 ^ 5) with (Z.of_nat 32).
  rewrite <- Nat2Z.inj_div, Nat2Z.id.
  change 31 with (Z.ones 5). rewrite Z.land_ones by lia.
  change (2 ^ 5) with (Z.of_nat 32). rewrite <- Nat2Z.inj_mod.
  rewrite Z.shiftl_1_l, land_pow2 by lia.
  destruct (Z.testbit _ _); [|reflexivity].
  pose proof (pow2_nonzero (Z.of_nat (i mod 32)) ltac:(lia)).
  by destruct (Z.eqb_spec (2 ^ Z.of_nat (i mod 32)) 0).
Qed.

(** A loop that rewrites the entries below [n] in place. *)
Lemma foldl_alter_lookup {A} (g : nat -> A -> A) (n : nat) (l : list A)
    (j : nat) :
  foldl (fun t i => alter (g i) i t) l (seq 0 n) !! j
  = if decide (j < n)%nat then g j <$> l !! j else l !! j.
Proof.
  induction n as [|n IH].
  - cbn. by rewrite decide_False by lia.
  - rewrite seq_S, foldl_app. cbn [foldl Nat.add].
    destruct (decide (j = n)) as [->|N].
    + rewrite list_lookup_alter, IH. repeat case_decide; done || lia.
    + rewrite list_lookup_alter_ne by done. rewrite IH.
      repeat case_decide; done || lia.
Qed.

Lemma foldl_alter_length {A} (g : nat -> A -> A) (idxs : list nat)
    (l : list A) :
  length (foldl (fun t i => alter (g i) i t) l idxs) = length l.
Proof.
  revert l. induction idxs as [|i idxs IH]; intros l; [reflexivity|].
  cbn [foldl]. by rewrite IH, length_alter.
Qed.

Section PermTableFacts.

Variable MRPC_MAX_ID : Z.
Variable switchtec_mrpc_table : nat -> switchtec_mrpc.

(** X19. A permission table read the device rejects returns -1 and leaves
    [table] alone.  Otherwise it returns 0 and, for every command id [j]
    below [MRPC_MAX_ID], entry [j] has a tag exactly when bit [j mod 32] of
    word [j / 32] of the bitmap is set: the entry of the library's table,
    or the UNKNOWN entry when the library has no tag for the id.  An entry
    without permission loses tag and description and keeps its [reserved]
    flag; the entries from [MRPC_MAX_ID] on are left as they were. *)
Theorem perm_table_tags dev table w :
  let s := (dd_exec dev (dw_trace w) PermTableGet).1 in
  let perms := (dd_exec dev (dw_trace w) PermTableGet).2 in
  let res := switchtec_diag_perm_table MRPC_MAX_ID switchtec_mrpc_table dev
               table w in
  let unknown := {| tag := Some "UNKNOWN"%string;
                    desc := Some "Unknown MRPC Command"%string;
                    reserved := true |} in
  res.2 = {| dw_trace := dw_trace w ++ [DCmd PermTableGet];
             dw_errno := dw_errno w |} /\
  (s <> 0 -> res.1 = (-1, table)) /\
  (s = 0 ->
   res.1.1 = 0 /\ length res.1.2 = length table /\
   forall (j : nat) old, table !! j = Some old ->
     if decide (Z.of_nat j < MRPC_MAX_ID) then
       exists new, res.1.2 !! j = Some new /\
         (is_Some (tag new)
          <-> Z.testbit (perms (j / 32)%nat) (Z.of_nat (j mod 32)) = true) /\
         (is_Some (tag new) ->
          new = match tag (switchtec_mrpc_table j) with
                | Some _ => switchtec_mrpc_table j
                | None => unknown
                end) /\
         (tag new = None -> desc new = None /\ reserved new = reserved old)
     else res.1.2 !! j = Some old).
Proof.
  intros s perms res unknown. subst s perms res.
  unfold switchtec_diag_perm_table. dstep.
  destruct (dd_exec dev (dw_trace w) PermTableGet) as [s perms].
  cbn [fst snd]. destruct (Z.eqb_spec s 0) as [->|N]; cbn [negb dret fst snd].
  2:{ split; [reflexivity|]. split; [done|]. intros; lia. }
  split; [reflexivity|]. split; [done|]. intros _.
  split; [reflexivity|]. split; [apply foldl_alter_length|].
  intros j old Hj. rewrite foldl_alter_lookup, Hj.
  destruct (decide (Z.of_nat j < MRPC_MAX_ID)) as [Hlt|Hge].
  - rewrite decide_True by lia. cbn [fmap option_fmap option_map].
    eexists. split; [reflexivity|].
    unfold perm_entry. rewrite perm_bit_testbit.
    destruct (Z.testbit (perms (j / 32)%nat) (Z.of_nat (j mod 32))).
    + destruct (tag (switchtec_mrpc_table j)) as [t|] eqn:Et.
      * rewrite Et. split; [split; [done|by eexists]|]. split; [done|].
        intros E. congruence.
      * cbn [tag desc reserved]. split; [split; [done|by eexists]|].
        split; [done|]. discriminate.
    + cbn [tag desc reserved]. split; [split; [by intros []|discriminate]|].
      split; [by intros []|]. done.
  - by rewrite decide_False by lia.
Qed.

End PermTableFacts.

(** Four command ids, the bitmap word 6 (ids 1 and 2), a library that
    knows id 1 only. *)
Lemma perm_table_tags_witness :
  let lib (i : nat) := {| tag := if decide (i = 1%nat) then Some "ECHO"%string
                                 else None;
                          desc := None; reserved := false |} in
  let stale := {| tag := Some "OLD"%string; desc := Some "old"%string;
                  reserved := true |} in
  let dev := diag_sample_dev (0, 0, 0, 0) (fun _ => 6) diag_never in
  let res := switchtec_diag_perm_table 4 lib dev (replicate 5 stale)
               diag_world0 in
  (dd_exec dev [] PermTableGet).1 = 0 /\
  res.1.1 = 0 /\
  length res.1.2 = 5%nat /\
  res.1.2
  = [ {| tag := None; desc := None; reserved := true |};
      lib 1%nat;
      {| tag := Some "UNKNOWN"%string;
         desc := Some "Unknown MRPC Command"%string; reserved := true |};
      {| tag := None; desc := None; reserved := true |};
      stale ].
Proof.
  intros lib stale dev res.
  assert (S : (dd_exec dev (dw_trace diag_world0) PermTableGet).1 = 0)
    by reflexivity.
  destruct (proj2 (proj2 (perm_table_tags 4 lib dev (replicate 5 stale)
                            diag_world0)) S) as (R & L & _).
  split; [exact S|]. split; [exact R|]. split; [exact L|]. reflexivity.
Defined.

(** * The register map: from a PFF instance to a port *)

Section PffToPortFacts.

Variable SWITCHTEC_PFF_PORT_VEP : Z.
Variable DSP_PFF_INST_LEN : nat.

Lemma dsp_scan_none pcfg pff (a len : nat) :
  (forall i : nat, (a <= i < a + len)%nat ->
     pff_eq (dsp_pff_inst_id pcfg i) pff = false) ->
  dsp_scan pcfg pff (seq a len) (-1) = -1.
Proof.
  revert a. induction len as [|len IH]; intros a H; [reflexivity|].
  cbn [seq dsp_scan]. rewrite H by lia. cbn [negb].
  apply IH. intros i Hi. apply H. lia.
Qed.

Lemma dsp_scan_first pcfg pff (a len i : nat) port :
  (a <= i < a + len)%nat ->
  pff_eq (dsp_pff_inst_id pcfg i) pff = true ->
  (forall j : nat, (a <= j < i)%nat ->
     pff_eq (dsp_pff_inst_id pcfg j) pff = false) ->
  dsp_scan pcfg pff (seq a len) port = Z.of_nat i + 1.
Proof.
  revert a. induction len as [|len IH]; intros a Hi Ht Hf; [lia|].
  cbn [seq dsp_scan]. destruct (decide (a = i)) as [->|N].
  - by rewrite Ht.
  - rewrite Hf by lia. cbn [negb]. apply IH; [lia|exact Ht|].
    intros j Hj. apply Hf. lia.
Qed.

Lemma pff_part_loop_missing dev pff (a n : nat) partition w :
  (forall p : nat, (a <= p < a + n)%nat ->
     pff_unmapped DSP_PFF_INST_LEN (part_cfg dev p) pff) ->
  pff_part_loop SWITCHTEC_PFF_PORT_VEP DSP_PFF_INST_LEN dev pff (seq a n)
    partition (-1) w
  = ((- EINVAL,
      match n with O => partition | S _ => Z.of_nat (a + n - 1) end, -1),
     {| w_trace := w_trace w; w_errno := EINVAL |}).
Proof.
  revert a partition. induction n as [|n IH]; intros a partition H;
    [reflexivity|].
  cbn [seq pff_part_loop].
  destruct (H a ltac:(lia)) as (U & V & Dn). rewrite U, V.
  rewrite dsp_scan_none by (intros i Hi; apply Dn; lia).
  cbn [Z.eqb negb Pos.eqb].
  rewrite IH by (intros p Hp; apply H; lia).
  destruct n; do 3 f_equal; lia.
Qed.

Lemma pff_part_loop_found dev pff (a n part : nat) port partition w :
  (a <= part < a + n)%nat ->
  (forall p : nat, (a <= p < part)%nat ->
     pff_unmapped DSP_PFF_INST_LEN (part_cfg dev p) pff) ->
  pff_port SWITCHTEC_PFF_PORT_VEP DSP_PFF_INST_LEN (part_cfg dev part) pff
    port ->
  pff_part_loop SWITCHTEC_PFF_PORT_VEP DSP_PFF_INST_LEN dev pff (seq a n)
    partition (-1) w
  = ((0, Z.of_nat part, port), w).
Proof.
  revert a partition. induction n as [|n IH]; intros a partition Hp Hu Hport;
    [lia|].
  cbn [seq pff_part_loop]. destruct (decide (a = part)) as [->|N].
  - unfold pff_port in Hport.
    destruct (pff_eq (usp_pff_inst_id (part_cfg dev part)) pff);
      [by subst port|].
    destruct (pff_eq (vep_pff_inst_id (part_cfg dev part)) pff);
      [by subst port|].
    destruct Hport as (i & Hi & -> & Ht & Hf).
    rewrite (dsp_scan_first _ _ 0 _ i) by (done || lia || (intros; apply Hf; lia)).
    destruct (Z.eqb_spec (Z.of_nat i + 1) (-1)); [lia|]. reflexivity.
  - destruct (Hu a ltac:(lia)) as (U & V & Dn). rewrite U, V.
    rewrite dsp_scan_none by (intros i Hi; apply Dn; lia).
    cbn [Z.eqb negb Pos.eqb].
    apply IH; [lia| |exact Hport]. intros p Hp'. apply Hu. lia.
Qed.

(** X20. When a register of some partition holds the PFF instance, the
    lookup returns 0 and stores the first such partition and, in it, the
    first such register: the upstream port gives port 0, the virtual
    endpoint [SWITCHTEC_PFF_PORT_VEP], downstream port [i] port [i + 1].
    [errno] is untouched. *)
Theorem pff_to_port_found dev pff partition (part : nat) port w :
  Z.of_nat part < partition_count dev ->
  (forall p : nat, (p < part)%nat ->
     pff_unmapped DSP_PFF_INST_LEN (part_cfg dev p) pff) ->
  pff_port SWITCHTEC_PFF_PORT_VEP DSP_PFF_INST_LEN (part_cfg dev part) pff
    port ->
  switchtec_pff_to_port SWITCHTEC_PFF_PORT_VEP DSP_PFF_INST_LEN dev pff
    partition w
  = ((0, Z.of_nat part, port), w).
Proof.
  intros Hp Hu Hport. unfold switchtec_pff_to_port.
  apply pff_part_loop_found; [lia| |exact Hport].
  intros p Hp'. apply Hu. lia.
Qed.

(** X21. When no register of any partition holds the PFF instance, the
    lookup returns [-EINVAL] with [errno = EINVAL] and [*port = -1];
    [*partition] is left at the last partition, or untouched when the
    device has none. *)
Theorem pff_to_port_missing dev pff partition w :
  (forall p : nat, Z.of_nat p < partition_count dev ->
     pff_unmapped DSP_PFF_INST_LEN (part_cfg dev p) pff) ->
  switchtec_pff_to_port SWITCHTEC_PFF_PORT_VEP DSP_PFF_INST_LEN dev pff
    partition w
  = ((- EINVAL,
      if 0 <? partition_count dev then partition_count dev - 1 else partition,
      -1),
     {| w_trace := w_trace w; w_errno := EINVAL |}).
Proof.
  intros Hu. unfold switchtec_pff_to_port.
  rewrite pff_part_loop_missing by (intros p Hp; apply Hu; lia).
  destruct (Z.ltb_spec 0 (partition_count dev)) as [Hc|Hc].
  - destruct (Z.to_nat (partition_count dev)) eqn:E; [lia|].
    do 3 f_equal. lia.
  - replace (Z.to_nat (partition_count dev)) with 0%nat by lia. reflexivity.
Qed.

End PffToPortFacts.

(** Instance 23 is downstream port 1 of partition 1; so is the [int] that
    has the same 32 bits. *)
Lemma pff_to_port_found_witness :
  pff_port 100 4 (part_cfg sample_gas 1%nat) 23 2 /\
  switchtec_pff_to_port 100 4 sample_gas 23 (-5) world0 = ((0, 1, 2), world0) /\
  switchtec_pff_to_port 100 4 sample_gas (23 - 2 ^ 32) (-5) world0
  = ((0, 1, 2), world0).
Proof.
  assert (U : forall pff, pff mod 2 ^ 32 = 23 ->
            forall p : nat, (p < 1)%nat ->
              pff_unmapped 4 (part_cfg sample_gas p) pff).
  { intros pff E p Hp. assert (p = 0%nat) as -> by lia.
    unfold pff_unmapped, pff_eq. rewrite E. cbn.
    split; [reflexivity|]. split; [reflexivity|].
    intros i Hi. apply Z.eqb_neq. lia. }
  assert (P : forall pff, pff mod 2 ^ 32 = 23 ->
            pff_port 100 4 (part_cfg sample_gas 1%nat) pff 2).
  { intros pff E. unfold pff_port, pff_eq. rewrite E. cbn.
    exists 1%nat. split; [lia|]. split; [reflexivity|]. split; [reflexivity|].
    intros j Hj. assert (j = 0%nat) as -> by lia. reflexivity. }
  split; [exact (P 23 eq_refl)|]. split.
  - exact (pff_to_port_found 100 4 sample_gas 23 (-5) 1%nat 2 world0
             ltac:(cbn; lia) (U 23 eq_refl) (P 23 eq_refl)).
  - exact (pff_to_port_found 100 4 sample_gas (23 - 2 ^ 32) (-5) 1%nat 2 world0
             ltac:(cbn; lia) (U (23 - 2 ^ 32) eq_refl)
             (P (23 - 2 ^ 32) eq_refl)).
Defined.

(** No register holds instance 99. *)
Lemma pff_to_port_missing_witness :
  (forall p : nat, Z.of_nat p < partition_count sample_gas ->
     pff_unmapped 4 (part_cfg sample_gas p) 99) /\
  switchtec_pff_to_port 100 4 sample_gas 99 (-5) world0
  = ((-22, 1, -1), {| w_trace := []; w_errno := 22 |}).
Proof.
  assert (U : forall p : nat, Z.of_nat p < partition_count sample_gas ->
            pff_unmapped 4 (part_cfg sample_gas p) 99).
  { intros p Hp. cbn in Hp. unfold pff_unmapped, pff_eq.
    change (99 mod 2 ^ 32) with 99. cbn [sample_gas part_cfg usp_pff_inst_id
      vep_pff_inst_id dsp_pff_inst_id].
    split; [apply Z.eqb_neq; lia|]. split; [apply Z.eqb_neq; lia|].
    intros i Hi. apply Z.eqb_neq. lia. }
  split; [exact U|].
  exact (pff_to_port_missing 100 4 sample_gas 99 (-5) world0 U).
Defined.

(** * Flash partitions *)

Section FlashPartFacts.

Variables IMG0_RUNNING IMG1_RUNNING CFG0_RUNNING CFG1_RUNNING : Z.
Variables RUNNING ACTIVE : Z.

Lemma lor_pow2_bit (x a b : Z) :
  0 <= a -> 0 <= b ->
  Z.testbit (Z.lor x (2 ^ a)) b = Z.testbit x b || (a =? b).
Proof. intros. by rewrite Z.lor_spec, Z.pow2_bits_eqb. Qed.

(** X22. A query for a partition type the function does not know returns
    [-EINVAL] with the structure cleared.  For the five types it knows it
    returns 0 and, the two flags being different single bits, the ACTIVE
    bit is set exactly when the address of the partition equals the active
    address it is compared with, which for the NVLOG partition is
    0xFFFFFFFF, and the RUNNING bit is never set for that partition.  A
    DAT1 query reports address and length of the cfg0 partition, as a DAT0
    query does: no query reads the cfg1 registers. *)
Theorem flash_part_result dev part (a b : Z) :
  let flash_part d :=
    switchtec_flash_part IMG0_RUNNING IMG1_RUNNING CFG0_RUNNING CFG1_RUNNING
      RUNNING ACTIVE d part in
  let r := flash_part dev in
  0 <= a -> 0 <= b -> a <> b -> RUNNING = 2 ^ a -> ACTIVE = 2 ^ b ->
  (forall c, flash_part (with_cfg1 dev c) = r) /\
  match part with
  | SWITCHTEC_FW_TYPE_OTHER _ =>
      r = (- EINVAL, {| image_addr := 0; image_len := 0; active := 0 |})
  | _ =>
      r.1 = 0 /\
      (Z.testbit (active r.2) b = true
       <-> image_addr r.2 = flash_active_address dev part) /\
      (part = SWITCHTEC_FW_TYPE_NVLOG -> Z.testbit (active r.2) a = false) /\
      (part = SWITCHTEC_FW_TYPE_DAT1 ->
       image_addr r.2 = pi_address (cfg0 (flash_info dev)) /\
       image_len r.2 = pi_length (cfg0 (flash_info dev)))
  end.
Proof.
  intros flash_part r Ha Hb Hab -> ->. subst r flash_part. split; [by destruct part|].
  assert (Eab : (a =? b) = false) by (apply Z.eqb_neq; lia).
  assert (F : forall addr reg code p,
            let info := set_fw_info_part
                          {| image_addr := 0; image_len := 0; active := 0 |} p in
            let res := flash_active (2 ^ b) addr
                         (flash_running (2 ^ a) reg code info) in
            res.1 = 0 /\ image_addr res.2 = pi_address p /\
            image_len res.2 = pi_length p /\
            (Z.testbit (active res.2) b = true <-> pi_address p = addr)).
  { intros addr reg code p. cbn zeta.
    unfold flash_active, flash_running, set_fw_info_part.
    destruct (reg =? code); cbn [image_addr image_len active fst snd];
      destruct (Z.eqb_spec (pi_address p) addr);
      cbn [image_addr image_len active];
      rewrite ?lor_pow2_bit, ?Z.bits_0, ?Z.eqb_refl, ?Eab by lia;
      cbn [orb]; repeat split; done. }
  assert (G : forall addr p,
            let info := set_fw_info_part
                          {| image_addr := 0; image_len := 0; active := 0 |} p in
            let res := flash_active (2 ^ b) addr info in
            res.1 = 0 /\ image_addr res.2 = pi_address p /\
            Z.testbit (active res.2) a = false /\
            (Z.testbit (active res.2) b = true <-> pi_address p = addr)).
  { intros addr p. cbn zeta. unfold flash_active, set_fw_info_part.
    assert (Eba : (b =? a) = false) by (apply Z.eqb_neq; lia).
    cbn [image_addr image_len active fst snd].
    destruct (Z.eqb_spec (pi_address p) addr);
      cbn [image_addr image_len active];
      rewrite ?lor_pow2_bit, ?Z.bits_0, ?Z.eqb_refl, ?Eba by lia;
      cbn [orb]; repeat split; done. }
  destruct part; cbn [switchtec_flash_part flash_active_address];
    try reflexivity.
  - destruct (F (active_img_address (flash_info dev))
                (img_running (sys_info dev)) IMG0_RUNNING
                (img0 (flash_info dev))) as (R & A & L & B).
    rewrite A. split; [exact R|]. split; [exact B|]. split; discriminate.
  - destruct (F (active_img_address (flash_info dev))
                (img_running (sys_info dev)) IMG1_RUNNING
                (img1 (flash_info dev))) as (R & A & L & B).
    rewrite A. split; [exact R|]. split; [exact B|]. split; discriminate.
  - destruct (F (active_cfg_address (flash_info dev))
                (cfg_running (sys_info dev)) CFG0_RUNNING
                (cfg0 (flash_info dev))) as (R & A & L & B).
    rewrite A. split; [exact R|]. split; [exact B|]. split; discriminate.
  - destruct (F (active_cfg_address (flash_info dev))
                (cfg_running (sys_info dev)) CFG1_RUNNING
                (cfg0 (flash_info dev))) as (R & A & L & B).
    split; [exact R|]. split; [by rewrite A|]. split; [discriminate|].
    intros _. split; [exact A|exact L].
  - destruct (G (2 ^ 32 - 1) (nvlog (flash_info dev))) as (R & A & N & B).
    split; [exact R|]. split; [by rewrite A|]. split; [done|]. discriminate.
Qed.

End FlashPartFacts.

(** With RUNNING = 1 and ACTIVE = 2: the DAT1 query of the sample device
    reports the cfg0 partition, which is the active one, and the running
    configuration is cfg1. *)
Lemma flash_part_result_witness :
  switchtec_flash_part 2 3 4 5 1 2 sample_flash SWITCHTEC_FW_TYPE_DAT1
  = (0, {| image_addr := 65536; image_len := 10; active := 3 |}) /\
  image_addr (switchtec_flash_part 2 3 4 5 1 2 sample_flash
                SWITCHTEC_FW_TYPE_DAT1).2
  = pi_address (cfg0 (flash_info sample_flash)) /\
  Z.testbit (active (switchtec_flash_part 2 3 4 5 1 2 sample_flash
                       SWITCHTEC_FW_TYPE_NVLOG).2) 1 = true.
Proof.
  pose proof (flash_part_result 2 3 4 5 1 2 sample_flash
                SWITCHTEC_FW_TYPE_DAT1 0 1 ltac:(lia) ltac:(lia) ltac:(lia)
                eq_refl eq_refl) as (_ & _ & _ & _ & D).
  pose proof (flash_part_result 2 3 4 5 1 2 sample_flash
                SWITCHTEC_FW_TYPE_NVLOG 0 1 ltac:(lia) ltac:(lia) ltac:(lia)
                eq_refl eq_refl) as (_ & _ & N & _).
  split; [reflexivity|]. split; [exact (proj1 (D eq_refl))|].
  apply N. reflexivity.
Defined.
